(** * Migration orchestration core: risk scoring, plan state machine, cutover

    A shallow embedding of the planning-and-control code of the platform:

    - [src/models/customer.py], [src/models/risk.py]: the data model;
    - [src/risk/risk_assessor.py]: [RiskAssessor];
    - [src/channels/playbooks.py]: [PlaybookFactory] and the step lists;
    - [src/orchestration/migration_orchestrator.py]: [MigrationOrchestrator];
    - [src/cutover/cutover_coordinator.py]: [CutoverCoordinator];
    - [src/models/simulation.py], [src/simulation/simulation_engine.py]:
      [SimulationEngine].

    Conventions of the embedding.

    - Python [float] scores are idealised as exact rationals ([Q]): every
      literal of the source is a decimal, and the statements below compare
      scores with thresholds or with each other.  Rounding of binary64
      arithmetic is not modelled.
    - A naive UTC [datetime] is the number of microseconds since
      1970-01-01T00:00:00 ([Z]); a [timedelta] is a number of microseconds.
    - [uuid.uuid4()] and [datetime.utcnow()] read the outside world.  The
      world is an explicit component of the run-time state: a stream of
      identifiers and a stream of clock readings, each consumed in program
      order.
    - A pydantic model is a record; an in-place mutation of an object that
      lives in a registry is a functional update written back under the same
      key.  [use_enum_values] stores an enum member as its string value, and
      later assignments store the member itself; members of a [str] enum
      compare and hash equal to their values, so one inductive type per enum
      is the canonical form of both.
    - [raise ValueError(...)] leaves the mutations made so far in place: a
      computation returns a result together with the final state. *)

From Stdlib Require Import ZArith QArith Lqa Lia String Ascii List Bool.
From stdpp Require Import base gmap strings list pretty.

Local Open Scope string_scope.
Local Open Scope Z_scope.

(* ===================================================================== *)
(** * Python run-time helpers *)
(* ===================================================================== *)

Module Py.

(** [str.lower()], on the ASCII letters.  No other code point lowers to an
    ASCII letter that occurs in a key of the tables of this program. *)
Definition lower_ascii (c : ascii) : ascii :=
  let n := nat_of_ascii c in
  if (65 <=? n)%nat && (n <=? 90)%nat then ascii_of_nat (n + 32) else c.

Fixpoint lower (s : string) : string :=
  match s with
  | EmptyString => EmptyString
  | String c s' => String (lower_ascii c) (lower s')
  end.

(** Truth value of an [Optional[str]]: [None] and the empty string are false. *)
Definition truthy (o : option string) : bool :=
  match o with
  | None => false
  | Some EmptyString => false
  | Some (String _ _) => true
  end.

(** [s[:n]] *)
Definition prefix (n : nat) (s : string) : string := substring 0 n s.

(** [str(n)] for an integer. *)
Definition str_of_nat (n : nat) : string := pretty n.
Definition str_of_Z (z : Z) : string := pretty z.

(** ["%0wd" % z] for a non-negative [z]. *)
Fixpoint zeros (n : nat) : string :=
  match n with
  | O => ""
  | S n' => "0" +:+ zeros n'
  end.

Definition zfill (w : nat) (z : Z) : string :=
  let s := str_of_Z z in
  zeros (w - String.length s) +:+ s.

(** ** [timedelta] *)

Definition second : Z := 1000000.
Definition day : Z := 86400 * second.
Definition week : Z := 7 * day.

(** [timedelta(days=d)], [timedelta(weeks=w)] *)
Definition timedelta_days (d : Z) : Z := d * day.
Definition timedelta_weeks (w : Z) : Z := w * week.

(** ** [datetime.isoformat()] *)

(** Proleptic Gregorian date of a day number counted from 1970-01-01. *)
Definition civil_from_days (days : Z) : Z * Z * Z :=
  let z := days + 719468 in
  let era := z / 146097 in
  let doe := z - era * 146097 in
  let yoe := (doe - doe / 1460 + doe / 36524 - doe / 146096) / 365 in
  let doy := doe - (365 * yoe + yoe / 4 - yoe / 100) in
  let mp := (5 * doy + 2) / 153 in
  let d := doy - (153 * mp + 2) / 5 + 1 in
  let m := if mp <? 10 then mp + 3 else mp - 9 in
  let y := yoe + era * 400 + (if m <=? 2 then 1 else 0) in
  (y, m, d).

(** [YYYY-MM-DDTHH:MM:SS], followed by [.ffffff] when the microsecond field
    is not zero. *)
Definition isoformat (t : Z) : string :=
  let days := t / day in
  let rest := t mod day in
  let '(y, m, d) := civil_from_days days in
  let secs := rest / second in
  let us := rest mod second in
  let hh := secs / 3600 in
  let mm := (secs mod 3600) / 60 in
  let ss := secs mod 60 in
  zfill 4 y +:+ "-" +:+ zfill 2 m +:+ "-" +:+ zfill 2 d +:+ "T" +:+
  zfill 2 hh +:+ ":" +:+ zfill 2 mm +:+ ":" +:+ zfill 2 ss +:+
  (if us =? 0 then "" else "." +:+ zfill 6 us).

(** ** [format(x, ".1f")] *)

(** Nearest integer to [a / b] for [0 <= a], [0 < b], ties to even. *)
Definition round_half_even (a b : Z) : Z :=
  let q := a / b in
  let r := a mod b in
  match 2 * r ?= b with
  | Lt => q
  | Gt => q + 1
  | Eq => if Z.even q then q else q + 1
  end.

Definition format_1f (x : Q) : string :=
  let m := round_half_even (10 * Z.abs (Qnum x)) (Z.pos (Qden x)) in
  (if Qnum x <? 0 then "-" else "") +:+
  str_of_Z (m / 10) +:+ "." +:+ str_of_Z (m mod 10).

End Py.

(* ===================================================================== *)
(** * Data model: [src/models/customer.py] *)
(* ===================================================================== *)

Inductive ChannelType :=
| EDI | SFTP | REST_API | SOAP_API | THICK_CLIENT | WEB_PORTAL.

#[global] Instance ChannelType_eq_dec : EqDecision ChannelType.
Proof. solve_decision. Defined.

(** The [value] of a member. *)
Definition ChannelType_value (t : ChannelType) : string :=
  match t with
  | EDI => "edi"
  | SFTP => "sftp"
  | REST_API => "rest_api"
  | SOAP_API => "soap_api"
  | THICK_CLIENT => "thick_client"
  | WEB_PORTAL => "web_portal"
  end.

Module IntegrationChannel.
Record t := mk {
  channel_id : string;
  channel_type : ChannelType;
  name : string;
  config : gmap string string;
  legacy_endpoint : option string;
  target_endpoint : option string;
  is_active : bool;
  transaction_volume : Z
}.
End IntegrationChannel.

Module Customer.
Record t := mk {
  customer_id : string;
  name : string;
  industry : option string;
  channels : list IntegrationChannel.t;
  business_criticality : string;
  compliance_requirements : list string;
  contact_email : option string;
  contact_phone : option string;
  created_at : Z
}.

Definition with_compliance_requirements (reqs : list string) (c : t) : t :=
  {| customer_id := customer_id c; name := name c; industry := industry c;
     channels := channels c; business_criticality := business_criticality c;
     compliance_requirements := reqs;
     contact_email := contact_email c; contact_phone := contact_phone c;
     created_at := created_at c |}.
End Customer.

Inductive MigrationStatus :=
| PENDING | PLANNING | RISK_ASSESSMENT | SIMULATION | READY
| IN_PROGRESS | COMPLETED | FAILED | ROLLED_BACK.

#[global] Instance MigrationStatus_eq_dec : EqDecision MigrationStatus.
Proof. solve_decision. Defined.

Definition MigrationStatus_value (s : MigrationStatus) : string :=
  match s with
  | PENDING => "pending"
  | PLANNING => "planning"
  | RISK_ASSESSMENT => "risk_assessment"
  | SIMULATION => "simulation"
  | READY => "ready"
  | IN_PROGRESS => "in_progress"
  | COMPLETED => "completed"
  | FAILED => "failed"
  | ROLLED_BACK => "rolled_back"
  end.

Module ChannelMigration.
Record t := mk {
  channel_id : string;
  channel_type : ChannelType;
  status : MigrationStatus;
  risk_score : Q;
  playbook_id : option string;
  simulation_passed : bool;
  cutover_timestamp : option Z;
  rollback_available : bool;
  notes : list string
}.

(** [cm.status = s] *)
Definition set_status (s : MigrationStatus) (cm : t) : t :=
  {| channel_id := channel_id cm; channel_type := channel_type cm;
     status := s; risk_score := risk_score cm; playbook_id := playbook_id cm;
     simulation_passed := simulation_passed cm;
     cutover_timestamp := cutover_timestamp cm;
     rollback_available := rollback_available cm; notes := notes cm |}.

(** [cm.simulation_passed = b] *)
Definition set_simulation_passed (b : bool) (cm : t) : t :=
  {| channel_id := channel_id cm; channel_type := channel_type cm;
     status := status cm; risk_score := risk_score cm;
     playbook_id := playbook_id cm; simulation_passed := b;
     cutover_timestamp := cutover_timestamp cm;
     rollback_available := rollback_available cm; notes := notes cm |}.

(** [cm.cutover_timestamp = ts] *)
Definition set_cutover_timestamp (ts : Z) (cm : t) : t :=
  {| channel_id := channel_id cm; channel_type := channel_type cm;
     status := status cm; risk_score := risk_score cm;
     playbook_id := playbook_id cm;
     simulation_passed := simulation_passed cm;
     cutover_timestamp := Some ts;
     rollback_available := rollback_available cm; notes := notes cm |}.

(** [cm.notes.append(note)] *)
Definition append_note (note : string) (cm : t) : t :=
  {| channel_id := channel_id cm; channel_type := channel_type cm;
     status := status cm; risk_score := risk_score cm;
     playbook_id := playbook_id cm;
     simulation_passed := simulation_passed cm;
     cutover_timestamp := cutover_timestamp cm;
     rollback_available := rollback_available cm;
     notes := (notes cm ++ [note])%list |}.
End ChannelMigration.

Module MigrationPlan.
Record t := mk {
  plan_id : string;
  customer_id : string;
  customer_name : string;
  overall_status : MigrationStatus;
  channel_migrations : list ChannelMigration.t;
  overall_risk_score : Q;
  created_at : Z;
  planned_start : option Z;
  planned_completion : option Z;
  actual_start : option Z;
  actual_completion : option Z;
  migration_strategy : string
}.

Definition set_overall_status (s : MigrationStatus) (p : t) : t :=
  {| plan_id := plan_id p; customer_id := customer_id p;
     customer_name := customer_name p; overall_status := s;
     channel_migrations := channel_migrations p;
     overall_risk_score := overall_risk_score p; created_at := created_at p;
     planned_start := planned_start p;
     planned_completion := planned_completion p;
     actual_start := actual_start p;
     actual_completion := actual_completion p;
     migration_strategy := migration_strategy p |}.

(** The channel migrations of a plan are mutated in place; the plan keeps
    the same list object, whose elements carry the new field values. *)
Definition set_channel_migrations (cms : list ChannelMigration.t) (p : t) : t :=
  {| plan_id := plan_id p; customer_id := customer_id p;
     customer_name := customer_name p; overall_status := overall_status p;
     channel_migrations := cms;
     overall_risk_score := overall_risk_score p; created_at := created_at p;
     planned_start := planned_start p;
     planned_completion := planned_completion p;
     actual_start := actual_start p;
     actual_completion := actual_completion p;
     migration_strategy := migration_strategy p |}.

Definition set_planned_start (ts : Z) (p : t) : t :=
  {| plan_id := plan_id p; customer_id := customer_id p;
     customer_name := customer_name p; overall_status := overall_status p;
     channel_migrations := channel_migrations p;
     overall_risk_score := overall_risk_score p; created_at := created_at p;
     planned_start := Some ts;
     planned_completion := planned_completion p;
     actual_start := actual_start p;
     actual_completion := actual_completion p;
     migration_strategy := migration_strategy p |}.

Definition set_planned_completion (ts : Z) (p : t) : t :=
  {| plan_id := plan_id p; customer_id := customer_id p;
     customer_name := customer_name p; overall_status := overall_status p;
     channel_migrations := channel_migrations p;
     overall_risk_score := overall_risk_score p; created_at := created_at p;
     planned_start := planned_start p;
     planned_completion := Some ts;
     actual_start := actual_start p;
     actual_completion := actual_completion p;
     migration_strategy := migration_strategy p |}.

Definition set_actual_start (ts : Z) (p : t) : t :=
  {| plan_id := plan_id p; customer_id := customer_id p;
     customer_name := customer_name p; overall_status := overall_status p;
     channel_migrations := channel_migrations p;
     overall_risk_score := overall_risk_score p; created_at := created_at p;
     planned_start := planned_start p;
     planned_completion := planned_completion p;
     actual_start := Some ts;
     actual_completion := actual_completion p;
     migration_strategy := migration_strategy p |}.

Definition set_actual_completion (ts : Z) (p : t) : t :=
  {| plan_id := plan_id p; customer_id := customer_id p;
     customer_name := customer_name p; overall_status := overall_status p;
     channel_migrations := channel_migrations p;
     overall_risk_score := overall_risk_score p; created_at := created_at p;
     planned_start := planned_start p;
     planned_completion := planned_completion p;
     actual_start := actual_start p;
     actual_completion := Some ts;
     migration_strategy := migration_strategy p |}.
End MigrationPlan.

(* ===================================================================== *)
(** * Data model: [src/models/risk.py] *)
(* ===================================================================== *)

Inductive RiskCategory :=
| TECHNICAL | BUSINESS | COMPLIANCE | OPERATIONAL | INTEGRATION.

#[global] Instance RiskCategory_eq_dec : EqDecision RiskCategory.
Proof. solve_decision. Defined.

(** Iteration order of the enum: the order of definition. *)
Definition RiskCategory_members : list RiskCategory :=
  [TECHNICAL; BUSINESS; COMPLIANCE; OPERATIONAL; INTEGRATION].

Inductive RiskSeverity := LOW | MEDIUM | HIGH | CRITICAL.

#[global] Instance RiskSeverity_eq_dec : EqDecision RiskSeverity.
Proof. solve_decision. Defined.

Definition RiskSeverity_value (s : RiskSeverity) : string :=
  match s with
  | LOW => "low"
  | MEDIUM => "medium"
  | HIGH => "high"
  | CRITICAL => "critical"
  end.

Module RiskFactor.
Record t := mk {
  factor_id : string;
  category : RiskCategory;
  severity : RiskSeverity;
  description : string;
  impact_score : Q;
  likelihood_score : Q;
  mitigation_strategy : option string
}.

(** The [risk_score] property: [(impact_score * likelihood_score) / 100.0] *)
Definition risk_score (f : t) : Q :=
  (impact_score f * likelihood_score f) / 100.0.

(** The field constraints [ge=0.0, le=100.0] checked at construction. *)
Definition valid (f : t) : Prop :=
  (0 <= impact_score f /\ impact_score f <= 100)%Q /\
  (0 <= likelihood_score f /\ likelihood_score f <= 100)%Q.
End RiskFactor.

Module RiskAssessment.
Record t := mk {
  assessment_id : string;
  customer_id : string;
  channel_id : option string;
  risk_factors : list RiskFactor.t;
  overall_risk_score : Q;
  risk_level : RiskSeverity;
  migration_readiness_score : Q;
  recommended_actions : list string;
  assessed_at : Z;
  assessed_by : string
}.
End RiskAssessment.

(* ===================================================================== *)
(** * Data model: the dictionaries of [src/cutover/cutover_coordinator.py] *)
(* ===================================================================== *)

Inductive CutoverStrategy := IMMEDIATE | GRADUAL | PARALLEL | CANARY.

#[global] Instance CutoverStrategy_eq_dec : EqDecision CutoverStrategy.
Proof. solve_decision. Defined.

(** One entry of the ["steps"] list of a cutover plan. *)
Module CutoverStep.
Record t := mk {
  step : Z;
  name : string;
  description : string;
  status : string;
  started_at : option Z;
  completed_at : option Z
}.
End CutoverStep.

(** The dictionary built by [rollback_cutover]. *)
Module Rollback.
Record t := mk {
  cutover_id : string;
  rollback_initiated_at : Z;
  reason : string;
  status : string;
  steps : list string;
  completed_at : option Z
}.
End Rollback.

(** The ["metrics"] dictionary of a cutover plan. *)
Module Metrics.
Record t := mk {
  error_rate : Q;
  transaction_count : Z;
  latency_ms : Q
}.
End Metrics.

(** The cutover plan dictionary; the keys ["completed_at"] and ["rollback"]
    are absent until they are assigned. *)
Module Cutover.
Record t := mk {
  cutover_id : string;
  channel_id : string;
  strategy : CutoverStrategy;
  started_at : Z;
  status : string;
  steps : list CutoverStep.t;
  current_step : nat;
  metrics : Metrics.t;
  completed_at : option Z;
  rollback : option Rollback.t
}.
End Cutover.

(* ===================================================================== *)
(** * Run-time state and the computation monad *)
(* ===================================================================== *)

(** The outside world: what successive calls of [uuid.uuid4().hex] and of
    [datetime.utcnow()] return, and how many of each were made. *)
Record World := mkWorld {
  uuid_stream : nat -> string;
  uuid_drawn : nat;
  clock_stream : nat -> Z;
  clock_read : nat
}.

(** [MigrationOrchestrator.migration_plans] and
    [CutoverCoordinator.active_cutovers].  The orchestrator's
    [simulations] dictionary is never read or written and is left out.
    Every plan object is stored under one key and every channel migration
    belongs to one plan, so the registries hold their objects by value. *)
Record Runtime := mkRuntime {
  world : World;
  migration_plans : gmap string MigrationPlan.t;
  active_cutovers : gmap string Cutover.t
}.

Inductive Exception := ValueError (msg : string).

Inductive Result (A : Type) :=
| Ok (a : A)
| Raise (e : Exception).
Arguments Ok {A} a.
Arguments Raise {A} e.

Definition M (A : Type) : Type := Runtime -> Result A * Runtime.

Definition ret {A} (a : A) : M A := fun r => (Ok a, r).

Definition bind {A B} (m : M A) (k : A -> M B) : M B :=
  fun r =>
    match m r with
    | (Ok a, r') => k a r'
    | (Raise e, r') => (Raise e, r')
    end.

Definition raise {A} (e : Exception) : M A := fun r => (Raise e, r).

Notation "'let*' x ':=' c1 'in' c2" := (bind c1 (fun x => c2))
  (at level 10, x pattern, c1 at level 100, c2 at level 200).

(** [uuid.uuid4().hex] *)
Definition uuid4_hex : M string :=
  fun r =>
    let w := world r in
    (Ok (uuid_stream w (uuid_drawn w)),
     mkRuntime (mkWorld (uuid_stream w) (S (uuid_drawn w))
                        (clock_stream w) (clock_read w))
               (migration_plans r) (active_cutovers r)).

(** [datetime.utcnow()] *)
Definition utcnow : M Z :=
  fun r =>
    let w := world r in
    (Ok (clock_stream w (clock_read w)),
     mkRuntime (mkWorld (uuid_stream w) (uuid_drawn w)
                        (clock_stream w) (S (clock_read w)))
               (migration_plans r) (active_cutovers r)).

(** [self.migration_plans.get(plan_id)] *)
Definition get_plan (plan_id : string) : M (option MigrationPlan.t) :=
  fun r => (Ok (migration_plans r !! plan_id), r).

(** [self.migration_plans[plan_id] = plan]; also the write-back of a plan
    object that was mutated in place. *)
Definition put_plan (plan_id : string) (plan : MigrationPlan.t) : M unit :=
  fun r =>
    (Ok tt, mkRuntime (world r) (<[plan_id := plan]> (migration_plans r))
                      (active_cutovers r)).

(** [self.active_cutovers.get(cutover_id)] *)
Definition get_cutover (cutover_id : string) : M (option Cutover.t) :=
  fun r => (Ok (active_cutovers r !! cutover_id), r).

Definition put_cutover (cutover_id : string) (c : Cutover.t) : M unit :=
  fun r =>
    (Ok tt, mkRuntime (world r) (migration_plans r)
                      (<[cutover_id := c]> (active_cutovers r))).

(** A loop that appends one result per element. *)
Fixpoint mapM {A B} (f : A -> M B) (l : list A) : M (list B) :=
  match l with
  | [] => ret []
  | x :: l' =>
      let* y := f x in
      let* ys := mapM f l' in
      ret (y :: ys)
  end.

(** [d.get(k, default)] on a dictionary literal, kept in source order. *)
Fixpoint dict_get {K V} `{EqDecision K} (d : list (K * V)) (k : K) (default : V) : V :=
  match d with
  | [] => default
  | (k', v) :: d' => if decide (k' = k) then v else dict_get d' k default
  end.

(* ===================================================================== *)
(** * [RiskAssessor]: [src/risk/risk_assessor.py] *)
(* ===================================================================== *)

Module RiskAssessor.
Local Open Scope Q_scope.

(** [self.risk_weights] *)
Definition risk_weights : list (RiskCategory * Q) :=
  [ (TECHNICAL, 0.25); (BUSINESS, 0.30); (COMPLIANCE, 0.25);
    (OPERATIONAL, 0.15); (INTEGRATION, 0.05) ].

Definition _determine_risk_level (risk_score : Q) : RiskSeverity :=
  if Qle_bool 70.0 risk_score then CRITICAL
  else if Qle_bool 50.0 risk_score then HIGH
  else if Qle_bool 30.0 risk_score then MEDIUM
  else LOW.

Definition _score_to_severity (score : Q) : RiskSeverity :=
  _determine_risk_level score.

Definition criticality_map : list (string * (Q * Q)) :=
  [ ("low", (10.0, 30.0)); ("medium", (30.0, 50.0));
    ("high", (60.0, 80.0)); ("critical", (80.0, 95.0)) ].

Definition _assess_business_criticality (customer : Customer.t)
  : M (list RiskFactor.t) :=
  let '(impact, likelihood) :=
    dict_get criticality_map
             (Py.lower (Customer.business_criticality customer))
             (30.0, 50.0) in
  let* u := uuid4_hex in
  ret [ {| RiskFactor.factor_id := "BIZ-CRIT-" +:+ Py.prefix 6 u;
           RiskFactor.category := BUSINESS;
           RiskFactor.severity :=
             _score_to_severity ((impact * likelihood) / 100.0);
           RiskFactor.description :=
             "Business criticality level: " +:+
             Customer.business_criticality customer;
           RiskFactor.impact_score := impact;
           RiskFactor.likelihood_score := likelihood;
           RiskFactor.mitigation_strategy :=
             Some "Implement parallel run and staged rollout for critical customers" |} ].

(** The body of the loop over [customer.compliance_requirements]. *)
Definition compliance_factor (requirement : string) : M RiskFactor.t :=
  let impact := 70.0 in
  let likelihood := 40.0 in
  let* u := uuid4_hex in
  ret {| RiskFactor.factor_id := "COMP-" +:+ Py.prefix 6 u;
         RiskFactor.category := COMPLIANCE;
         RiskFactor.severity := HIGH;
         RiskFactor.description := "Compliance requirement: " +:+ requirement;
         RiskFactor.impact_score := impact;
         RiskFactor.likelihood_score := likelihood;
         RiskFactor.mitigation_strategy :=
           Some ("Ensure " +:+ requirement +:+
                 " compliance validation in simulation phase") |}.

Definition _assess_compliance (customer : Customer.t) : M (list RiskFactor.t) :=
  match Customer.compliance_requirements customer with
  | [] => ret []
  | requirements => mapM compliance_factor requirements
  end.

Definition legacy_types : list ChannelType := [EDI; THICK_CLIENT].

Definition _assess_channel_complexity (customer : Customer.t)
  : M (list RiskFactor.t) :=
  let num_channels := length (Customer.channels customer) in
  let* factors1 :=
    if (5 <? num_channels)%nat then
      let* u := uuid4_hex in
      ret [ {| RiskFactor.factor_id := "CH-COUNT-" +:+ Py.prefix 6 u;
               RiskFactor.category := INTEGRATION;
               RiskFactor.severity := HIGH;
               RiskFactor.description :=
                 "High number of integration channels: " +:+
                 Py.str_of_nat num_channels;
               RiskFactor.impact_score := 65.0;
               RiskFactor.likelihood_score := 60.0;
               RiskFactor.mitigation_strategy :=
                 Some "Prioritize channels and migrate in phases" |} ]
    else ret [] in
  let has_legacy :=
    existsb (fun ch => bool_decide (IntegrationChannel.channel_type ch ∈ legacy_types))
            (Customer.channels customer) in
  let* factors2 :=
    if has_legacy then
      let* u := uuid4_hex in
      ret [ {| RiskFactor.factor_id := "LEGACY-CH-" +:+ Py.prefix 6 u;
               RiskFactor.category := TECHNICAL;
               RiskFactor.severity := MEDIUM;
               RiskFactor.description :=
                 "Customer uses legacy channel types (EDI or thick client)";
               RiskFactor.impact_score := 55.0;
               RiskFactor.likelihood_score := 50.0;
               RiskFactor.mitigation_strategy :=
                 Some "Use channel-specific migration playbooks for legacy integrations" |} ]
    else ret [] in
  ret (factors1 ++ factors2)%list.

Definition _assess_operational_factors (customer : Customer.t)
  : M (list RiskFactor.t) :=
  if negb (Py.truthy (Customer.contact_email customer)) &&
     negb (Py.truthy (Customer.contact_phone customer))
  then
    let* u := uuid4_hex in
    ret [ {| RiskFactor.factor_id := "OP-CONTACT-" +:+ Py.prefix 6 u;
             RiskFactor.category := OPERATIONAL;
             RiskFactor.severity := MEDIUM;
             RiskFactor.description :=
               "No contact information available for customer";
             RiskFactor.impact_score := 40.0;
             RiskFactor.likelihood_score := 60.0;
             RiskFactor.mitigation_strategy :=
               Some "Establish communication channel before migration" |} ]
  else ret [].

Definition complexity_map : list (ChannelType * (Q * string)) :=
  [ (EDI, (70.0, "EDI migrations require protocol mapping and validation"));
    (THICK_CLIENT, (65.0, "Thick client requires application deployment and testing"));
    (SFTP, (40.0, "SFTP migration requires file format validation"));
    (SOAP_API, (50.0, "SOAP API migration requires interface compatibility"));
    (REST_API, (30.0, "REST API migration is relatively straightforward"));
    (WEB_PORTAL, (35.0, "Web portal migration requires UI/UX validation")) ].

Definition _assess_channel_technical_risk (channel : IntegrationChannel.t)
  : M (list RiskFactor.t) :=
  let '(impact, description) :=
    dict_get complexity_map (IntegrationChannel.channel_type channel)
             (40.0, "Standard channel migration") in
  let* u := uuid4_hex in
  ret [ {| RiskFactor.factor_id := "TECH-" +:+ Py.prefix 6 u;
           RiskFactor.category := TECHNICAL;
           RiskFactor.severity := _score_to_severity impact;
           RiskFactor.description := description;
           RiskFactor.impact_score := impact;
           RiskFactor.likelihood_score := 50.0;
           RiskFactor.mitigation_strategy :=
             Some "Use channel-specific playbook and thorough testing" |} ].

Definition _assess_integration_complexity (channel : IntegrationChannel.t)
  : M (list RiskFactor.t) :=
  if negb (Py.truthy (IntegrationChannel.target_endpoint channel)) then
    let* u := uuid4_hex in
    ret [ {| RiskFactor.factor_id := "INT-ENDPOINT-" +:+ Py.prefix 6 u;
             RiskFactor.category := INTEGRATION;
             RiskFactor.severity := HIGH;
             RiskFactor.description := "Target endpoint not configured";
             RiskFactor.impact_score := 75.0;
             RiskFactor.likelihood_score := 100.0;
             RiskFactor.mitigation_strategy :=
               Some "Configure and validate target endpoint before migration" |} ]
  else ret [].

Definition _assess_transaction_volume_risk (channel : IntegrationChannel.t)
  : M (list RiskFactor.t) :=
  if (10000 <? IntegrationChannel.transaction_volume channel)%Z then
    let* u := uuid4_hex in
    ret [ {| RiskFactor.factor_id := "VOL-HIGH-" +:+ Py.prefix 6 u;
             RiskFactor.category := OPERATIONAL;
             RiskFactor.severity := HIGH;
             RiskFactor.description :=
               "High transaction volume: " +:+
               Py.str_of_Z (IntegrationChannel.transaction_volume channel) +:+
               "/day";
             RiskFactor.impact_score := 70.0;
             RiskFactor.likelihood_score := 45.0;
             RiskFactor.mitigation_strategy :=
               Some "Implement load testing and performance validation" |} ]
  else ret [].

(** [category_scores[k].append(x)]; every category is a key. *)
Fixpoint scores_append (d : list (RiskCategory * list Q)) (k : RiskCategory) (x : Q)
  : list (RiskCategory * list Q) :=
  match d with
  | [] => []
  | (k', l) :: d' =>
      if decide (k' = k) then (k', (l ++ [x])%list) :: d'
      else (k', l) :: scores_append d' k x
  end.

(** [sum(scores)] *)
Definition sum (scores : list Q) : Q := fold_left Qplus scores 0.

(** [len(scores)] as the divisor of a float division. *)
Definition len (scores : list Q) : Q := inject_Z (Z.of_nat (length scores)).

(** One iteration of the loop over [category_scores.items()]. *)
Definition add_category (weighted_score : Q) (item : RiskCategory * list Q) : Q :=
  let '(category, scores) := item in
  match scores with
  | [] => weighted_score
  | _ =>
      let avg_score := sum scores / len scores in
      weighted_score + avg_score * dict_get risk_weights category 0.1
  end.

Definition _calculate_overall_risk (risk_factors : list RiskFactor.t) : Q :=
  match risk_factors with
  | [] => 0.0
  | _ =>
      let category_scores :=
        fold_left
          (fun d factor =>
             scores_append d (RiskFactor.category factor)
                           (RiskFactor.risk_score factor))
          risk_factors
          (map (fun cat => (cat, [])) RiskCategory_members) in
      let weighted_score := fold_left add_category category_scores 0.0 in
      (* min(100.0, weighted_score) *)
      if Qle_bool 100.0 weighted_score then 100.0 else weighted_score
  end.

Definition _generate_recommendations
  (risk_factors : list RiskFactor.t) (customer : Customer.t) : list string :=
  let high_risk_factors :=
    filter (fun f => RiskFactor.severity f ∈ [HIGH; CRITICAL]) risk_factors in
  ((match high_risk_factors with
   | [] => []
   | _ => [ "Implement phased migration approach due to high-risk factors";
            "Conduct thorough simulation testing before cutover" ]
   end) ++
  (match Customer.compliance_requirements customer with
   | [] => []
   | _ => [ "Validate compliance requirements in test environment" ]
   end) ++
  (if (3 <? length (Customer.channels customer))%nat
   then [ "Prioritize channels by business impact and migrate sequentially" ]
   else []) ++
  [ "Establish rollback procedures for each migration phase";
    "Set up real-time monitoring during cutover period" ])%list.

Definition _generate_channel_recommendations
  (risk_factors : list RiskFactor.t) (channel : IntegrationChannel.t)
  : list string :=
  let channel_type_value :=
    ChannelType_value (IntegrationChannel.channel_type channel) in
  ([ "Use " +:+ channel_type_value +:+ " migration playbook";
    "Validate channel configuration in simulation environment" ] ++
  (if (5000 <? IntegrationChannel.transaction_volume channel)%Z
   then [ "Conduct load testing before production cutover" ]
   else []) ++
  [ "Implement transaction logging for troubleshooting" ])%list.

Definition assess_customer (customer : Customer.t) : M RiskAssessment.t :=
  let* u := uuid4_hex in
  let assessment_id := "RISK-" +:+ Py.prefix 8 u in
  let* business := _assess_business_criticality customer in
  let* compliance := _assess_compliance customer in
  let* complexity := _assess_channel_complexity customer in
  let* operational := _assess_operational_factors customer in
  let risk_factors :=
    (business ++ compliance ++ complexity ++ operational)%list in
  let overall_risk_score := _calculate_overall_risk risk_factors in
  let risk_level := _determine_risk_level overall_risk_score in
  let readiness_score := 100.0 - overall_risk_score in
  let recommended_actions := _generate_recommendations risk_factors customer in
  let* now := utcnow in
  ret {| RiskAssessment.assessment_id := assessment_id;
         RiskAssessment.customer_id := Customer.customer_id customer;
         RiskAssessment.channel_id := None;
         RiskAssessment.risk_factors := risk_factors;
         RiskAssessment.overall_risk_score := overall_risk_score;
         RiskAssessment.risk_level := risk_level;
         RiskAssessment.migration_readiness_score := readiness_score;
         RiskAssessment.recommended_actions := recommended_actions;
         RiskAssessment.assessed_at := now;
         RiskAssessment.assessed_by := "system" |}.

Definition assess_channel (customer : Customer.t) (channel : IntegrationChannel.t)
  : M RiskAssessment.t :=
  let* u := uuid4_hex in
  let assessment_id := "RISK-CH-" +:+ Py.prefix 8 u in
  let* technical := _assess_channel_technical_risk channel in
  let* integration := _assess_integration_complexity channel in
  let* volume := _assess_transaction_volume_risk channel in
  let risk_factors := (technical ++ integration ++ volume)%list in
  let overall_risk_score := _calculate_overall_risk risk_factors in
  let risk_level := _determine_risk_level overall_risk_score in
  let readiness_score := 100.0 - overall_risk_score in
  let recommended_actions :=
    _generate_channel_recommendations risk_factors channel in
  let* now := utcnow in
  ret {| RiskAssessment.assessment_id := assessment_id;
         RiskAssessment.customer_id := Customer.customer_id customer;
         RiskAssessment.channel_id :=
           Some (IntegrationChannel.channel_id channel);
         RiskAssessment.risk_factors := risk_factors;
         RiskAssessment.overall_risk_score := overall_risk_score;
         RiskAssessment.risk_level := risk_level;
         RiskAssessment.migration_readiness_score := readiness_score;
         RiskAssessment.recommended_actions := recommended_actions;
         RiskAssessment.assessed_at := now;
         RiskAssessment.assessed_by := "system" |}.

End RiskAssessor.

(* ===================================================================== *)
(** * [PlaybookFactory]: [src/channels/playbooks.py] *)
(* ===================================================================== *)

Module PlaybookFactory.

Inductive Playbook :=
| MigrationPlaybook
| EDIMigrationPlaybook
| SFTPMigrationPlaybook
| APIRigrationPlaybook
| ThickClientMigrationPlaybook.

Definition playbook_map : list (ChannelType * Playbook) :=
  [ (EDI, EDIMigrationPlaybook);
    (SFTP, SFTPMigrationPlaybook);
    (REST_API, APIRigrationPlaybook);
    (SOAP_API, APIRigrationPlaybook);
    (THICK_CLIENT, ThickClientMigrationPlaybook);
    (WEB_PORTAL, APIRigrationPlaybook) ].

Definition create_playbook (channel : IntegrationChannel.t) : Playbook :=
  dict_get playbook_map (IntegrationChannel.channel_type channel)
           MigrationPlaybook.

(** [generate_steps()]: the steps, each named by its ["step_id"].  The
    orchestrator reads the number of steps only. *)
Definition generate_steps (p : Playbook) : list string :=
  match p with
  | MigrationPlaybook => []
  | EDIMigrationPlaybook =>
      ["EDI-01"; "EDI-02"; "EDI-03"; "EDI-04"; "EDI-05"; "EDI-06"; "EDI-07"]
  | SFTPMigrationPlaybook =>
      ["SFTP-01"; "SFTP-02"; "SFTP-03"; "SFTP-04"; "SFTP-05"; "SFTP-06"]
  | APIRigrationPlaybook =>
      ["API-01"; "API-02"; "API-03"; "API-04"; "API-05"; "API-06"]
  | ThickClientMigrationPlaybook =>
      ["CLIENT-01"; "CLIENT-02"; "CLIENT-03"; "CLIENT-04"; "CLIENT-05";
       "CLIENT-06"]
  end.

End PlaybookFactory.

(* ===================================================================== *)
(** * [MigrationOrchestrator]:
      [src/orchestration/migration_orchestrator.py] *)
(* ===================================================================== *)

Module MigrationOrchestrator.

(** One value of the dictionary returned by [run_simulations]. *)
Record SimulationEntry := mkEntry {
  entry_status : string;
  success_rate : Q;
  details : string
}.

Definition not_found (plan_id : string) : Exception :=
  ValueError ("Migration plan " +:+ plan_id +:+ " not found").

Definition not_ready (plan_id : string) : Exception :=
  ValueError ("Migration plan " +:+ plan_id +:+ " is not ready for execution").

Definition _calculate_timeline (plan : MigrationPlan.t) (customer : Customer.t)
  : M MigrationPlan.t :=
  let* now := utcnow in
  if decide (MigrationPlan.migration_strategy plan = "phased") then
    let planned_start := now + Py.timedelta_days 7 in
    let plan := MigrationPlan.set_planned_start planned_start plan in
    let weeks_per_channel := 2 in
    let total_weeks :=
      Z.of_nat (length (Customer.channels customer)) * weeks_per_channel in
    ret (MigrationPlan.set_planned_completion
           (planned_start + Py.timedelta_weeks total_weeks) plan)
  else if decide (MigrationPlan.migration_strategy plan = "big-bang") then
    let planned_start := now + Py.timedelta_days 14 in
    let plan := MigrationPlan.set_planned_start planned_start plan in
    ret (MigrationPlan.set_planned_completion
           (planned_start + Py.timedelta_days 3) plan)
  else
    let planned_start := now + Py.timedelta_days 7 in
    let plan := MigrationPlan.set_planned_start planned_start plan in
    ret (MigrationPlan.set_planned_completion
           (planned_start + Py.timedelta_weeks 8) plan).

(** The body of the loop over [customer.channels]. *)
Definition plan_channel (customer : Customer.t) (channel : IntegrationChannel.t)
  : M ChannelMigration.t :=
  let* channel_risk := RiskAssessor.assess_channel customer channel in
  let playbook := PlaybookFactory.create_playbook channel in
  let steps := PlaybookFactory.generate_steps playbook in
  let channel_type_value :=
    ChannelType_value (IntegrationChannel.channel_type channel) in
  let risk_level_value :=
    RiskSeverity_value (RiskAssessment.risk_level channel_risk) in
  ret {| ChannelMigration.channel_id := IntegrationChannel.channel_id channel;
         ChannelMigration.channel_type :=
           IntegrationChannel.channel_type channel;
         ChannelMigration.status := PLANNING;
         ChannelMigration.risk_score :=
           RiskAssessment.overall_risk_score channel_risk;
         ChannelMigration.playbook_id :=
           Some ("PLAYBOOK-" +:+ channel_type_value);
         ChannelMigration.simulation_passed := false;
         ChannelMigration.cutover_timestamp := None;
         ChannelMigration.rollback_available := true;
         ChannelMigration.notes :=
           [ "Migration playbook: " +:+ Py.str_of_nat (length steps) +:+
             " steps";
             "Risk level: " +:+ risk_level_value;
             "Readiness score: " +:+
             Py.format_1f
               (RiskAssessment.migration_readiness_score channel_risk) ] |}.

Definition create_migration_plan (customer : Customer.t) (strategy : string)
  : M MigrationPlan.t :=
  let* u := uuid4_hex in
  let plan_id := "PLAN-" +:+ Py.prefix 8 u in
  let* customer_risk := RiskAssessor.assess_customer customer in
  let* channel_migrations :=
    mapM (plan_channel customer) (Customer.channels customer) in
  (* the default of [created_at] reads the clock *)
  let* created_at := utcnow in
  let migration_plan :=
    {| MigrationPlan.plan_id := plan_id;
       MigrationPlan.customer_id := Customer.customer_id customer;
       MigrationPlan.customer_name := Customer.name customer;
       MigrationPlan.overall_status := PLANNING;
       MigrationPlan.channel_migrations := channel_migrations;
       MigrationPlan.overall_risk_score :=
         RiskAssessment.overall_risk_score customer_risk;
       MigrationPlan.created_at := created_at;
       MigrationPlan.planned_start := None;
       MigrationPlan.planned_completion := None;
       MigrationPlan.actual_start := None;
       MigrationPlan.actual_completion := None;
       MigrationPlan.migration_strategy := strategy |} in
  let* migration_plan := _calculate_timeline migration_plan customer in
  let* _ := put_plan plan_id migration_plan in
  ret migration_plan.

Definition passed_entry : SimulationEntry :=
  {| entry_status := "passed";
     success_rate := 98.5%Q;
     details := "All test scenarios passed validation" |}.

(** One iteration of the loop of [run_simulations].  The accumulator holds
    the channel migrations visited so far, as the loop left them, and the
    dictionary [simulation_results]. *)
Definition simulation_step
  (acc : list ChannelMigration.t * gmap string SimulationEntry)
  (channel_migration : ChannelMigration.t)
  : list ChannelMigration.t * gmap string SimulationEntry :=
  let '(visited, simulation_results) := acc in
  let cm := ChannelMigration.set_status SIMULATION channel_migration in
  let cm := ChannelMigration.set_simulation_passed true cm in
  let cm := ChannelMigration.set_status READY cm in
  ((visited ++ [cm])%list,
   <[ChannelMigration.channel_id cm := passed_entry]> simulation_results).

Definition run_simulations (plan_id : string)
  : M (gmap string SimulationEntry) :=
  let* found := get_plan plan_id in
  match found with
  | None => raise (not_found plan_id)
  | Some plan =>
      let plan := MigrationPlan.set_overall_status SIMULATION plan in
      let '(channel_migrations, simulation_results) :=
        fold_left simulation_step (MigrationPlan.channel_migrations plan)
                  ([], ∅) in
      let plan := MigrationPlan.set_channel_migrations channel_migrations plan in
      let all_passed :=
        forallb ChannelMigration.simulation_passed
                (MigrationPlan.channel_migrations plan) in
      let plan :=
        if all_passed then MigrationPlan.set_overall_status READY plan
        else MigrationPlan.set_overall_status SIMULATION plan in
      let* _ := put_plan plan_id plan in
      ret simulation_results
  end.

(** [channel_id is None or cm.channel_id == channel_id] *)
Definition targeted (channel_id : option string) (cm : ChannelMigration.t) : bool :=
  match channel_id with
  | None => true
  | Some c => bool_decide (ChannelMigration.channel_id cm = c)
  end.

Definition _execute_channel_migration (channel_migration : ChannelMigration.t)
  : M ChannelMigration.t :=
  let cm := ChannelMigration.set_status IN_PROGRESS channel_migration in
  let* now := utcnow in
  let cm := ChannelMigration.set_cutover_timestamp now cm in
  let cm := ChannelMigration.set_status COMPLETED cm in
  let* now := utcnow in
  ret (ChannelMigration.append_note
         ("Migration completed at " +:+ Py.isoformat now) cm).

(** A loop over the sub-list of the channel migrations selected by [sel]
    that mutates each element in place: the elements of the sub-list are
    the objects of the plan's own list, so the plan's list is traversed in
    order and [body] is applied to the selected elements. *)
Definition for_selected (sel : ChannelMigration.t -> bool)
  (body : ChannelMigration.t -> M ChannelMigration.t)
  (cms : list ChannelMigration.t) : M (list ChannelMigration.t) :=
  mapM (fun cm => if sel cm then body cm else ret cm) cms.

Definition execute_migration (plan_id : string) (channel_id : option string)
  : M MigrationPlan.t :=
  let* found := get_plan plan_id in
  match found with
  | None => raise (not_found plan_id)
  | Some plan =>
      if decide (MigrationPlan.overall_status plan ≠ READY) then
        raise (not_ready plan_id)
      else
        let plan := MigrationPlan.set_overall_status IN_PROGRESS plan in
        let* now := utcnow in
        let plan := MigrationPlan.set_actual_start now plan in
        let* channel_migrations :=
          for_selected (targeted channel_id) _execute_channel_migration
                       (MigrationPlan.channel_migrations plan) in
        let plan := MigrationPlan.set_channel_migrations channel_migrations plan in
        let all_completed :=
          forallb (fun cm => bool_decide (ChannelMigration.status cm = COMPLETED))
                  (MigrationPlan.channel_migrations plan) in
        let* plan :=
          if all_completed then
            let plan := MigrationPlan.set_overall_status COMPLETED plan in
            let* now := utcnow in
            ret (MigrationPlan.set_actual_completion now plan)
          else ret plan in
        let* _ := put_plan plan_id plan in
        ret plan
  end.

(** The body of the loop of [rollback_migration]. *)
Definition rollback_channel (reason : string) (channel_migration : ChannelMigration.t)
  : ChannelMigration.t :=
  if ChannelMigration.rollback_available channel_migration then
    let cm := ChannelMigration.set_status ROLLED_BACK channel_migration in
    ChannelMigration.append_note ("Rolled back: " +:+ reason) cm
  else
    ChannelMigration.append_note ("Rollback not available: " +:+ reason)
                                 channel_migration.

Definition rollback_migration (plan_id : string) (channel_id : option string)
  (reason : string) : M MigrationPlan.t :=
  let* found := get_plan plan_id in
  match found with
  | None => raise (not_found plan_id)
  | Some plan =>
      let* channel_migrations :=
        for_selected (targeted channel_id)
                     (fun cm => ret (rollback_channel reason cm))
                     (MigrationPlan.channel_migrations plan) in
      let plan := MigrationPlan.set_channel_migrations channel_migrations plan in
      let channels_to_rollback :=
        List.filter (targeted channel_id)
                    (MigrationPlan.channel_migrations plan) in
      let all_rolled_back :=
        forallb (fun cm => bool_decide (ChannelMigration.status cm = ROLLED_BACK))
                channels_to_rollback in
      let plan :=
        if all_rolled_back then MigrationPlan.set_overall_status ROLLED_BACK plan
        else plan in
      let* _ := put_plan plan_id plan in
      ret plan
  end.

(** One element of the ["channels"] list returned by
    [get_migration_status]. *)
Module ChannelStatus.
Record t := mk {
  channel_id : string;
  channel_type : string;
  status : string;
  risk_score : Q;
  simulation_passed : bool;
  cutover_timestamp : option string
}.
End ChannelStatus.

(** The dictionary returned by [get_migration_status]. *)
Module StatusReport.
Record t := mk {
  plan_id : string;
  customer_id : string;
  customer_name : string;
  overall_status : string;
  overall_risk_score : Q;
  progress_percentage : Q;
  planned_start : option string;
  planned_completion : option string;
  actual_start : option string;
  actual_completion : option string;
  channels : list ChannelStatus.t
}.
End StatusReport.

(** [status_weights]: the member and its value are one key. *)
Definition status_weights : list (MigrationStatus * Q) :=
  [ (PENDING, 0.0%Q); (PLANNING, 10.0%Q); (RISK_ASSESSMENT, 20.0%Q);
    (SIMULATION, 40.0%Q); (READY, 60.0%Q); (IN_PROGRESS, 80.0%Q);
    (COMPLETED, 100.0%Q); (FAILED, 0.0%Q); (ROLLED_BACK, 0.0%Q) ].

Definition _calculate_progress (plan : MigrationPlan.t) : Q :=
  match MigrationPlan.channel_migrations plan with
  | [] => 0.0%Q
  | channel_migrations =>
      let total_progress :=
        fold_left Qplus
          (map (fun cm => dict_get status_weights (ChannelMigration.status cm) 0.0%Q)
               channel_migrations)
          0%Q in
      (total_progress / inject_Z (Z.of_nat (length channel_migrations)))%Q
  end.

(** The body of the loop of [get_migration_status]. *)
Definition channel_status (cm : ChannelMigration.t) : ChannelStatus.t :=
  {| ChannelStatus.channel_id := ChannelMigration.channel_id cm;
     ChannelStatus.channel_type :=
       ChannelType_value (ChannelMigration.channel_type cm);
     ChannelStatus.status := MigrationStatus_value (ChannelMigration.status cm);
     ChannelStatus.risk_score := ChannelMigration.risk_score cm;
     ChannelStatus.simulation_passed := ChannelMigration.simulation_passed cm;
     ChannelStatus.cutover_timestamp :=
       option_map Py.isoformat (ChannelMigration.cutover_timestamp cm) |}.

Definition get_migration_status (plan_id : string) : M StatusReport.t :=
  let* found := get_plan plan_id in
  match found with
  | None => raise (not_found plan_id)
  | Some plan =>
      let channel_statuses :=
        map channel_status (MigrationPlan.channel_migrations plan) in
      let progress_percentage := _calculate_progress plan in
      ret {| StatusReport.plan_id := MigrationPlan.plan_id plan;
             StatusReport.customer_id := MigrationPlan.customer_id plan;
             StatusReport.customer_name := MigrationPlan.customer_name plan;
             StatusReport.overall_status :=
               MigrationStatus_value (MigrationPlan.overall_status plan);
             StatusReport.overall_risk_score :=
               MigrationPlan.overall_risk_score plan;
             StatusReport.progress_percentage := progress_percentage;
             StatusReport.planned_start :=
               option_map Py.isoformat (MigrationPlan.planned_start plan);
             StatusReport.planned_completion :=
               option_map Py.isoformat (MigrationPlan.planned_completion plan);
             StatusReport.actual_start :=
               option_map Py.isoformat (MigrationPlan.actual_start plan);
             StatusReport.actual_completion :=
               option_map Py.isoformat (MigrationPlan.actual_completion plan);
             StatusReport.channels := channel_statuses |}
  end.

End MigrationOrchestrator.

(* ===================================================================== *)
(** * [CutoverCoordinator]: [src/cutover/cutover_coordinator.py] *)
(* ===================================================================== *)

Module CutoverCoordinator.

Definition not_found (cutover_id : string) : Exception :=
  ValueError ("Cutover " +:+ cutover_id +:+ " not found").

Definition pending_step (n : Z) (name description : string) : CutoverStep.t :=
  {| CutoverStep.step := n; CutoverStep.name := name;
     CutoverStep.description := description;
     CutoverStep.status := "pending";
     CutoverStep.started_at := None; CutoverStep.completed_at := None |}.

Definition _generate_cutover_steps (strategy : CutoverStrategy)
  : list CutoverStep.t :=
  if decide (strategy = IMMEDIATE) then
    [ pending_step 1 "Pre-cutover validation" "Validate modern system ready";
      pending_step 2 "Switch traffic" "Route all traffic to modern platform";
      pending_step 3 "Validate operation"
                   "Confirm modern platform processing correctly" ]
  else if decide (strategy = GRADUAL) then
    [ pending_step 1 "Route 10% traffic" "Send 10% of traffic to modern platform";
      pending_step 2 "Monitor 10% traffic" "Monitor for 15 minutes";
      pending_step 3 "Route 50% traffic" "Increase to 50% traffic";
      pending_step 4 "Monitor 50% traffic" "Monitor for 30 minutes";
      pending_step 5 "Route 100% traffic" "Route all traffic to modern platform";
      pending_step 6 "Final validation" "Confirm full cutover successful" ]
  else if decide (strategy = PARALLEL) then
    [ pending_step 1 "Start parallel run"
                   "Process in both systems simultaneously";
      pending_step 2 "Compare outputs" "Validate modern matches legacy";
      pending_step 3 "Build confidence"
                   "Run for configured period (e.g., 7 days)";
      pending_step 4 "Switch to modern" "Make modern platform primary";
      pending_step 5 "Stop legacy processing" "Decommission legacy system" ]
  else
    [ pending_step 1 "Select canary users" "Choose small subset of users";
      pending_step 2 "Migrate canary users"
                   "Move canary users to modern platform";
      pending_step 3 "Monitor canary" "Monitor canary users for 48 hours";
      pending_step 4 "Expand to all users" "Migrate remaining users";
      pending_step 5 "Final validation"
                   "Confirm all users migrated successfully" ].

(** The coordinator reads [channel_migration.channel_id] and keeps the
    string; it keeps no reference to the channel migration object. *)
Definition initiate_cutover (channel_migration : ChannelMigration.t)
  (strategy : CutoverStrategy) : M Cutover.t :=
  let cutover_id :=
    "CUTOVER-" +:+ ChannelMigration.channel_id channel_migration in
  let* now := utcnow in
  let cutover_plan :=
    {| Cutover.cutover_id := cutover_id;
       Cutover.channel_id := ChannelMigration.channel_id channel_migration;
       Cutover.strategy := strategy;
       Cutover.started_at := now;
       Cutover.status := "initiated";
       Cutover.steps := _generate_cutover_steps strategy;
       Cutover.current_step := 0%nat;
       Cutover.metrics :=
         {| Metrics.error_rate := 0.0%Q;
            Metrics.transaction_count := 0;
            Metrics.latency_ms := 0.0%Q |};
       Cutover.completed_at := None;
       Cutover.rollback := None |} in
  let* _ := put_cutover cutover_id cutover_plan in
  ret cutover_plan.

Definition set_status (s : string) (c : Cutover.t) : Cutover.t :=
  {| Cutover.cutover_id := Cutover.cutover_id c;
     Cutover.channel_id := Cutover.channel_id c;
     Cutover.strategy := Cutover.strategy c;
     Cutover.started_at := Cutover.started_at c;
     Cutover.status := s;
     Cutover.steps := Cutover.steps c;
     Cutover.current_step := Cutover.current_step c;
     Cutover.metrics := Cutover.metrics c;
     Cutover.completed_at := Cutover.completed_at c;
     Cutover.rollback := Cutover.rollback c |}.

Definition set_rollback (rb : Rollback.t) (c : Cutover.t) : Cutover.t :=
  {| Cutover.cutover_id := Cutover.cutover_id c;
     Cutover.channel_id := Cutover.channel_id c;
     Cutover.strategy := Cutover.strategy c;
     Cutover.started_at := Cutover.started_at c;
     Cutover.status := Cutover.status c;
     Cutover.steps := Cutover.steps c;
     Cutover.current_step := Cutover.current_step c;
     Cutover.metrics := Cutover.metrics c;
     Cutover.completed_at := Cutover.completed_at c;
     Cutover.rollback := Some rb |}.

(** The rollback script. *)
Definition rollback_steps : list string :=
  [ "Stop routing traffic to modern platform";
    "Restore routing to legacy platform";
    "Verify legacy system operational";
    "Capture diagnostic logs";
    "Notify stakeholders" ].

(** [for step in rollback["steps"]: pass] *)
Definition run_rollback_step (step : string) : M unit := ret tt.

Definition rollback_cutover (cutover_id : string) (reason : string)
  : M Rollback.t :=
  let* found := get_cutover cutover_id in
  match found with
  | None => raise (not_found cutover_id)
  | Some cutover =>
      let* initiated := utcnow in
      let rollback :=
        {| Rollback.cutover_id := cutover_id;
           Rollback.rollback_initiated_at := initiated;
           Rollback.reason := reason;
           Rollback.status := "rolling_back";
           Rollback.steps := rollback_steps;
           Rollback.completed_at := None |} in
      let* _ := mapM run_rollback_step (Rollback.steps rollback) in
      let* completed := utcnow in
      let rollback :=
        {| Rollback.cutover_id := Rollback.cutover_id rollback;
           Rollback.rollback_initiated_at :=
             Rollback.rollback_initiated_at rollback;
           Rollback.reason := Rollback.reason rollback;
           Rollback.status := "completed";
           Rollback.steps := Rollback.steps rollback;
           Rollback.completed_at := Some completed |} in
      let cutover := set_status "rolled_back" cutover in
      let cutover := set_rollback rollback cutover in
      let* _ := put_cutover cutover_id cutover in
      ret rollback
  end.

(** [cutover["completed_at"] = ts] *)
Definition set_completed_at (ts : Z) (c : Cutover.t) : Cutover.t :=
  {| Cutover.cutover_id := Cutover.cutover_id c;
     Cutover.channel_id := Cutover.channel_id c;
     Cutover.strategy := Cutover.strategy c;
     Cutover.started_at := Cutover.started_at c;
     Cutover.status := Cutover.status c;
     Cutover.steps := Cutover.steps c;
     Cutover.current_step := Cutover.current_step c;
     Cutover.metrics := Cutover.metrics c;
     Cutover.completed_at := Some ts;
     Cutover.rollback := Cutover.rollback c |}.

(** The step dictionaries are mutated in place; the cutover keeps the same
    list, whose element carries the new values. *)
Definition set_steps (steps : list CutoverStep.t) (c : Cutover.t) : Cutover.t :=
  {| Cutover.cutover_id := Cutover.cutover_id c;
     Cutover.channel_id := Cutover.channel_id c;
     Cutover.strategy := Cutover.strategy c;
     Cutover.started_at := Cutover.started_at c;
     Cutover.status := Cutover.status c;
     Cutover.steps := steps;
     Cutover.current_step := Cutover.current_step c;
     Cutover.metrics := Cutover.metrics c;
     Cutover.completed_at := Cutover.completed_at c;
     Cutover.rollback := Cutover.rollback c |}.

Definition set_current_step (n : nat) (c : Cutover.t) : Cutover.t :=
  {| Cutover.cutover_id := Cutover.cutover_id c;
     Cutover.channel_id := Cutover.channel_id c;
     Cutover.strategy := Cutover.strategy c;
     Cutover.started_at := Cutover.started_at c;
     Cutover.status := Cutover.status c;
     Cutover.steps := Cutover.steps c;
     Cutover.current_step := n;
     Cutover.metrics := Cutover.metrics c;
     Cutover.completed_at := Cutover.completed_at c;
     Cutover.rollback := Cutover.rollback c |}.

Definition set_step_status (s : string) (step : CutoverStep.t) : CutoverStep.t :=
  {| CutoverStep.step := CutoverStep.step step;
     CutoverStep.name := CutoverStep.name step;
     CutoverStep.description := CutoverStep.description step;
     CutoverStep.status := s;
     CutoverStep.started_at := CutoverStep.started_at step;
     CutoverStep.completed_at := CutoverStep.completed_at step |}.

Definition set_step_started_at (ts : Z) (step : CutoverStep.t) : CutoverStep.t :=
  {| CutoverStep.step := CutoverStep.step step;
     CutoverStep.name := CutoverStep.name step;
     CutoverStep.description := CutoverStep.description step;
     CutoverStep.status := CutoverStep.status step;
     CutoverStep.started_at := Some ts;
     CutoverStep.completed_at := CutoverStep.completed_at step |}.

Definition set_step_completed_at (ts : Z) (step : CutoverStep.t) : CutoverStep.t :=
  {| CutoverStep.step := CutoverStep.step step;
     CutoverStep.name := CutoverStep.name step;
     CutoverStep.description := CutoverStep.description step;
     CutoverStep.status := CutoverStep.status step;
     CutoverStep.started_at := CutoverStep.started_at step;
     CutoverStep.completed_at := Some ts |}.

(** [steps[current_step]] is out of range exactly when
    [current_step >= len(steps)], the test of the first branch. *)
Definition execute_cutover_step (cutover_id : string) : M Cutover.t :=
  let* found := get_cutover cutover_id in
  match found with
  | None => raise (not_found cutover_id)
  | Some cutover =>
      let current_step := Cutover.current_step cutover in
      let steps := Cutover.steps cutover in
      match steps !! current_step with
      | None =>
          let cutover := set_status "completed" cutover in
          let* now := utcnow in
          let cutover := set_completed_at now cutover in
          let* _ := put_cutover cutover_id cutover in
          ret cutover
      | Some step =>
          let step := set_step_status "in_progress" step in
          let* now := utcnow in
          let step := set_step_started_at now step in
          let step := set_step_status "completed" step in
          let* now := utcnow in
          let step := set_step_completed_at now step in
          let cutover := set_steps (<[current_step := step]> steps) cutover in
          let cutover := set_current_step (current_step + 1) cutover in
          let* cutover :=
            if (length steps <=? Cutover.current_step cutover)%nat then
              let cutover := set_status "completed" cutover in
              let* now := utcnow in
              ret (set_completed_at now cutover)
            else ret (set_status "in_progress" cutover) in
          let* _ := put_cutover cutover_id cutover in
          ret cutover
      end
  end.

(** The dictionary returned by [monitor_cutover]. *)
Module Health.
Record t := mk {
  cutover_id : string;
  status : string;
  health_status : string;
  metrics : Metrics.t;
  warnings : list string;
  step_progress : string
}.
End Health.

Definition monitor_cutover (cutover_id : string) : M Health.t :=
  let* found := get_cutover cutover_id in
  match found with
  | None => raise (not_found cutover_id)
  | Some cutover =>
      let metrics := Cutover.metrics cutover in
      let health_status := "healthy" in
      let warnings := [] in
      let '(health_status, warnings) :=
        if negb (Qle_bool (Metrics.error_rate metrics) 5.0%Q)
        then ("degraded", (warnings ++ ["Error rate above threshold"])%list)
        else (health_status, warnings) in
      let '(health_status, warnings) :=
        if negb (Qle_bool (Metrics.latency_ms metrics) 1000.0%Q)
        then ("degraded", (warnings ++ ["Latency above threshold"])%list)
        else (health_status, warnings) in
      ret {| Health.cutover_id := cutover_id;
             Health.status := Cutover.status cutover;
             Health.health_status := health_status;
             Health.metrics := metrics;
             Health.warnings := warnings;
             Health.step_progress :=
               Py.str_of_nat (Cutover.current_step cutover) +:+ "/" +:+
               Py.str_of_nat (length (Cutover.steps cutover)) |}
  end.

End CutoverCoordinator.

(* ===================================================================== *)
(** * Simulation models: [src/models/simulation.py] *)
(* ===================================================================== *)

(** The values of the [Dict[str, Any]] fields of the scenario templates:
    what JSON can hold.  A dictionary keeps its items in insertion
    order. *)
#[warnings="-register-all"]
Inductive Json :=
| JNull
| JBool (b : bool)
| JInt (n : Z)
| JFloat (x : Q)
| JStr (s : string)
| JList (items : list Json)
| JDict (items : list (string * Json)).

Module SimulationStatus.
Inductive t := PENDING | RUNNING | PASSED | FAILED | ABORTED.

#[global] Instance eq_dec : EqDecision t.
Proof. solve_decision. Defined.

Definition value (s : t) : string :=
  match s with
  | PENDING => "pending"
  | RUNNING => "running"
  | PASSED => "passed"
  | FAILED => "failed"
  | ABORTED => "aborted"
  end.
End SimulationStatus.

Module TestScenario.
Record t := mk {
  scenario_id : string;
  name : string;
  description : string;
  channel_type : string;
  test_data : list (string * Json);
  expected_results : list (string * Json);
  validation_rules : list string
}.
End TestScenario.

(** The dictionary that stands for the answer of a platform. *)
Module Response.
Record t := mk {
  status : string;
  data : list (string * Json);
  timestamp : string;
  source : string
}.
End Response.

Module SimulationResult.
Record t := mk {
  result_id : string;
  scenario_id : string;
  status : SimulationStatus.t;
  success : bool;
  execution_time_ms : Z;
  legacy_output : option Response.t;
  modern_output : option Response.t;
  differences : list string;
  errors : list string;
  warnings : list string;
  executed_at : Z
}.
End SimulationResult.

Module MigrationSimulation.
Record t := mk {
  simulation_id : string;
  customer_id : string;
  channel_id : string;
  scenarios : list TestScenario.t;
  results : list SimulationResult.t;
  overall_status : SimulationStatus.t;
  success_rate : Q;
  started_at : option Z;
  completed_at : option Z
}.

(** The property [passed]. *)
Definition passed (s : t) : bool :=
  bool_decide (overall_status s = SimulationStatus.PASSED) &&
  Qle_bool 95.0%Q (success_rate s).

Definition set_overall_status (st : SimulationStatus.t) (s : t) : t :=
  {| simulation_id := simulation_id s; customer_id := customer_id s;
     channel_id := channel_id s; scenarios := scenarios s;
     results := results s; overall_status := st;
     success_rate := success_rate s; started_at := started_at s;
     completed_at := completed_at s |}.

Definition set_started_at (ts : Z) (s : t) : t :=
  {| simulation_id := simulation_id s; customer_id := customer_id s;
     channel_id := channel_id s; scenarios := scenarios s;
     results := results s; overall_status := overall_status s;
     success_rate := success_rate s; started_at := Some ts;
     completed_at := completed_at s |}.

Definition set_results (rs : list SimulationResult.t) (s : t) : t :=
  {| simulation_id := simulation_id s; customer_id := customer_id s;
     channel_id := channel_id s; scenarios := scenarios s;
     results := rs; overall_status := overall_status s;
     success_rate := success_rate s; started_at := started_at s;
     completed_at := completed_at s |}.

Definition set_completed_at (ts : Z) (s : t) : t :=
  {| simulation_id := simulation_id s; customer_id := customer_id s;
     channel_id := channel_id s; scenarios := scenarios s;
     results := results s; overall_status := overall_status s;
     success_rate := success_rate s; started_at := started_at s;
     completed_at := Some ts |}.

Definition set_success_rate (rate : Q) (s : t) : t :=
  {| simulation_id := simulation_id s; customer_id := customer_id s;
     channel_id := channel_id s; scenarios := scenarios s;
     results := results s; overall_status := overall_status s;
     success_rate := rate; started_at := started_at s;
     completed_at := completed_at s |}.
End MigrationSimulation.

(* ===================================================================== *)
(** * [SimulationEngine]: [src/simulation/simulation_engine.py] *)
(* ===================================================================== *)

Module SimulationEngine.

(** One entry of [scenario_templates]. *)
Module Template.
Record t := mk {
  name : string;
  description : string;
  test_data : list (string * Json);
  expected_results : list (string * Json);
  validation_rules : list string
}.
End Template.

(** [_initialize_scenario_templates] *)
Definition scenario_templates : list (ChannelType * list Template.t) :=
  [ (EDI,
     [ {| Template.name := "EDI 850 Purchase Order";
          Template.description := "Test EDI 850 purchase order processing";
          Template.test_data :=
            [ ("transaction_set", JStr "850");
              ("po_number", JStr "PO123456");
              ("items", JList [ JDict [ ("sku", JStr "ITEM001");
                                        ("quantity", JInt 10) ] ]) ];
          Template.expected_results := [ ("status", JStr "accepted") ];
          Template.validation_rules :=
            [ "Valid 997 acknowledgment"; "Data integrity" ] |};
       {| Template.name := "EDI 856 ASN";
          Template.description := "Test EDI 856 Advanced Shipping Notice";
          Template.test_data :=
            [ ("transaction_set", JStr "856");
              ("shipment_id", JStr "SHIP789");
              ("tracking", JStr "1Z999AA10123456784") ];
          Template.expected_results := [ ("status", JStr "processed") ];
          Template.validation_rules :=
            [ "Shipment tracking updated"; "Notification sent" ] |} ]);
    (SFTP,
     [ {| Template.name := "File Upload";
          Template.description := "Test SFTP file upload";
          Template.test_data :=
            [ ("filename", JStr "orders_20240101.csv");
              ("records", JInt 100) ];
          Template.expected_results :=
            [ ("status", JStr "uploaded"); ("records_processed", JInt 100) ];
          Template.validation_rules :=
            [ "All records processed"; "No errors" ] |};
       {| Template.name := "File Download";
          Template.description := "Test SFTP file download";
          Template.test_data := [ ("filename", JStr "reports_20240101.pdf") ];
          Template.expected_results :=
            [ ("status", JStr "downloaded"); ("size_bytes", JInt 1024) ];
          Template.validation_rules := [ "File integrity verified" ] |} ]);
    (REST_API,
     [ {| Template.name := "GET Request";
          Template.description := "Test GET API endpoint";
          Template.test_data :=
            [ ("endpoint", JStr "/api/orders/12345"); ("method", JStr "GET") ];
          Template.expected_results :=
            [ ("status", JInt 200); ("order_found", JBool true) ];
          Template.validation_rules := [ "Response code 200"; "Valid JSON" ] |};
       {| Template.name := "POST Request";
          Template.description := "Test POST API endpoint";
          Template.test_data :=
            [ ("endpoint", JStr "/api/orders"); ("method", JStr "POST");
              ("body", JDict [ ("order_number", JStr "ORD456") ]) ];
          Template.expected_results :=
            [ ("status", JInt 201); ("order_created", JBool true) ];
          Template.validation_rules :=
            [ "Response code 201"; "Order ID returned" ] |} ]);
    (SOAP_API,
     [ {| Template.name := "SOAP Service Call";
          Template.description := "Test SOAP web service";
          Template.test_data :=
            [ ("operation", JStr "GetOrderStatus"); ("order_id", JStr "12345") ];
          Template.expected_results := [ ("status", JStr "success") ];
          Template.validation_rules :=
            [ "Valid SOAP response"; "Status returned" ] |} ]);
    (THICK_CLIENT,
     [ {| Template.name := "Login Test";
          Template.description := "Test user authentication";
          Template.test_data :=
            [ ("username", JStr "testuser"); ("action", JStr "login") ];
          Template.expected_results := [ ("authenticated", JBool true) ];
          Template.validation_rules := [ "Session established" ] |};
       {| Template.name := "Data Sync Test";
          Template.description := "Test data synchronization";
          Template.test_data :=
            [ ("sync_type", JStr "full"); ("records", JInt 50) ];
          Template.expected_results := [ ("synced", JInt 50) ];
          Template.validation_rules :=
            [ "All records synced"; "No conflicts" ] |} ]);
    (WEB_PORTAL,
     [ {| Template.name := "Portal Login";
          Template.description := "Test web portal login";
          Template.test_data :=
            [ ("username", JStr "customer@example.com");
              ("action", JStr "login") ];
          Template.expected_results := [ ("authenticated", JBool true) ];
          Template.validation_rules :=
            [ "Successful login"; "Dashboard loaded" ] |} ]) ].

(** The body of the loop of [_generate_scenarios], for the template at
    index [i]. *)
Definition scenario_of (channel : IntegrationChannel.t) (i : nat)
  (template : Template.t) : TestScenario.t :=
  {| TestScenario.scenario_id :=
       "SCEN-" +:+ IntegrationChannel.channel_id channel +:+ "-" +:+
       Py.zfill 2 (Z.of_nat i + 1);
     TestScenario.name := Template.name template;
     TestScenario.description := Template.description template;
     TestScenario.channel_type :=
       ChannelType_value (IntegrationChannel.channel_type channel);
     TestScenario.test_data := Template.test_data template;
     TestScenario.expected_results := Template.expected_results template;
     TestScenario.validation_rules := Template.validation_rules template |}.

Definition _generate_scenarios (channel : IntegrationChannel.t)
  : list TestScenario.t :=
  let templates :=
    dict_get scenario_templates (IntegrationChannel.channel_type channel) [] in
  imap (scenario_of channel) templates.

Definition create_simulation (customer_id : string)
  (channel : IntegrationChannel.t) : M MigrationSimulation.t :=
  let* u := uuid4_hex in
  let simulation_id := "SIM-" +:+ Py.prefix 8 u in
  let scenarios := _generate_scenarios channel in
  ret {| MigrationSimulation.simulation_id := simulation_id;
         MigrationSimulation.customer_id := customer_id;
         MigrationSimulation.channel_id :=
           IntegrationChannel.channel_id channel;
         MigrationSimulation.scenarios := scenarios;
         MigrationSimulation.results := [];
         MigrationSimulation.overall_status := SimulationStatus.PENDING;
         MigrationSimulation.success_rate := 0.0%Q;
         MigrationSimulation.started_at := None;
         MigrationSimulation.completed_at := None |}.

Definition _simulate_legacy_response (scenario : TestScenario.t)
  : M Response.t :=
  let* now := utcnow in
  ret {| Response.status := "success";
         Response.data := TestScenario.test_data scenario;
         Response.timestamp := Py.isoformat now;
         Response.source := "legacy" |}.

Definition _simulate_modern_response (scenario : TestScenario.t)
  : M Response.t :=
  let* now := utcnow in
  ret {| Response.status := "success";
         Response.data := TestScenario.test_data scenario;
         Response.timestamp := Py.isoformat now;
         Response.source := "modern" |}.

Section Engine.

(** [json.dumps(_, sort_keys=True)] on a dictionary of the values above:
    some function to strings. *)
Variable json_dumps : list (string * Json) -> string.

Definition _compare_outputs (legacy modern : Response.t)
  (scenario : TestScenario.t) : list string :=
  let differences := [] in
  let differences :=
    if negb (bool_decide (Response.status legacy = Response.status modern))
    then (differences ++
          [ "Status mismatch: legacy=" +:+ Response.status legacy +:+
            ", modern=" +:+ Response.status modern ])%list
    else differences in
  let legacy_data := Response.data legacy in
  let modern_data := Response.data modern in
  let differences :=
    if negb (bool_decide (json_dumps legacy_data = json_dumps modern_data))
    then (differences ++ [ "Data structure differences detected" ])%list
    else differences in
  differences.

(** [int((end_time - start_time).total_seconds() * 1000)], with the
    product taken exactly: the milliseconds of the difference, truncated
    towards zero. *)
Definition _execute_scenario (scenario : TestScenario.t)
  : M SimulationResult.t :=
  let* u := uuid4_hex in
  let result_id := "RESULT-" +:+ Py.prefix 8 u in
  let* start_time := utcnow in
  let* legacy_output := _simulate_legacy_response scenario in
  let* modern_output := _simulate_modern_response scenario in
  let differences := _compare_outputs legacy_output modern_output scenario in
  let* end_time := utcnow in
  let execution_time_ms := Z.quot (end_time - start_time) 1000 in
  let success := (length differences =? 0)%nat in
  let status :=
    if success then SimulationStatus.PASSED else SimulationStatus.FAILED in
  let errors :=
    if negb success
    then [ "Found " +:+ Py.str_of_nat (length differences) +:+
           " differences between legacy and modern outputs" ]
    else [] in
  let warnings := [] in
  let* executed_at := utcnow in
  ret {| SimulationResult.result_id := result_id;
         SimulationResult.scenario_id := TestScenario.scenario_id scenario;
         SimulationResult.status := status;
         SimulationResult.success := success;
         SimulationResult.execution_time_ms := execution_time_ms;
         SimulationResult.legacy_output := Some legacy_output;
         SimulationResult.modern_output := Some modern_output;
         SimulationResult.differences := differences;
         SimulationResult.errors := errors;
         SimulationResult.warnings := warnings;
         SimulationResult.executed_at := executed_at |}.

(** The simulation object is the caller's; it is mutated and returned. *)
Definition execute_simulation (simulation : MigrationSimulation.t)
  : M MigrationSimulation.t :=
  let simulation :=
    MigrationSimulation.set_overall_status SimulationStatus.RUNNING simulation in
  let* now := utcnow in
  let simulation := MigrationSimulation.set_started_at now simulation in
  let* results :=
    mapM _execute_scenario (MigrationSimulation.scenarios simulation) in
  let successful_tests :=
    length (List.filter SimulationResult.success results) in
  let simulation := MigrationSimulation.set_results results simulation in
  let* now := utcnow in
  let simulation := MigrationSimulation.set_completed_at now simulation in
  let simulation :=
    match MigrationSimulation.scenarios simulation with
    | [] => simulation
    | scenarios =>
        MigrationSimulation.set_success_rate
          ((inject_Z (Z.of_nat successful_tests) /
            inject_Z (Z.of_nat (length scenarios))) * 100.0)%Q
          simulation
    end in
  let simulation :=
    if Qle_bool 95.0%Q (MigrationSimulation.success_rate simulation)
    then MigrationSimulation.set_overall_status SimulationStatus.PASSED simulation
    else MigrationSimulation.set_overall_status SimulationStatus.FAILED simulation in
  ret simulation.

End Engine.

End SimulationEngine.

(* ===================================================================== *)
(** * Vocabulary of the statements *)
(* ===================================================================== *)

(** [m] run from [r] returns normally, and the value and final state
    satisfy [Q]. *)
Definition returns {A} (m : M A) (r : Runtime) (Q : A -> Runtime -> Prop) : Prop :=
  exists a r', m r = (Ok a, r') /\ Q a r'.

(** Both registries of [r'] are those of [r]: only the world moved on. *)
Definition same_registries (r r' : Runtime) : Prop :=
  migration_plans r' = migration_plans r /\
  active_cutovers r' = active_cutovers r.

(** What the loop of [run_simulations] makes of one channel migration. *)
Definition simulate_channel (channel_migration : ChannelMigration.t)
  : ChannelMigration.t :=
  ChannelMigration.set_status READY
    (ChannelMigration.set_simulation_passed true
       (ChannelMigration.set_status SIMULATION channel_migration)).

(** Every individual channel simulation of a run of [run_simulations] is
    recorded as passed: in the channel migration's [simulation_passed] flag
    and in the entry returned under the channel's id. *)
Definition all_simulations_pass
  (results : gmap string MigrationOrchestrator.SimulationEntry)
  (plan : MigrationPlan.t) : Prop :=
  forall cm, cm ∈ MigrationPlan.channel_migrations plan ->
    ChannelMigration.simulation_passed cm = true /\
    MigrationOrchestrator.entry_status <$>
      results !! ChannelMigration.channel_id cm = Some "passed".

(** The time from [planned_start] to [planned_completion] that
    [_calculate_timeline] sets, for a strategy and a number of channels. *)
Definition planned_duration (strategy : string) (channels : nat) : Z :=
  if decide (strategy = "phased") then
    Py.timedelta_weeks (Z.of_nat channels * 2)
  else if decide (strategy = "big-bang") then Py.timedelta_days 3
  else Py.timedelta_weeks 8.

(** The effect of [_execute_channel_migration] on one channel migration. *)
Definition executed (cm cm' : ChannelMigration.t) : Prop :=
  ChannelMigration.channel_id cm' = ChannelMigration.channel_id cm /\
  ChannelMigration.status cm' = COMPLETED /\
  is_Some (ChannelMigration.cutover_timestamp cm').

(** The relation between a channel migration before and after a loop over
    the channel migrations selected by [sel], whose body establishes [P]. *)
Definition touched (sel : ChannelMigration.t -> bool)
  (P : ChannelMigration.t -> ChannelMigration.t -> Prop)
  (cm cm' : ChannelMigration.t) : Prop :=
  if sel cm then P cm cm' else cm' = cm.

(* ===================================================================== *)
(** * The score as a function of the categories and scores of the factors *)
(* ===================================================================== *)

Module Score.
Local Open Scope Q_scope.

(** What [_calculate_overall_risk] reads of a factor. *)
Definition entry (f : RiskFactor.t) : RiskCategory * Q :=
  (RiskFactor.category f, RiskFactor.risk_score f).

(** The scores of the factors of one category, in order. *)
Definition scores_of (cat : RiskCategory) (es : list (RiskCategory * Q)) : list Q :=
  map snd (List.filter (fun e => bool_decide (fst e = cat)) es).

(** The dictionary [category_scores] after the first loop. *)
Definition tally (es : list (RiskCategory * Q)) : list (RiskCategory * list Q) :=
  map (fun cat => (cat, scores_of cat es)) RiskCategory_members.

(** What one category adds to the weighted score. *)
Definition contribution (item : RiskCategory * list Q) : Q :=
  match snd item with
  | [] => 0
  | scores =>
      RiskAssessor.sum scores / RiskAssessor.len scores *
      dict_get RiskAssessor.risk_weights (fst item) 0.1
  end.

Definition total (items : list (RiskCategory * list Q)) : Q :=
  fold_right (fun item acc => contribution item + acc) 0 items.

(** [min(100.0, w)] *)
Definition cap (w : Q) : Q := if Qle_bool 100.0 w then 100.0 else w.

(** The categories and scores of the factors that [assess_customer]
    collects, as a function of the customer alone. *)
Definition business_entries (customer : Customer.t) : list (RiskCategory * Q) :=
  let '(impact, likelihood) :=
    dict_get RiskAssessor.criticality_map
             (Py.lower (Customer.business_criticality customer))
             (30.0, 50.0) in
  [ (BUSINESS, (impact * likelihood) / 100.0) ].

Definition compliance_entries (requirements : list string)
  : list (RiskCategory * Q) :=
  map (fun _ => (COMPLIANCE, (70.0 * 40.0) / 100.0)) requirements.

Definition complexity_entries (customer : Customer.t) : list (RiskCategory * Q) :=
  ((if (5 <? length (Customer.channels customer))%nat
    then [ (INTEGRATION, (65.0 * 60.0) / 100.0) ] else []) ++
   (if existsb
         (fun ch => bool_decide
                      (IntegrationChannel.channel_type ch ∈ RiskAssessor.legacy_types))
         (Customer.channels customer)
    then [ (TECHNICAL, (55.0 * 50.0) / 100.0) ] else []))%list.

Definition operational_entries (customer : Customer.t) : list (RiskCategory * Q) :=
  if negb (Py.truthy (Customer.contact_email customer)) &&
     negb (Py.truthy (Customer.contact_phone customer))
  then [ (OPERATIONAL, (40.0 * 60.0) / 100.0) ] else [].

Definition customer_entries (customer : Customer.t) : list (RiskCategory * Q) :=
  (business_entries customer ++
   compliance_entries (Customer.compliance_requirements customer) ++
   complexity_entries customer ++
   operational_entries customer)%list.

(** The weighted score of the factors of a customer, as a function of the
    list of compliance requirements. *)
Definition weighted_with (c : Customer.t) (reqs : list string) : Q :=
  fold_left RiskAssessor.add_category
    (tally (business_entries c ++ compliance_entries reqs ++
            complexity_entries c ++ operational_entries c)) 0.0.

End Score.

(* ===================================================================== *)
(** * Concrete scenarios *)
(* ===================================================================== *)

Module Scenario.

(** A world: the [n]-th identifier starts with [n] written on eight
    digits; the clock starts at 2023-11-14T22:13:20 and advances by one
    microsecond per reading. *)
Definition world0 : World :=
  {| uuid_stream := fun n => Py.zfill 8 (Z.of_nat n) +:+ "89abcdef0123456789abcdef";
     uuid_drawn := 0;
     clock_stream := fun n => 1700000000 * Py.second + Z.of_nat n;
     clock_read := 0 |}.

(** A fresh orchestrator and a fresh coordinator. *)
Definition fresh : Runtime :=
  {| world := world0; migration_plans := ∅; active_cutovers := ∅ |}.

Definition channel (channel_id : string) (channel_type : ChannelType)
  : IntegrationChannel.t :=
  {| IntegrationChannel.channel_id := channel_id;
     IntegrationChannel.channel_type := channel_type;
     IntegrationChannel.name := "Integration";
     IntegrationChannel.config := ∅;
     IntegrationChannel.legacy_endpoint := None;
     IntegrationChannel.target_endpoint := None;
     IntegrationChannel.is_active := true;
     IntegrationChannel.transaction_volume := 0 |}.

Definition customer (channels : list IntegrationChannel.t)
  (business_criticality : string) (compliance_requirements : list string)
  : Customer.t :=
  {| Customer.customer_id := "CUST001";
     Customer.name := "Test Corp";
     Customer.industry := None;
     Customer.channels := channels;
     Customer.business_criticality := business_criticality;
     Customer.compliance_requirements := compliance_requirements;
     Customer.contact_email := None;
     Customer.contact_phone := None;
     Customer.created_at := 1700000000 * Py.second |}.

(** The customer of [test_create_migration_plan]. *)
Definition two_channels : Customer.t :=
  customer [channel "CH001" REST_API; channel "CH002" SFTP] "medium" [].

Definition no_channels : Customer.t := customer [] "medium" [].

(** The first identifier drawn from [world0] names the plan. *)
Definition plan_id : string := "PLAN-00000000".

(** The state of a run, whatever its result. *)
Definition after {A} (m : M A) (r : Runtime) : Runtime := snd (m r).

(** The plan stored under [plan_id]; a plan without channels stands for a
    missing one. *)
Definition stored (r : Runtime) : MigrationPlan.t :=
  match migration_plans r !! plan_id with
  | Some plan => plan
  | None =>
      {| MigrationPlan.plan_id := ""; MigrationPlan.customer_id := "";
         MigrationPlan.customer_name := "";
         MigrationPlan.overall_status := PENDING;
         MigrationPlan.channel_migrations := [];
         MigrationPlan.overall_risk_score := 0%Q;
         MigrationPlan.created_at := 0;
         MigrationPlan.planned_start := None;
         MigrationPlan.planned_completion := None;
         MigrationPlan.actual_start := None;
         MigrationPlan.actual_completion := None;
         MigrationPlan.migration_strategy := "" |}
  end.

(** [create_migration_plan(two_channels, "phased")] *)
Definition planned : Runtime :=
  after (MigrationOrchestrator.create_migration_plan two_channels "phased") fresh.

(** ... then [run_simulations(plan_id)] *)
Definition simulated : Runtime :=
  after (MigrationOrchestrator.run_simulations plan_id) planned.

(** ... then [execute_migration(plan_id, "CH001")] *)
Definition one_executed : Runtime :=
  after (MigrationOrchestrator.execute_migration plan_id (Some "CH001")) simulated.

(** ... then [execute_migration(plan_id)] on the simulated plan instead *)
Definition all_executed : Runtime :=
  after (MigrationOrchestrator.execute_migration plan_id None) simulated.

(** The [i]-th channel migration of the stored plan. *)
Definition stored_channel (r : Runtime) (i : nat) : ChannelMigration.t :=
  match MigrationPlan.channel_migrations (stored r) !! i with
  | Some cm => cm
  | None =>
      {| ChannelMigration.channel_id := "";
         ChannelMigration.channel_type := EDI;
         ChannelMigration.status := PENDING;
         ChannelMigration.risk_score := 0%Q;
         ChannelMigration.playbook_id := None;
         ChannelMigration.simulation_passed := false;
         ChannelMigration.cutover_timestamp := None;
         ChannelMigration.rollback_available := true;
         ChannelMigration.notes := [] |}
  end.

(** The value returned by a run, if it returns. *)
Definition returned {A} (m : M A) (r : Runtime) : option A :=
  match fst (m r) with
  | Ok a => Some a
  | Raise _ => None
  end.

(** After [execute_migration(plan_id)]: a cutover of the gradual strategy
    is initiated for the channel migration of ["CH001"] ... *)
Definition cutover_started : Runtime :=
  after (CutoverCoordinator.initiate_cutover (stored_channel all_executed 0) GRADUAL)
        all_executed.

(** ... and rolled back. *)
Definition cutover_rolled_back : Runtime :=
  after (CutoverCoordinator.rollback_cutover
           "CUTOVER-CH001" "Error rate above threshold")
        cutover_started.

(** The cutover plan that [initiate_cutover] stores in [cutover_started]. *)
Definition started_cutover : Cutover.t :=
  {| Cutover.cutover_id := "CUTOVER-CH001";
     Cutover.channel_id := "CH001";
     Cutover.strategy := GRADUAL;
     Cutover.started_at := 1700000000 * Py.second + 11;
     Cutover.status := "initiated";
     Cutover.steps := CutoverCoordinator._generate_cutover_steps GRADUAL;
     Cutover.current_step := 0%nat;
     Cutover.metrics :=
       {| Metrics.error_rate := 0.0%Q;
          Metrics.transaction_count := 0;
          Metrics.latency_ms := 0.0%Q |};
     Cutover.completed_at := None;
     Cutover.rollback := None |}.

(** The customer of [test_assess_high_criticality_customer]. *)
Definition critical_legacy : Customer.t :=
  customer [ channel "CH001" EDI; channel "CH002" EDI;
             channel "CH003" THICK_CLIENT; channel "CH004" THICK_CLIENT;
             channel "CH005" THICK_CLIENT; channel "CH006" THICK_CLIENT ]
           "critical" ["HIPAA"; "PCI-DSS"].

(** The factor that [_assess_compliance] builds for a requirement. *)
Definition compliance_factor : RiskFactor.t :=
  {| RiskFactor.factor_id := "COMP-000001";
     RiskFactor.category := COMPLIANCE;
     RiskFactor.severity := HIGH;
     RiskFactor.description := "Compliance requirement: HIPAA";
     RiskFactor.impact_score := 70.0%Q;
     RiskFactor.likelihood_score := 40.0%Q;
     RiskFactor.mitigation_strategy :=
       Some "Ensure HIPAA compliance validation in simulation phase" |}.

(** A registry with one plan, completed, whose only channel migration is
    closed to rollback. *)
Definition locked_channel : ChannelMigration.t :=
  {| ChannelMigration.channel_id := "CH900";
     ChannelMigration.channel_type := SFTP;
     ChannelMigration.status := COMPLETED;
     ChannelMigration.risk_score := 8.75%Q;
     ChannelMigration.playbook_id := Some "PLAYBOOK-sftp";
     ChannelMigration.simulation_passed := true;
     ChannelMigration.cutover_timestamp := Some (1700000000 * Py.second);
     ChannelMigration.rollback_available := false;
     ChannelMigration.notes := ["Migration playbook: 6 steps"] |}.

Definition locked_plan : MigrationPlan.t :=
  {| MigrationPlan.plan_id := "PLAN-LOCKED";
     MigrationPlan.customer_id := "CUST900";
     MigrationPlan.customer_name := "Locked Corp";
     MigrationPlan.overall_status := COMPLETED;
     MigrationPlan.channel_migrations := [locked_channel];
     MigrationPlan.overall_risk_score := 9.0%Q;
     MigrationPlan.created_at := 1700000000 * Py.second;
     MigrationPlan.planned_start := None;
     MigrationPlan.planned_completion := None;
     MigrationPlan.actual_start := None;
     MigrationPlan.actual_completion := None;
     MigrationPlan.migration_strategy := "phased" |}.

Definition locked : Runtime :=
  {| world := world0;
     migration_plans := {[ "PLAN-LOCKED" := locked_plan ]};
     active_cutovers := ∅ |}.

End Scenario.


(* ===================================================================== *)
(** * Vocabulary of the further properties *)
(* ===================================================================== *)

(** What [_execute_channel_migration] makes of a channel migration when
    the clock reads [cutover] and then [noted]. *)
Definition migrated (cutover noted : Z) (cm : ChannelMigration.t)
  : ChannelMigration.t :=
  ChannelMigration.append_note
    ("Migration completed at " +:+ Py.isoformat noted)
    (ChannelMigration.set_status COMPLETED
       (ChannelMigration.set_cutover_timestamp cutover
          (ChannelMigration.set_status IN_PROGRESS cm))).

(** The channel migration was migrated at some readings of the clock. *)
Definition migrated_from (cm cm' : ChannelMigration.t) : Prop :=
  exists cutover noted, cm' = migrated cutover noted cm.

Definition is_completed (cm : ChannelMigration.t) : bool :=
  bool_decide (ChannelMigration.status cm = COMPLETED).

Definition is_rolled_back (cm : ChannelMigration.t) : bool :=
  bool_decide (ChannelMigration.status cm = ROLLED_BACK).

(** What the loop of [rollback_migration] makes of the channel migrations
    of a plan. *)
Definition rolled_back_channels (channel_id : option string) (reason : string)
  (cms : list ChannelMigration.t) : list ChannelMigration.t :=
  map (fun cm =>
         if MigrationOrchestrator.targeted channel_id cm
         then MigrationOrchestrator.rollback_channel reason cm else cm)
      cms.

(** The fields of a channel migration that are set at its creation only;
    the notes are only appended to, a passed simulation stays passed and a
    cutover timestamp stays set. *)
Definition same_channel (cm cm' : ChannelMigration.t) : Prop :=
  ChannelMigration.channel_id cm' = ChannelMigration.channel_id cm /\
  ChannelMigration.channel_type cm' = ChannelMigration.channel_type cm /\
  ChannelMigration.risk_score cm' = ChannelMigration.risk_score cm /\
  ChannelMigration.playbook_id cm' = ChannelMigration.playbook_id cm /\
  ChannelMigration.rollback_available cm'
  = ChannelMigration.rollback_available cm /\
  ChannelMigration.notes cm `prefix_of` ChannelMigration.notes cm' /\
  (ChannelMigration.simulation_passed cm = true ->
   ChannelMigration.simulation_passed cm' = true) /\
  (is_Some (ChannelMigration.cutover_timestamp cm) ->
   is_Some (ChannelMigration.cutover_timestamp cm')).

(** The fields of a plan that are set at its creation only, and the
    channel migrations, one for one and in order. *)
Definition same_plan (plan plan' : MigrationPlan.t) : Prop :=
  MigrationPlan.plan_id plan' = MigrationPlan.plan_id plan /\
  MigrationPlan.customer_id plan' = MigrationPlan.customer_id plan /\
  MigrationPlan.customer_name plan' = MigrationPlan.customer_name plan /\
  MigrationPlan.overall_risk_score plan'
  = MigrationPlan.overall_risk_score plan /\
  MigrationPlan.created_at plan' = MigrationPlan.created_at plan /\
  MigrationPlan.planned_start plan' = MigrationPlan.planned_start plan /\
  MigrationPlan.planned_completion plan'
  = MigrationPlan.planned_completion plan /\
  MigrationPlan.migration_strategy plan'
  = MigrationPlan.migration_strategy plan /\
  Forall2 same_channel (MigrationPlan.channel_migrations plan)
          (MigrationPlan.channel_migrations plan').

(** A call of the orchestrator. *)
Inductive Call :=
| CreateMigrationPlan (customer : Customer.t) (strategy : string)
| RunSimulations (plan_id : string)
| ExecuteMigration (plan_id : string) (channel_id : option string)
| RollbackMigration (plan_id : string) (channel_id : option string)
                    (reason : string)
| GetMigrationStatus (plan_id : string).

(** The state after a call, whether it returns or raises. *)
Definition perform (call : Call) (r : Runtime) : Runtime :=
  match call with
  | CreateMigrationPlan customer strategy =>
      snd (MigrationOrchestrator.create_migration_plan customer strategy r)
  | RunSimulations plan_id =>
      snd (MigrationOrchestrator.run_simulations plan_id r)
  | ExecuteMigration plan_id channel_id =>
      snd (MigrationOrchestrator.execute_migration plan_id channel_id r)
  | RollbackMigration plan_id channel_id reason =>
      snd (MigrationOrchestrator.rollback_migration plan_id channel_id reason r)
  | GetMigrationStatus plan_id =>
      snd (MigrationOrchestrator.get_migration_status plan_id r)
  end.

(** The state after a sequence of calls. *)
Definition perform_all (calls : list Call) (r : Runtime) : Runtime :=
  fold_left (fun r call => perform call r) calls r.

(** The statuses that a plan of the orchestrator shows between calls, with
    every channel migration open to rollback. *)
Definition settled (plan : MigrationPlan.t) : Prop :=
  MigrationPlan.overall_status plan
    ∈ [PLANNING; READY; IN_PROGRESS; COMPLETED; ROLLED_BACK] /\
  Forall (fun cm =>
            ChannelMigration.status cm ∈ [PLANNING; READY; COMPLETED; ROLLED_BACK] /\
            ChannelMigration.rollback_available cm = true)
         (MigrationPlan.channel_migrations plan).

(** Every stored plan is settled. *)
Definition all_settled (r : Runtime) : Prop :=
  forall plan_id plan, migration_plans r !! plan_id = Some plan -> settled plan.

(** The channel migration that [create_migration_plan] makes for a
    channel. *)
Definition planned_for (channel : IntegrationChannel.t)
  (cm : ChannelMigration.t) : Prop :=
  ChannelMigration.channel_id cm = IntegrationChannel.channel_id channel /\
  ChannelMigration.channel_type cm = IntegrationChannel.channel_type channel /\
  ChannelMigration.status cm = PLANNING /\
  ChannelMigration.playbook_id cm
  = Some ("PLAYBOOK-" +:+
          ChannelType_value (IntegrationChannel.channel_type channel)) /\
  ChannelMigration.simulation_passed cm = false /\
  ChannelMigration.cutover_timestamp cm = None /\
  ChannelMigration.rollback_available cm = true /\
  length (ChannelMigration.notes cm) = 3%nat.

(** A call other than [create_migration_plan]. *)
Definition on_stored_plan (call : Call) : Prop :=
  match call with
  | CreateMigrationPlan _ _ => False
  | _ => True
  end.

(** The note that [rollback_channel] appends. *)
Definition rollback_note (reason : string) (cm : ChannelMigration.t) : string :=
  if ChannelMigration.rollback_available cm
  then "Rolled back: " +:+ reason
  else "Rollback not available: " +:+ reason.

(** The weight of the status of a channel migration in
    [_calculate_progress]. *)
Definition weight_of (cm : ChannelMigration.t) : Q :=
  dict_get MigrationOrchestrator.status_weights (ChannelMigration.status cm) 0.0%Q.


(* ===================================================================== *)
(** * Vocabulary of the cutover properties *)
(* ===================================================================== *)

(** A step that was executed: marked completed, with both times. *)
Definition step_done (step : CutoverStep.t) : Prop :=
  CutoverStep.status step = "completed" /\
  is_Some (CutoverStep.started_at step) /\
  is_Some (CutoverStep.completed_at step).

(** A step as [_generate_cutover_steps] makes it. *)
Definition step_pending (step : CutoverStep.t) : Prop :=
  CutoverStep.status step = "pending" /\
  CutoverStep.started_at step = None /\
  CutoverStep.completed_at step = None.

(** The steps are those of the strategy, by number and name; the steps
    before the cursor are done and the others are pending. *)
Definition in_order (c : Cutover.t) : Prop :=
  (Cutover.current_step c <= length (Cutover.steps c))%nat /\
  map (fun step => (CutoverStep.step step, CutoverStep.name step,
                    CutoverStep.description step))
      (Cutover.steps c)
  = map (fun step => (CutoverStep.step step, CutoverStep.name step,
                      CutoverStep.description step))
        (CutoverCoordinator._generate_cutover_steps (Cutover.strategy c)) /\
  Forall step_done (take (Cutover.current_step c) (Cutover.steps c)) /\
  Forall step_pending (drop (Cutover.current_step c) (Cutover.steps c)).

(** What the status of a cutover says about its cursor. *)
Definition status_agrees (c : Cutover.t) : Prop :=
  (Cutover.status c = "initiated" -> Cutover.current_step c = 0%nat) /\
  (Cutover.status c = "in_progress" ->
   (0 < Cutover.current_step c < length (Cutover.steps c))%nat) /\
  (Cutover.status c = "completed" ->
   Cutover.current_step c = length (Cutover.steps c) /\
   is_Some (Cutover.completed_at c)).

(** The metrics that [initiate_cutover] sets. *)
Definition no_traffic : Metrics.t :=
  {| Metrics.error_rate := 0.0%Q;
     Metrics.transaction_count := 0;
     Metrics.latency_ms := 0.0%Q |}.

(** A cutover as the coordinator keeps it under [key]. *)
Definition coherent (key : string) (c : Cutover.t) : Prop :=
  Cutover.cutover_id c = key /\
  key = "CUTOVER-" +:+ Cutover.channel_id c /\
  Cutover.status c ∈ ["initiated"; "in_progress"; "completed"; "rolled_back"] /\
  (Cutover.status c = "rolled_back" -> is_Some (Cutover.rollback c)) /\
  Cutover.metrics c = no_traffic /\
  in_order c /\
  status_agrees c.

(** A call of the coordinator. *)
Inductive CutoverCall :=
| InitiateCutover (channel_migration : ChannelMigration.t)
                  (strategy : CutoverStrategy)
| ExecuteCutoverStep (cutover_id : string)
| MonitorCutover (cutover_id : string)
| RollbackCutover (cutover_id : string) (reason : string).

(** The state after a call of the coordinator, whether it returns or
    raises. *)
Definition coordinate (call : CutoverCall) (r : Runtime) : Runtime :=
  match call with
  | InitiateCutover channel_migration strategy =>
      snd (CutoverCoordinator.initiate_cutover channel_migration strategy r)
  | ExecuteCutoverStep cutover_id =>
      snd (CutoverCoordinator.execute_cutover_step cutover_id r)
  | MonitorCutover cutover_id =>
      snd (CutoverCoordinator.monitor_cutover cutover_id r)
  | RollbackCutover cutover_id reason =>
      snd (CutoverCoordinator.rollback_cutover cutover_id reason r)
  end.

(** The state after a sequence of calls of the coordinator. *)
Definition coordinate_all (calls : list CutoverCall) (r : Runtime) : Runtime :=
  fold_left (fun r call => coordinate call r) calls r.

(** The state after [n] calls of [execute_cutover_step]. *)
Definition step_times (n : nat) (cutover_id : string) (r : Runtime) : Runtime :=
  coordinate_all (repeat (ExecuteCutoverStep cutover_id) n) r.

(** Every stored cutover is coherent. *)
Definition all_coherent (r : Runtime) : Prop :=
  forall key c, active_cutovers r !! key = Some c -> coherent key c.

(** What [execute_cutover_step] makes of a step when the clock reads
    [started] and then [finished]. *)
Definition run_step (started finished : Z) (step : CutoverStep.t)
  : CutoverStep.t :=
  CutoverCoordinator.set_step_completed_at finished
    (CutoverCoordinator.set_step_status "completed"
       (CutoverCoordinator.set_step_started_at started
          (CutoverCoordinator.set_step_status "in_progress" step))).

(** The cutover before and after a call of [execute_cutover_step]: the
    step under the cursor is run and the cursor moves on, or the cursor is
    past the last step and the completion is stamped. *)
Definition advanced (c c' : Cutover.t) : Prop :=
  Cutover.cutover_id c' = Cutover.cutover_id c /\
  Cutover.channel_id c' = Cutover.channel_id c /\
  Cutover.strategy c' = Cutover.strategy c /\
  Cutover.started_at c' = Cutover.started_at c /\
  Cutover.metrics c' = Cutover.metrics c /\
  Cutover.rollback c' = Cutover.rollback c /\
  match Cutover.steps c !! Cutover.current_step c with
  | Some step =>
      (exists started finished,
          Cutover.steps c'
          = <[Cutover.current_step c := run_step started finished step]>
              (Cutover.steps c)) /\
      Cutover.current_step c' = S (Cutover.current_step c) /\
      if (length (Cutover.steps c) <=? S (Cutover.current_step c))%nat
      then Cutover.status c' = "completed" /\ is_Some (Cutover.completed_at c')
      else Cutover.status c' = "in_progress" /\
           Cutover.completed_at c' = Cutover.completed_at c
  | None =>
      Cutover.steps c' = Cutover.steps c /\
      Cutover.current_step c' = Cutover.current_step c /\
      Cutover.status c' = "completed" /\
      is_Some (Cutover.completed_at c')
  end.

(** The status of a cutover of [n] steps after [k] calls of
    [execute_cutover_step]. *)
Definition status_after (k n : nat) : string :=
  if (k =? 0)%nat then "initiated"
  else if (k <? n)%nat then "in_progress"
  else "completed".

(** A run of the coordinator: a gradual cutover of channel ["CH900"] is
    initiated, stepped twice, rolled back, and stepped once more. *)
Module CutoverScenario.

Definition key : string := "CUTOVER-CH900".

Definition calls : list CutoverCall :=
  [ InitiateCutover Scenario.locked_channel GRADUAL;
    ExecuteCutoverStep key;
    ExecuteCutoverStep key;
    RollbackCutover key "Latency above threshold";
    ExecuteCutoverStep key ].

Definition final : Runtime := coordinate_all calls Scenario.fresh.

(** The cutover stored under [key]; the started cutover of
    [Scenario] stands for a missing one. *)
Definition stored (r : Runtime) : Cutover.t :=
  match active_cutovers r !! key with
  | Some c => c
  | None => Scenario.started_cutover
  end.

End CutoverScenario.

(** The stored cutover after [k] calls of [execute_cutover_step] on a
    cutover that was just initiated. *)
Definition stepped (k : nat) (strategy : CutoverStrategy) (c : Cutover.t) : Prop :=
  let n := length (CutoverCoordinator._generate_cutover_steps strategy) in
  Cutover.strategy c = strategy /\
  length (Cutover.steps c) = n /\
  in_order c /\
  Cutover.current_step c = Nat.min k n /\
  Cutover.status c = status_after k n /\
  (is_Some (Cutover.completed_at c) <-> (n <= k)%nat).

(* ===================================================================== *)
(** * Vocabulary of the score properties *)
(* ===================================================================== *)

(** The score of the business criticality of a customer: impact times
    likelihood over 100, of the entry of [criticality_map]. *)
Definition criticality_score (c : Customer.t) : Q :=
  let '(impact, likelihood) :=
    dict_get RiskAssessor.criticality_map
             (Py.lower (Customer.business_criticality c))
             (30.0%Q, 50.0%Q) in
  ((impact * likelihood) / 100)%Q.

(** The overall score of a customer in closed form: each category that
    has a factor adds its weight times the score of its factor. *)
Definition customer_score (c : Customer.t) : Q :=
  (0.30 * criticality_score c
   + (match Customer.compliance_requirements c with
      | [] => 0
      | _ => 0.25 * 28
      end)
   + (if (5 <? length (Customer.channels c))%nat then 0.05 * 39 else 0)
   + (if existsb
           (fun ch => bool_decide
                        (IntegrationChannel.channel_type ch
                           ∈ RiskAssessor.legacy_types))
           (Customer.channels c)
      then 0.25 * 27.5 else 0)
   + (if negb (Py.truthy (Customer.contact_email c)) &&
         negb (Py.truthy (Customer.contact_phone c))
      then 0.15 * 24 else 0))%Q.

(** What [_calculate_overall_risk] reads of the factors that
    [assess_channel] collects, as a function of the channel alone. *)
Definition channel_entries (channel : IntegrationChannel.t)
  : list (RiskCategory * Q) :=
  ([ (TECHNICAL,
      (fst (dict_get RiskAssessor.complexity_map
                     (IntegrationChannel.channel_type channel)
                     (40.0%Q, "Standard channel migration")) * 50.0) / 100.0)%Q ] ++
   (if negb (Py.truthy (IntegrationChannel.target_endpoint channel))
    then [ (INTEGRATION, ((75.0 * 100.0) / 100.0)%Q) ] else []) ++
   (if (10000 <? IntegrationChannel.transaction_volume channel)%Z
    then [ (OPERATIONAL, ((70.0 * 45.0) / 100.0)%Q) ] else []))%list.

(** The overall score of a channel in closed form. *)
Definition channel_score (channel : IntegrationChannel.t) : Q :=
  (0.125 * fst (dict_get RiskAssessor.complexity_map
                         (IntegrationChannel.channel_type channel)
                         (40.0, "Standard channel migration"))
   + (if negb (Py.truthy (IntegrationChannel.target_endpoint channel))
      then 0.05 * 75 else 0)
   + (if (10000 <? IntegrationChannel.transaction_volume channel)%Z
      then 0.15 * 31.5 else 0))%Q.

(** The order of the levels. *)
Definition severity_rank (s : RiskSeverity) : nat :=
  match s with LOW => 0 | MEDIUM => 1 | HIGH => 2 | CRITICAL => 3 end.

(** A customer with a factor of severity [HIGH] or [CRITICAL]: the
    criticality ["critical"], a compliance requirement, or more than five
    channels. *)
Definition high_risk (c : Customer.t) : bool :=
  bool_decide (Py.lower (Customer.business_criticality c) = "critical")
  || match Customer.compliance_requirements c with [] => false | _ => true end
  || (5 <? length (Customer.channels c))%nat.

(** The severities of the factors that [assess_customer] collects. *)
Definition customer_severities (c : Customer.t) : list RiskSeverity :=
  ([ RiskAssessor._score_to_severity (criticality_score c) ] ++
   map (fun _ => HIGH) (Customer.compliance_requirements c) ++
   (if (5 <? length (Customer.channels c))%nat then [HIGH] else []) ++
   (if existsb
         (fun ch => bool_decide
                      (IntegrationChannel.channel_type ch
                         ∈ RiskAssessor.legacy_types))
         (Customer.channels c)
    then [MEDIUM] else []) ++
   (if negb (Py.truthy (Customer.contact_email c)) &&
       negb (Py.truthy (Customer.contact_phone c))
    then [MEDIUM] else []))%list.

(* ===================================================================== *)
(** * Vocabulary of the simulation properties *)
(* ===================================================================== *)

(** The result of a scenario that found nothing: it carries the id of the
    scenario, succeeded and passed, lists no difference, error or warning,
    and holds the two answers, both with the test data of the scenario. *)
Definition clean_result (scenario : TestScenario.t)
  (result : SimulationResult.t) : Prop :=
  SimulationResult.scenario_id result = TestScenario.scenario_id scenario /\
  SimulationResult.success result = true /\
  SimulationResult.status result = SimulationStatus.PASSED /\
  SimulationResult.differences result = [] /\
  SimulationResult.errors result = [] /\
  SimulationResult.warnings result = [] /\
  Response.data <$> SimulationResult.legacy_output result
  = Some (TestScenario.test_data scenario) /\
  Response.data <$> SimulationResult.modern_output result
  = Some (TestScenario.test_data scenario) /\
  Response.source <$> SimulationResult.legacy_output result = Some "legacy" /\
  Response.source <$> SimulationResult.modern_output result = Some "modern".

(** The simulation after [execute_simulation]: the same simulation, for
    the same customer and channel and with the same scenarios, started and
    completed. *)
Definition simulation_run (s s' : MigrationSimulation.t) : Prop :=
  MigrationSimulation.simulation_id s' = MigrationSimulation.simulation_id s /\
  MigrationSimulation.customer_id s' = MigrationSimulation.customer_id s /\
  MigrationSimulation.channel_id s' = MigrationSimulation.channel_id s /\
  MigrationSimulation.scenarios s' = MigrationSimulation.scenarios s /\
  is_Some (MigrationSimulation.started_at s') /\
  is_Some (MigrationSimulation.completed_at s').

(** A simulation without scenarios, as the defaults of the model make
    it. *)
Module SimulationScenario.

Definition empty : MigrationSimulation.t :=
  {| MigrationSimulation.simulation_id := "SIM-00000000";
     MigrationSimulation.customer_id := "CUST001";
     MigrationSimulation.channel_id := "CH001";
     MigrationSimulation.scenarios := [];
     MigrationSimulation.results := [];
     MigrationSimulation.overall_status := SimulationStatus.PENDING;
     MigrationSimulation.success_rate := 0.0%Q;
     MigrationSimulation.started_at := None;
     MigrationSimulation.completed_at := None |}.


End SimulationScenario.
(* ===================================================================== *)
(** * Sanity checks of the run-time helpers *)
(* ===================================================================== *)

Example lower_mixed : Py.lower "CrItIcAl-9" = "critical-9".
Proof. reflexivity. Qed.

Example isoformat_epoch : Py.isoformat 0 = "1970-01-01T00:00:00".
Proof. vm_compute. reflexivity. Qed.

Example isoformat_1700000000 :
  Py.isoformat (1700000000 * Py.second + 250) = "2023-11-14T22:13:20.000250".
Proof. vm_compute. reflexivity. Qed.

Example isoformat_leap_day :
  Py.isoformat (19782 * Py.day + 86399 * Py.second) = "2024-02-29T23:59:59".
Proof. vm_compute. reflexivity. Qed.

Example format_1f_readiness : Py.format_1f (100 - 38.625)%Q = "61.4".
Proof. vm_compute. reflexivity. Qed.

Example format_1f_tie : Py.format_1f (0.25)%Q = "0.2".
Proof. vm_compute. reflexivity. Qed.

(* ===================================================================== *)
(** * The computation monad *)
(* ===================================================================== *)

Lemma returns_ret {A} (a : A) r (Q : A -> Runtime -> Prop) :
  Q a r -> returns (ret a) r Q.
Proof. intros HQ. exists a, r. split; [reflexivity | exact HQ]. Qed.

Lemma returns_bind {A B} (m : M A) (k : A -> M B) r (Q : B -> Runtime -> Prop) :
  returns m r (fun a r' => returns (k a) r' Q) ->
  returns (bind m k) r Q.
Proof.
  intros (a & r' & Hm & b & r'' & Hk & HQ).
  exists b, r''. split; [| exact HQ].
  unfold bind. rewrite Hm. exact Hk.
Qed.

Lemma returns_weaken {A} (m : M A) r (P Q : A -> Runtime -> Prop) :
  returns m r P -> (forall a r', P a r' -> Q a r') -> returns m r Q.
Proof.
  intros (a & r' & Hm & HP) HPQ. exists a, r'. split; [exact Hm | auto].
Qed.

Lemma same_registries_refl r : same_registries r r.
Proof. split; reflexivity. Qed.

Lemma same_registries_trans r1 r2 r3 :
  same_registries r1 r2 -> same_registries r2 r3 -> same_registries r1 r3.
Proof. intros [H1 H2] [H3 H4]. split; congruence. Qed.

Lemma returns_uuid4_hex r :
  returns uuid4_hex r (fun _ r' => same_registries r r').
Proof.
  eexists _, _. split; [reflexivity |]. split; reflexivity.
Qed.

Lemma returns_utcnow r :
  returns utcnow r (fun _ r' => same_registries r r').
Proof.
  eexists _, _. split; [reflexivity |]. split; reflexivity.
Qed.

(** A loop whose body always returns, relates its argument to its result by
    [P] and keeps the registries, returns a list related element by element. *)
Lemma returns_mapM {A B} (f : A -> M B) (P : A -> B -> Prop) (l : list A) :
  (forall x r, returns (f x) r (fun y r' => P x y /\ same_registries r r')) ->
  forall r, returns (mapM f l) r
              (fun ys r' => Forall2 P l ys /\ same_registries r r').
Proof.
  intros Hf. induction l as [| x l IH]; intros r; simpl.
  - apply returns_ret. split; [constructor | apply same_registries_refl].
  - apply returns_bind.
    eapply returns_weaken; [apply Hf |].
    intros y r1 [HP Hr1]. cbn beta.
    apply returns_bind.
    eapply returns_weaken; [apply IH |].
    intros ys r2 [HF Hr2]. cbn beta.
    apply returns_ret. split.
    + constructor; assumption.
    + eapply same_registries_trans; eassumption.
Qed.

(** One step of a sequence: run [m], whose behaviour is given by lemma [H],
    and go on with the rest. *)
Ltac mstep H :=
  apply returns_bind; eapply returns_weaken; [apply H | cbn beta].

(* ===================================================================== *)
(** * The migration plan state machine *)
(* ===================================================================== *)

Section PlanStateMachine.

Import MigrationOrchestrator.

Implicit Types (r : Runtime) (plan : MigrationPlan.t) (cm : ChannelMigration.t).

(** ** [run_simulations] *)

Lemma simulate_channel_status cm :
  ChannelMigration.status (simulate_channel cm) = READY.
Proof. reflexivity. Qed.

Lemma simulate_channel_passed cm :
  ChannelMigration.simulation_passed (simulate_channel cm) = true.
Proof. reflexivity. Qed.

Lemma simulate_channel_id cm :
  ChannelMigration.channel_id (simulate_channel cm) = ChannelMigration.channel_id cm.
Proof. reflexivity. Qed.

Lemma all_passed_after_simulation (cms : list ChannelMigration.t) :
  forallb ChannelMigration.simulation_passed (map simulate_channel cms) = true.
Proof. induction cms as [| cm cms IH]; simpl; [reflexivity | exact IH]. Qed.

(** The result dictionary has the entry ["passed"] under the id of every
    channel migration of the loop, and keeps the other entries. *)
Lemma simulation_results_lookup (cms : list ChannelMigration.t)
  (d : gmap string SimulationEntry) (k : string) :
  fold_left (fun d cm => <[ChannelMigration.channel_id cm := passed_entry]> d) cms d !! k
  = if bool_decide (k ∈ map ChannelMigration.channel_id cms)
    then Some passed_entry else d !! k.
Proof.
  revert d. induction cms as [| cm cms IH]; intros d.
  - cbn [fold_left map]. case_bool_decide as Hin; [| reflexivity].
    apply elem_of_nil in Hin. contradiction.
  - cbn [fold_left map]. rewrite IH.
    repeat case_bool_decide; try reflexivity.
    + match goal with H : ¬ _ ∈ _ :: _ |- _ => exfalso; apply H end.
      apply elem_of_cons. right. assumption.
    + match goal with H : _ ∈ _ :: _ |- _ => apply elem_of_cons in H as [-> | ?] end;
        [apply lookup_insert_eq | contradiction].
    + apply lookup_insert_ne. intros Heq.
      match goal with H : ¬ _ ∈ _ :: _ |- _ => apply H end.
      apply elem_of_cons. left. congruence.
Qed.

(** The loop of [run_simulations], started from any accumulator. *)
Lemma simulation_loop (cms visited : list ChannelMigration.t)
  (d : gmap string SimulationEntry) :
  fold_left simulation_step cms (visited, d)
  = ((visited ++ map simulate_channel cms)%list,
     fold_left
       (fun d cm => <[ChannelMigration.channel_id cm := passed_entry]> d)
       (map simulate_channel cms) d).
Proof.
  revert visited d. induction cms as [| cm cms IH]; intros visited d.
  - cbn. rewrite app_nil_r. reflexivity.
  - cbn [fold_left map simulation_step]. rewrite IH.
    rewrite <- app_assoc. reflexivity.
Qed.

(** What [run_simulations] computes for a stored plan. *)
Lemma run_simulations_stored r plan_id plan :
  migration_plans r !! plan_id = Some plan ->
  let cms := map simulate_channel (MigrationPlan.channel_migrations plan) in
  let plan' :=
    MigrationPlan.set_overall_status READY
      (MigrationPlan.set_channel_migrations cms
         (MigrationPlan.set_overall_status SIMULATION plan)) in
  run_simulations plan_id r =
  (Ok (fold_left
         (fun d cm => <[ChannelMigration.channel_id cm := passed_entry]> d)
         cms ∅),
   mkRuntime (world r) (<[plan_id := plan']> (migration_plans r))
             (active_cutovers r)).
Proof.
  intros Hfound. unfold run_simulations, bind, get_plan. rewrite Hfound.
  cbn [MigrationPlan.channel_migrations MigrationPlan.set_channel_migrations
       MigrationPlan.set_overall_status].
  rewrite simulation_loop. cbn [app].
  cbn [MigrationPlan.channel_migrations MigrationPlan.set_channel_migrations
       MigrationPlan.set_overall_status].
  rewrite all_passed_after_simulation. reflexivity.
Qed.

(** ** [execute_migration] *)

Lemma execute_migration_not_ready r plan_id channel_id plan :
  migration_plans r !! plan_id = Some plan ->
  MigrationPlan.overall_status plan ≠ READY ->
  execute_migration plan_id channel_id r = (Raise (not_ready plan_id), r).
Proof.
  intros Hfound Hstatus. unfold execute_migration, bind, get_plan.
  rewrite Hfound. destruct (decide _) as [_ | Hready]; [reflexivity |].
  contradiction.
Qed.

Lemma returns_execute_channel_migration cm r :
  returns (_execute_channel_migration cm) r
          (fun cm' r' => executed cm cm' /\ same_registries r r').
Proof.
  unfold returns, _execute_channel_migration, bind, utcnow, ret.
  cbv beta iota zeta.
  eexists _, _. split; [reflexivity |]. split.
  - repeat split. eexists. reflexivity.
  - split; reflexivity.
Qed.

Lemma returns_for_selected sel body P (cms : list ChannelMigration.t) :
  (forall cm r, returns (body cm) r (fun cm' r' => P cm cm' /\ same_registries r r')) ->
  forall r, returns (for_selected sel body cms) r
              (fun cms' r' => Forall2 (touched sel P) cms cms' /\ same_registries r r').
Proof.
  intros Hbody. unfold for_selected. apply returns_mapM.
  intros cm r. unfold touched. destruct (sel cm).
  - apply Hbody.
  - apply returns_ret. split; [reflexivity | apply same_registries_refl].
Qed.

(** A loop that selects no channel migration changes nothing. *)
Lemma for_selected_none sel body (cms : list ChannelMigration.t) r :
  (forall cm, cm ∈ cms -> sel cm = false) ->
  for_selected sel body cms r = (Ok cms, r).
Proof.
  unfold for_selected. induction cms as [| cm cms IH]; intros Hsel; simpl.
  - reflexivity.
  - unfold bind. rewrite (Hsel cm) by (apply elem_of_cons; left; reflexivity).
    unfold ret at 1. rewrite IH; [reflexivity |].
    intros cm' Hin. apply Hsel. apply elem_of_cons. right. exact Hin.
Qed.

Lemma targeted_Some c cm :
  targeted (Some c) cm = true <-> ChannelMigration.channel_id cm = c.
Proof. unfold targeted. apply bool_decide_eq_true. Qed.

Lemma completed_all_false (cms : list ChannelMigration.t) cm :
  cm ∈ cms -> ChannelMigration.status cm ≠ COMPLETED ->
  forallb (fun cm => bool_decide (ChannelMigration.status cm = COMPLETED)) cms = false.
Proof.
  intros Hin Hst. induction Hin as [cm cms | cm cm0 cms Hin IH]; simpl.
  - rewrite bool_decide_eq_false_2 by assumption. reflexivity.
  - rewrite IH by assumption. apply andb_false_r.
Qed.

(** What [execute_migration] does to a stored plan in status [ready]. *)
Lemma returns_execute_migration r plan_id channel_id plan :
  migration_plans r !! plan_id = Some plan ->
  MigrationPlan.overall_status plan = READY ->
  returns (execute_migration plan_id channel_id) r
    (fun plan' r' =>
       migration_plans r' !! plan_id = Some plan' /\
       Forall2 (touched (targeted channel_id) executed)
               (MigrationPlan.channel_migrations plan)
               (MigrationPlan.channel_migrations plan') /\
       MigrationPlan.overall_status plan' =
       if forallb (fun cm => bool_decide (ChannelMigration.status cm = COMPLETED))
                  (MigrationPlan.channel_migrations plan')
       then COMPLETED else IN_PROGRESS).
Proof.
  intros Hfound Hready. unfold execute_migration.
  apply returns_bind. exists (Some plan), r. split.
  { unfold get_plan. rewrite Hfound. reflexivity. }
  destruct (decide _) as [Hne | _]; [contradiction |].
  apply returns_bind. eapply returns_weaken; [apply returns_utcnow |].
  intros now r1 _. cbn beta.
  apply returns_bind.
  eapply returns_weaken;
    [apply (returns_for_selected _ _ executed);
     apply returns_execute_channel_migration |].
  intros cms' r2 [Hcms _]. cbn beta.
  cbn [MigrationPlan.channel_migrations MigrationPlan.set_channel_migrations].
  destruct (forallb _ cms') eqn:Hall.
  - eexists _, _. split; [reflexivity |].
    cbn. rewrite lookup_insert_eq. rewrite Hall. auto.
  - eexists _, _. split; [reflexivity |].
    cbn. rewrite lookup_insert_eq. rewrite Hall. auto.
Qed.

End PlanStateMachine.

(* ===================================================================== *)
(** * The scenarios evaluate as the code does *)
(* ===================================================================== *)

Example scenario_planned :
  MigrationPlan.overall_status (Scenario.stored Scenario.planned) = PLANNING /\
  map ChannelMigration.channel_id
      (MigrationPlan.channel_migrations (Scenario.stored Scenario.planned))
  = ["CH001"; "CH002"] /\
  map ChannelMigration.notes
      (MigrationPlan.channel_migrations (Scenario.stored Scenario.planned))
  = [ ["Migration playbook: 6 steps"; "Risk level: low"; "Readiness score: 92.5"];
      ["Migration playbook: 6 steps"; "Risk level: low"; "Readiness score: 91.2"] ].
Proof. vm_compute. repeat split; reflexivity. Qed.

Example scenario_simulated :
  MigrationPlan.overall_status (Scenario.stored Scenario.simulated) = READY /\
  map ChannelMigration.status
      (MigrationPlan.channel_migrations (Scenario.stored Scenario.simulated))
  = [READY; READY].
Proof. vm_compute. split; reflexivity. Qed.

Example scenario_one_executed :
  MigrationPlan.overall_status (Scenario.stored Scenario.one_executed) = IN_PROGRESS /\
  map ChannelMigration.status
      (MigrationPlan.channel_migrations (Scenario.stored Scenario.one_executed))
  = [COMPLETED; READY] /\
  ChannelMigration.notes (Scenario.stored_channel Scenario.one_executed 0)
  = [ "Migration playbook: 6 steps"; "Risk level: low"; "Readiness score: 92.5";
      "Migration completed at 2023-11-14T22:13:20.000007" ].
Proof. vm_compute. repeat split; reflexivity. Qed.

Example scenario_all_executed :
  MigrationPlan.overall_status (Scenario.stored Scenario.all_executed) = COMPLETED /\
  is_Some (MigrationPlan.actual_completion (Scenario.stored Scenario.all_executed)).
Proof. vm_compute. split; [reflexivity | eexists; reflexivity]. Qed.

(* ===================================================================== *)
(** * Properties of the migration plan state machine *)
(* ===================================================================== *)

(** C1.  For a stored plan with at least one channel migration,
    [run_simulations] returns normally; afterwards every channel migration
    is [ready] if and only if all individual channel simulations passed,
    and if not all passed then no channel migration is [ready] and the plan
    is in [simulation].  The code records every individual simulation as
    passed, so that both sides of the equivalence hold after every run:
    every channel migration is [ready] and so is the plan. *)
Theorem run_simulations_ready_iff_all_pass
  (r : Runtime) (plan_id : string) (plan : MigrationPlan.t) :
  migration_plans r !! plan_id = Some plan ->
  MigrationPlan.channel_migrations plan ≠ [] ->
  exists results plan' r',
    MigrationOrchestrator.run_simulations plan_id r = (Ok results, r') /\
    migration_plans r' !! plan_id = Some plan' /\
    map ChannelMigration.channel_id (MigrationPlan.channel_migrations plan')
    = map ChannelMigration.channel_id (MigrationPlan.channel_migrations plan) /\
    ((forall cm, cm ∈ MigrationPlan.channel_migrations plan' ->
                 ChannelMigration.status cm = READY)
     <-> all_simulations_pass results plan') /\
    (¬ all_simulations_pass results plan' ->
     (forall cm, cm ∈ MigrationPlan.channel_migrations plan' ->
                 ChannelMigration.status cm ≠ READY) /\
     MigrationPlan.overall_status plan' = SIMULATION) /\
    all_simulations_pass results plan' /\
    (forall cm, cm ∈ MigrationPlan.channel_migrations plan' ->
                ChannelMigration.status cm = READY) /\
    MigrationPlan.overall_status plan' = READY.
Proof.
  intros Hfound _.
  pose proof (run_simulations_stored r plan_id plan Hfound) as Hrun.
  cbv zeta in Hrun.
  eexists _, _, _. split; [exact Hrun |].
  assert (Hready : forall cm,
             cm ∈ map simulate_channel
                      (MigrationPlan.channel_migrations plan) ->
             ChannelMigration.status cm = READY).
  { intros cm (cm0 & -> & _)%list_elem_of_fmap. reflexivity. }
  assert (Hpass : all_simulations_pass
                    (fold_left
                       (fun d cm =>
                          <[ChannelMigration.channel_id cm :=
                              MigrationOrchestrator.passed_entry]> d)
                       (map simulate_channel
                            (MigrationPlan.channel_migrations plan)) ∅)
                    (MigrationPlan.set_overall_status READY
                       (MigrationPlan.set_channel_migrations
                          (map simulate_channel
                               (MigrationPlan.channel_migrations plan))
                          (MigrationPlan.set_overall_status SIMULATION plan)))).
  { intros cm Hin. simpl in Hin. split.
    - apply list_elem_of_fmap in Hin as (cm0 & -> & _). reflexivity.
    - rewrite simulation_results_lookup.
      rewrite bool_decide_eq_true_2; [reflexivity |].
      apply list_elem_of_fmap. exists cm. split; [reflexivity | exact Hin]. }
  split_and!.
  - apply lookup_insert_eq.
  - simpl. rewrite List.map_map. reflexivity.
  - split; intros _; [exact Hpass | exact Hready].
  - intros Hfail. contradiction.
  - exact Hpass.
  - exact Hready.
  - reflexivity.
Qed.

(** The plan of the two-channel scenario, after its creation. *)
Lemma run_simulations_ready_iff_all_pass_witness :
  exists results plan' r',
    MigrationOrchestrator.run_simulations Scenario.plan_id Scenario.planned
    = (Ok results, r') /\
    migration_plans r' !! Scenario.plan_id = Some plan' /\
    map ChannelMigration.channel_id (MigrationPlan.channel_migrations plan')
    = map ChannelMigration.channel_id
          (MigrationPlan.channel_migrations (Scenario.stored Scenario.planned)) /\
    ((forall cm, cm ∈ MigrationPlan.channel_migrations plan' ->
                 ChannelMigration.status cm = READY)
     <-> all_simulations_pass results plan') /\
    (¬ all_simulations_pass results plan' ->
     (forall cm, cm ∈ MigrationPlan.channel_migrations plan' ->
                 ChannelMigration.status cm ≠ READY) /\
     MigrationPlan.overall_status plan' = SIMULATION) /\
    all_simulations_pass results plan' /\
    (forall cm, cm ∈ MigrationPlan.channel_migrations plan' ->
                ChannelMigration.status cm = READY) /\
    MigrationPlan.overall_status plan' = READY.
Proof.
  apply (run_simulations_ready_iff_all_pass
           Scenario.planned Scenario.plan_id (Scenario.stored Scenario.planned)).
  - vm_compute. reflexivity.
  - vm_compute. discriminate.
Defined.

(** C2.  On a stored plan whose overall status is not [ready],
    [execute_migration] raises the not-ready error and changes nothing: the
    plan, with every channel migration's status, cutover timestamp and
    notes, is stored as before, and so is the rest of the state. *)
Theorem execute_migration_requires_ready
  (r : Runtime) (plan_id : string) (channel_id : option string)
  (plan : MigrationPlan.t) :
  migration_plans r !! plan_id = Some plan ->
  MigrationPlan.overall_status plan ≠ READY ->
  fst (MigrationOrchestrator.execute_migration plan_id channel_id r)
  = Raise (MigrationOrchestrator.not_ready plan_id) /\
  migration_plans
    (snd (MigrationOrchestrator.execute_migration plan_id channel_id r))
    !! plan_id = Some plan /\
  snd (MigrationOrchestrator.execute_migration plan_id channel_id r) = r.
Proof.
  intros Hfound Hstatus.
  rewrite (execute_migration_not_ready r plan_id channel_id plan Hfound Hstatus).
  split_and!; [reflexivity | exact Hfound | reflexivity].
Qed.

(** The plan of the two-channel scenario is in [planning] after its
    creation. *)
Lemma execute_migration_requires_ready_witness :
  fst (MigrationOrchestrator.execute_migration
         Scenario.plan_id (Some "CH001") Scenario.planned)
  = Raise (MigrationOrchestrator.not_ready Scenario.plan_id) /\
  migration_plans
    (snd (MigrationOrchestrator.execute_migration
            Scenario.plan_id (Some "CH001") Scenario.planned))
    !! Scenario.plan_id = Some (Scenario.stored Scenario.planned) /\
  snd (MigrationOrchestrator.execute_migration
         Scenario.plan_id (Some "CH001") Scenario.planned) = Scenario.planned.
Proof.
  apply (execute_migration_requires_ready
           Scenario.planned Scenario.plan_id (Some "CH001")
           (Scenario.stored Scenario.planned)).
  - vm_compute. reflexivity.
  - vm_compute. discriminate.
Defined.

(** C9.  When [channel_id] names no channel migration of a stored plan,
    [rollback_migration] returns the plan with every channel migration as
    it was and with overall status [rolled_back], and stores it: the
    condition that all targeted channel migrations are rolled back holds of
    the empty list of targets. *)
Theorem rollback_migration_unknown_channel
  (r : Runtime) (plan_id c reason : string) (plan : MigrationPlan.t) :
  migration_plans r !! plan_id = Some plan ->
  (forall cm, cm ∈ MigrationPlan.channel_migrations plan ->
              ChannelMigration.channel_id cm ≠ c) ->
  exists plan' r',
    MigrationOrchestrator.rollback_migration plan_id (Some c) reason r
    = (Ok plan', r') /\
    migration_plans r' !! plan_id = Some plan' /\
    MigrationPlan.channel_migrations plan'
    = MigrationPlan.channel_migrations plan /\
    MigrationPlan.overall_status plan' = ROLLED_BACK /\
    List.filter (MigrationOrchestrator.targeted (Some c))
                (MigrationPlan.channel_migrations plan) = [].
Proof.
  intros Hfound Hnone.
  assert (Hsel : forall cm, cm ∈ MigrationPlan.channel_migrations plan ->
                   MigrationOrchestrator.targeted (Some c) cm = false).
  { intros cm Hin. apply not_true_is_false.
    rewrite targeted_Some. apply Hnone. exact Hin. }
  assert (Hfilter : List.filter (MigrationOrchestrator.targeted (Some c))
                                (MigrationPlan.channel_migrations plan) = []).
  { revert Hsel. generalize (MigrationPlan.channel_migrations plan).
    intros cms. induction cms as [| cm cms IH]; intros Hsel; cbn [List.filter].
    - reflexivity.
    - rewrite (Hsel cm) by (apply elem_of_cons; left; reflexivity).
      apply IH. intros cm' Hin. apply Hsel. apply elem_of_cons. right. exact Hin. }
  unfold MigrationOrchestrator.rollback_migration, bind, get_plan.
  rewrite Hfound.
  rewrite (for_selected_none _ _ _ r Hsel).
  cbn [MigrationPlan.channel_migrations MigrationPlan.set_channel_migrations].
  rewrite Hfilter. cbn [forallb].
  eexists _, _. split; [reflexivity |].
  split_and!.
  - cbn. apply lookup_insert_eq.
  - reflexivity.
  - reflexivity.
  - reflexivity.
Qed.

(** Channel ["CH999"] is not a channel of the plan of the two-channel
    scenario. *)
Lemma rollback_migration_unknown_channel_witness :
  exists plan' r',
    MigrationOrchestrator.rollback_migration
      Scenario.plan_id (Some "CH999") "Manual rollback" Scenario.simulated
    = (Ok plan', r') /\
    migration_plans r' !! Scenario.plan_id = Some plan' /\
    MigrationPlan.channel_migrations plan'
    = MigrationPlan.channel_migrations (Scenario.stored Scenario.simulated) /\
    MigrationPlan.overall_status plan' = ROLLED_BACK /\
    List.filter (MigrationOrchestrator.targeted (Some "CH999"))
                (MigrationPlan.channel_migrations
                   (Scenario.stored Scenario.simulated)) = [].
Proof.
  apply (rollback_migration_unknown_channel
           Scenario.simulated Scenario.plan_id "CH999" "Manual rollback"
           (Scenario.stored Scenario.simulated)).
  - vm_compute. reflexivity.
  - intros cm Hin. vm_compute in Hin.
    apply list_elem_of_In in Hin. simpl in Hin.
    destruct Hin as [<- | [<- | []]]; discriminate.
Defined.

(** C10.  On a stored plan in status [ready] that has a channel migration
    for channel [c] and another channel migration that is not [completed],
    [execute_migration] for [c] returns normally; afterwards the channel
    migrations of [c] are [completed] and carry a cutover timestamp, the
    plan is [in_progress], and every further [execute_migration] on the
    plan raises the not-ready error. *)
Theorem execute_migration_single_channel
  (r : Runtime) (plan_id c : string) (plan : MigrationPlan.t)
  (target other : ChannelMigration.t) :
  migration_plans r !! plan_id = Some plan ->
  MigrationPlan.overall_status plan = READY ->
  target ∈ MigrationPlan.channel_migrations plan ->
  ChannelMigration.channel_id target = c ->
  other ∈ MigrationPlan.channel_migrations plan ->
  ChannelMigration.channel_id other ≠ c ->
  ChannelMigration.status other ≠ COMPLETED ->
  exists plan' r',
    MigrationOrchestrator.execute_migration plan_id (Some c) r = (Ok plan', r') /\
    migration_plans r' !! plan_id = Some plan' /\
    (exists target', target' ∈ MigrationPlan.channel_migrations plan' /\
                     ChannelMigration.channel_id target' = c) /\
    (forall cm, cm ∈ MigrationPlan.channel_migrations plan' ->
                ChannelMigration.channel_id cm = c ->
                ChannelMigration.status cm = COMPLETED /\
                is_Some (ChannelMigration.cutover_timestamp cm)) /\
    MigrationPlan.overall_status plan' = IN_PROGRESS /\
    (forall channel_id,
        MigrationOrchestrator.execute_migration plan_id channel_id r'
        = (Raise (MigrationOrchestrator.not_ready plan_id), r')).
Proof.
  intros Hfound Hready Htarget Hc Hother Hne Hst.
  destruct (returns_execute_migration r plan_id (Some c) plan Hfound Hready)
    as (plan' & r' & Hrun & Hstored & Hcms & Hstatus).
  assert (Hpending :
            forallb (fun cm => bool_decide (ChannelMigration.status cm = COMPLETED))
                    (MigrationPlan.channel_migrations plan') = false).
  { destruct (proj1 (list_elem_of_lookup _ _) Hother) as [i Hi].
    destruct (Forall2_lookup_l _ _ _ _ _ Hcms Hi) as (other' & Hi' & Hrel).
    unfold touched in Hrel.
    replace (MigrationOrchestrator.targeted (Some c) other) with false in Hrel
      by (symmetry; apply not_true_is_false; rewrite targeted_Some; exact Hne).
    subst other'.
    apply (completed_all_false _ other); [| exact Hst].
    apply list_elem_of_lookup. exists i. exact Hi'. }
  rewrite Hpending in Hstatus.
  exists plan', r'. split_and!.
  - exact Hrun.
  - exact Hstored.
  - destruct (proj1 (list_elem_of_lookup _ _) Htarget) as [i Hi].
    destruct (Forall2_lookup_l _ _ _ _ _ Hcms Hi) as (target' & Hi' & Hrel).
    unfold touched in Hrel.
    rewrite (proj2 (targeted_Some c target) Hc) in Hrel.
    destruct Hrel as (Hid & _ & _).
    exists target'. split; [| congruence].
    apply list_elem_of_lookup. exists i. exact Hi'.
  - intros cm' Hin Hid.
    destruct (proj1 (list_elem_of_lookup _ _) Hin) as [i Hi'].
    destruct (Forall2_lookup_r _ _ _ _ _ Hcms Hi') as (cm & Hi & Hrel).
    unfold touched in Hrel.
    destruct (MigrationOrchestrator.targeted (Some c) cm) eqn:Hsel.
    + destruct Hrel as (_ & Hdone & Hts). split; assumption.
    + subst cm'. apply targeted_Some in Hid. congruence.
  - exact Hstatus.
  - intros channel_id.
    apply (execute_migration_not_ready r' plan_id channel_id plan' Hstored).
    rewrite Hstatus. discriminate.
Qed.

(** The plan of the two-channel scenario after its simulations: channel
    ["CH001"] is executed, channel ["CH002"] is left in [ready]. *)
Lemma execute_migration_single_channel_witness :
  exists plan' r',
    MigrationOrchestrator.execute_migration
      Scenario.plan_id (Some "CH001") Scenario.simulated = (Ok plan', r') /\
    migration_plans r' !! Scenario.plan_id = Some plan' /\
    (exists target', target' ∈ MigrationPlan.channel_migrations plan' /\
                     ChannelMigration.channel_id target' = "CH001") /\
    (forall cm, cm ∈ MigrationPlan.channel_migrations plan' ->
                ChannelMigration.channel_id cm = "CH001" ->
                ChannelMigration.status cm = COMPLETED /\
                is_Some (ChannelMigration.cutover_timestamp cm)) /\
    MigrationPlan.overall_status plan' = IN_PROGRESS /\
    (forall channel_id,
        MigrationOrchestrator.execute_migration Scenario.plan_id channel_id r'
        = (Raise (MigrationOrchestrator.not_ready Scenario.plan_id), r')).
Proof.
  apply (execute_migration_single_channel
           Scenario.simulated Scenario.plan_id "CH001"
           (Scenario.stored Scenario.simulated)
           (Scenario.stored_channel Scenario.simulated 0)
           (Scenario.stored_channel Scenario.simulated 1)).
  - vm_compute. reflexivity.
  - vm_compute. reflexivity.
  - apply list_elem_of_lookup. exists 0%nat. vm_compute. reflexivity.
  - vm_compute. reflexivity.
  - apply list_elem_of_lookup. exists 1%nat. vm_compute. reflexivity.
  - vm_compute. discriminate.
  - vm_compute. discriminate.
Defined.

(* ===================================================================== *)
(** * The risk model *)
(* ===================================================================== *)

Section RiskModel.

Import RiskAssessor Score.
Local Open Scope Q_scope.

Implicit Types (f : RiskFactor.t) (fs : list RiskFactor.t)
  (es : list (RiskCategory * Q)) (c : Customer.t) (r : Runtime).

(** ** [_calculate_overall_risk] reads the categories and the scores *)

Lemma scores_of_app cat es1 es2 :
  scores_of cat (es1 ++ es2) = (scores_of cat es1 ++ scores_of cat es2)%list.
Proof. unfold scores_of. rewrite List.filter_app, List.map_app. reflexivity. Qed.

(** The first loop, started from any lists under the five keys. *)
Lemma category_scores_loop fs (l1 l2 l3 l4 l5 : list Q) :
  fold_left
    (fun d factor =>
       scores_append d (RiskFactor.category factor) (RiskFactor.risk_score factor))
    fs
    [ (TECHNICAL, l1); (BUSINESS, l2); (COMPLIANCE, l3);
      (OPERATIONAL, l4); (INTEGRATION, l5) ]
  = [ (TECHNICAL, (l1 ++ scores_of TECHNICAL (map entry fs))%list);
      (BUSINESS, (l2 ++ scores_of BUSINESS (map entry fs))%list);
      (COMPLIANCE, (l3 ++ scores_of COMPLIANCE (map entry fs))%list);
      (OPERATIONAL, (l4 ++ scores_of OPERATIONAL (map entry fs))%list);
      (INTEGRATION, (l5 ++ scores_of INTEGRATION (map entry fs))%list) ].
Proof.
  revert l1 l2 l3 l4 l5. induction fs as [| f fs IH]; intros l1 l2 l3 l4 l5.
  - cbn. rewrite !app_nil_r. reflexivity.
  - cbn [fold_left map]. unfold entry at 1 3 5 7 9.
    unfold scores_of. cbn [List.filter fst snd].
    destruct (RiskFactor.category f) eqn:Hcat; simpl scores_append; rewrite IH;
      rewrite ?(bool_decide_eq_true_2 _ eq_refl);
      repeat (rewrite bool_decide_eq_false_2 by discriminate);
      cbn [map snd]; rewrite <- ?app_assoc; reflexivity.
Qed.

Lemma calculate_overall_risk_tally fs :
  fs ≠ [] ->
  _calculate_overall_risk fs
  = cap (fold_left add_category (tally (map entry fs)) 0.0).
Proof.
  intros Hne. unfold _calculate_overall_risk.
  destruct fs as [| f fs]; [contradiction |].
  change (map (fun cat => (cat, [])) RiskCategory_members)
    with [ (TECHNICAL, @nil Q); (BUSINESS, []); (COMPLIANCE, []);
           (OPERATIONAL, []); (INTEGRATION, []) ].
  rewrite category_scores_loop. reflexivity.
Qed.

(** Two lists of factors with the same categories and scores have the
    same overall score. *)
Lemma calculate_overall_risk_entries fs1 fs2 :
  map entry fs1 = map entry fs2 ->
  _calculate_overall_risk fs1 = _calculate_overall_risk fs2.
Proof.
  intros Heq. destruct fs1 as [| f1 fs1], fs2 as [| f2 fs2];
    try discriminate; [reflexivity |].
  rewrite !calculate_overall_risk_tally by discriminate.
  rewrite Heq. reflexivity.
Qed.





Lemma returns_assess_business_criticality c r :
  returns (_assess_business_criticality c) r
    (fun fs r' => map entry fs = business_entries c /\ same_registries r r').
Proof.
  unfold _assess_business_criticality, business_entries.
  destruct (dict_get _ _ _) as [impact likelihood].
  mstep returns_uuid4_hex. intros u r1 Hr1.
  apply returns_ret. split; [reflexivity | exact Hr1].
Qed.

Lemma returns_compliance_factor requirement r :
  returns (compliance_factor requirement) r
    (fun f r' => entry f = (COMPLIANCE, (70.0 * 40.0) / 100.0) /\
                 same_registries r r').
Proof.
  unfold compliance_factor.
  mstep returns_uuid4_hex. intros u r1 Hr1.
  apply returns_ret. split; [reflexivity | exact Hr1].
Qed.

Lemma returns_assess_compliance c r :
  returns (_assess_compliance c) r
    (fun fs r' =>
       map entry fs = compliance_entries (Customer.compliance_requirements c) /\
       same_registries r r').
Proof.
  unfold _assess_compliance.
  assert (Hloop : forall reqs,
             returns (mapM compliance_factor reqs) r
               (fun fs r' => map entry fs = compliance_entries reqs /\
                             same_registries r r')).
  { intros reqs.
    eapply returns_weaken;
      [apply (returns_mapM compliance_factor
                (fun _ f => entry f = (COMPLIANCE, (70.0 * 40.0) / 100.0)));
       apply returns_compliance_factor |].
    intros fs r' [Hall Hr']. split; [| exact Hr'].
    induction Hall as [| req f reqs' fs' Hf _ IH]; [reflexivity |].
    cbn [map compliance_entries]. rewrite Hf. f_equal. exact IH. }
  destruct (Customer.compliance_requirements c) as [| req reqs].
  - apply returns_ret. split; [reflexivity | apply same_registries_refl].
  - apply Hloop.
Qed.

Lemma returns_assess_channel_complexity c r :
  returns (_assess_channel_complexity c) r
    (fun fs r' => map entry fs = complexity_entries c /\ same_registries r r').
Proof.
  unfold _assess_channel_complexity, complexity_entries.
  apply returns_bind.
  destruct (5 <? length (Customer.channels c))%nat.
  - mstep returns_uuid4_hex. intros u r1 Hr1. apply returns_ret.
    apply returns_bind. destruct (existsb _ _).
    + mstep returns_uuid4_hex. intros u2 r2 Hr2. apply returns_ret.
      apply returns_ret. split; [reflexivity |].
      eapply same_registries_trans; eassumption.
    + apply returns_ret. apply returns_ret. split; [reflexivity | exact Hr1].
  - apply returns_ret.
    apply returns_bind. destruct (existsb _ _).
    + mstep returns_uuid4_hex. intros u2 r2 Hr2. apply returns_ret.
      apply returns_ret. split; [reflexivity | exact Hr2].
    + apply returns_ret. apply returns_ret.
      split; [reflexivity | apply same_registries_refl].
Qed.

Lemma returns_assess_operational_factors c r :
  returns (_assess_operational_factors c) r
    (fun fs r' => map entry fs = operational_entries c /\ same_registries r r').
Proof.
  unfold _assess_operational_factors, operational_entries.
  destruct (negb _ && negb _).
  - mstep returns_uuid4_hex. intros u r1 Hr1.
    apply returns_ret. split; [reflexivity | exact Hr1].
  - apply returns_ret. split; [reflexivity | apply same_registries_refl].
Qed.

(** [assess_customer] always returns; the categories and scores of its
    factors, its overall score and its level are functions of the customer. *)
Lemma returns_assess_customer c r :
  returns (assess_customer c) r
    (fun a r' =>
       map entry (RiskAssessment.risk_factors a) = customer_entries c /\
       RiskAssessment.overall_risk_score a
       = _calculate_overall_risk (RiskAssessment.risk_factors a) /\
       RiskAssessment.risk_level a
       = _determine_risk_level (RiskAssessment.overall_risk_score a) /\
       same_registries r r').
Proof.
  unfold assess_customer.
  mstep returns_uuid4_hex. intros u r0 Hr0.
  mstep returns_assess_business_criticality. intros fs1 r1 [H1 Hr1].
  mstep returns_assess_compliance. intros fs2 r2 [H2 Hr2].
  mstep returns_assess_channel_complexity. intros fs3 r3 [H3 Hr3].
  mstep returns_assess_operational_factors. intros fs4 r4 [H4 Hr4].
  mstep returns_utcnow. intros now r5 Hr5.
  apply returns_ret. cbn [RiskAssessment.risk_factors
    RiskAssessment.overall_risk_score RiskAssessment.risk_level].
  split_and!; try reflexivity.
  - rewrite !List.map_app, H1, H2, H3, H4. reflexivity.
  - repeat (eapply same_registries_trans; [eassumption |]).
    apply same_registries_refl.
Qed.



(** ** The weighted score is the sum of the contributions *)

Lemma add_category_contribution (w : Q) (item : RiskCategory * list Q) :
  add_category w item == w + contribution item.
Proof.
  destruct item as [cat [| x scores]]; unfold add_category, contribution;
    cbn [fst snd]; ring.
Qed.

Lemma fold_add_category (items : list (RiskCategory * list Q)) (w : Q) :
  fold_left add_category items w == w + total items.
Proof.
  revert w. induction items as [| item items IH]; intros w; cbn [fold_left total fold_right].
  - ring.
  - rewrite IH, add_category_contribution. fold (total items). ring.
Qed.

Lemma cap_monotone (w w' : Q) : w <= w' -> cap w <= cap w'.
Proof.
  intros Hle. unfold cap.
  destruct (Qle_bool 100.0 w) eqn:H1, (Qle_bool 100.0 w') eqn:H2.
  - lra.
  - apply Qle_bool_iff in H1.
    assert (~ 100.0 <= w') by (rewrite <- Qle_bool_iff; congruence). lra.
  - assert (~ 100.0 <= w) by (rewrite <- Qle_bool_iff; congruence). lra.
  - exact Hle.
Qed.

(** ** The scores of a constant list *)

Lemma sum_constant (s : Q) {A} (l : list A) (a : Q) :
  fold_left Qplus (map (fun _ => s) l) a
  == a + inject_Z (Z.of_nat (length l)) * s.
Proof.
  revert a. induction l as [| x l IH]; intros a.
  - cbn. ring.
  - cbn [map fold_left length]. rewrite IH.
    rewrite Nat2Z.inj_succ, <- Z.add_1_r, inject_Z_plus. ring.
Qed.

Lemma average_constant (s : Q) {A} (x : A) (l : list A) :
  sum (map (fun _ => s) (x :: l)) / len (map (fun _ => s) (x :: l)) == s.
Proof.
  unfold sum, len. rewrite sum_constant, length_map.
  assert (Hpos : 0 < inject_Z (Z.of_nat (length (x :: l)))).
  { change 0 with (inject_Z 0). rewrite <- Zlt_Qlt. cbn [length]. lia. }
  field. lra.
Qed.



(** ** Where the compliance scores come from *)

Lemma scores_of_compliance_entries (reqs : list string) :
  scores_of COMPLIANCE (compliance_entries reqs)
  = map (fun _ => (70.0 * 40.0) / 100.0) reqs.
Proof.
  induction reqs as [| req reqs IH]; [reflexivity |].
  unfold scores_of in *. cbn [compliance_entries map List.filter fst].
  rewrite (bool_decide_eq_true_2 _ eq_refl). cbn [map snd].
  f_equal. exact IH.
Qed.

Lemma scores_of_other_compliance_entries cat (reqs : list string) :
  cat ≠ COMPLIANCE -> scores_of cat (compliance_entries reqs) = [].
Proof.
  intros Hcat. induction reqs as [| req reqs IH]; [reflexivity |].
  unfold scores_of in *. cbn [compliance_entries map List.filter fst].
  rewrite bool_decide_eq_false_2 by congruence. exact IH.
Qed.

Lemma scores_of_compliance_business c :
  scores_of COMPLIANCE (business_entries c) = [].
Proof.
  unfold business_entries. destruct (dict_get _ _ _) as [impact likelihood].
  reflexivity.
Qed.

Lemma scores_of_compliance_complexity c :
  scores_of COMPLIANCE (complexity_entries c) = [].
Proof.
  unfold complexity_entries.
  destruct (5 <? _)%nat, (existsb _ _); reflexivity.
Qed.

Lemma scores_of_compliance_operational c :
  scores_of COMPLIANCE (operational_entries c) = [].
Proof.
  unfold operational_entries. destruct (negb _ && negb _); reflexivity.
Qed.

Lemma contribution_compliance (reqs : list string) :
  contribution (COMPLIANCE, map (fun _ => (70.0 * 40.0) / 100.0) reqs)
  == match reqs with [] => 0 | _ => 7 end.
Proof.
  destruct reqs as [| req reqs]; [reflexivity |].
  unfold contribution. cbn [fst snd].
  change (map (fun _ => (70.0 * 40.0) / 100.0) (req :: reqs))
    with ((70.0 * 40.0) / 100.0 :: map (fun _ : string => (70.0 * 40.0) / 100.0) reqs).
  cbv iota.
  change ((70.0 * 40.0) / 100.0 :: map (fun _ : string => (70.0 * 40.0) / 100.0) reqs)
    with (map (fun _ : string => (70.0 * 40.0) / 100.0) (req :: reqs)).
  rewrite average_constant. reflexivity.
Qed.

Lemma weighted_with_monotone c (reqs reqs' : list string) :
  (length reqs <= length reqs')%nat ->
  weighted_with c reqs <= weighted_with c reqs'.
Proof.
  intros Hlen. unfold weighted_with. rewrite !fold_add_category.
  unfold tally, total. cbn [RiskCategory_members map fold_right].
  rewrite !scores_of_app.
  rewrite !scores_of_compliance_entries,
          !scores_of_compliance_business,
          !scores_of_compliance_complexity,
          !scores_of_compliance_operational.
  rewrite !(scores_of_other_compliance_entries TECHNICAL) by discriminate.
  rewrite !(scores_of_other_compliance_entries BUSINESS) by discriminate.
  rewrite !(scores_of_other_compliance_entries OPERATIONAL) by discriminate.
  rewrite !(scores_of_other_compliance_entries INTEGRATION) by discriminate.
  rewrite !app_nil_l, !app_nil_r.
  rewrite !contribution_compliance.
  destruct reqs as [| req reqs], reqs' as [| req' reqs'];
    cbn [length] in Hlen; try lia; lra.
Qed.



Lemma customer_entries_nonempty c : customer_entries c ≠ [].
Proof.
  unfold customer_entries, business_entries.
  destruct (dict_get _ _ _) as [impact likelihood]. discriminate.
Qed.

(** The overall score of an assessment, from the customer alone. *)
Lemma returns_assess_customer_score c r :
  returns (assess_customer c) r
    (fun a r' =>
       RiskAssessment.overall_risk_score a
       = cap (fold_left add_category (tally (customer_entries c)) 0.0) /\
       RiskAssessment.risk_level a
       = _determine_risk_level (RiskAssessment.overall_risk_score a)).
Proof.
  eapply returns_weaken; [apply returns_assess_customer |].
  intros a r' (Hentries & Hscore & Hlevel & _). split; [| exact Hlevel].
  rewrite Hscore, calculate_overall_risk_tally, Hentries; [reflexivity |].
  intros Hnil. apply (customer_entries_nonempty c).
  rewrite <- Hentries, Hnil. reflexivity.
Qed.

(** ** The range of the scores *)

Lemma risk_score_range (f : RiskFactor.t) :
  RiskFactor.valid f ->
  0 <= RiskFactor.risk_score f /\ RiskFactor.risk_score f <= 100.
Proof.
  intros [[Hi0 Hi1] [Hl0 Hl1]]. unfold RiskFactor.risk_score. split.
  - apply Qle_shift_div_l; [reflexivity | nra].
  - apply Qle_shift_div_r; [reflexivity | nra].
Qed.

Lemma sum_nonnegative (scores : list Q) (a : Q) :
  Forall (fun x => 0 <= x) scores -> 0 <= a -> 0 <= fold_left Qplus scores a.
Proof.
  intros Hall. revert a. induction Hall as [| x scores Hx _ IH]; intros a Ha.
  - exact Ha.
  - cbn [fold_left]. apply IH. lra.
Qed.

Lemma weight_nonnegative (cat : RiskCategory) :
  0 <= dict_get risk_weights cat 0.1.
Proof. destruct cat; vm_compute; discriminate. Qed.

Lemma contribution_nonnegative (cat : RiskCategory) (scores : list Q) :
  Forall (fun x => 0 <= x) scores -> 0 <= contribution (cat, scores).
Proof.
  intros Hall. unfold contribution. cbn [fst snd].
  destruct scores as [| x scores]; [lra |].
  apply Qmult_le_0_compat; [| apply weight_nonnegative].
  apply Qle_shift_div_l.
  - unfold len. change 0 with (inject_Z 0). rewrite <- Zlt_Qlt. cbn [length]. lia.
  - rewrite Qmult_0_l. apply sum_nonnegative; [exact Hall | lra].
Qed.

Lemma scores_of_nonnegative cat (es : list (RiskCategory * Q)) :
  Forall (fun e => 0 <= snd e) es -> Forall (fun x => 0 <= x) (scores_of cat es).
Proof.
  intros Hall. unfold scores_of.
  induction Hall as [| e es He _ IH]; cbn [List.filter map]; [constructor |].
  destruct (bool_decide _); [| exact IH].
  cbn [map]. constructor; assumption.
Qed.

Lemma cap_range (w : Q) : 0 <= w -> 0 <= cap w /\ cap w <= 100.
Proof.
  intros Hw. unfold cap. destruct (Qle_bool 100.0 w) eqn:Hcap.
  - lra.
  - assert (~ 100.0 <= w) by (rewrite <- Qle_bool_iff; congruence). lra.
Qed.

(** The overall score of factors within their field constraints is within
    the constraint of [RiskAssessment.overall_risk_score], and so is the
    readiness score [100.0 - overall_risk_score]. *)
Lemma calculate_overall_risk_range (fs : list RiskFactor.t) :
  Forall RiskFactor.valid fs ->
  0 <= _calculate_overall_risk fs /\ _calculate_overall_risk fs <= 100.
Proof.
  intros Hvalid. destruct fs as [| f fs]; [cbn; lra |].
  rewrite calculate_overall_risk_tally by discriminate.
  apply cap_range. rewrite fold_add_category.
  assert (Hentries : Forall (fun e => 0 <= snd e) (map entry (f :: fs))).
  { apply List.Forall_map. eapply Forall_impl; [exact Hvalid |].
    intros f' Hf'. apply (risk_score_range f' Hf'). }
  remember (map entry (f :: fs)) as es eqn:Hes. clear Hes.
  unfold tally, total. cbn [RiskCategory_members map fold_right].
  pose proof (contribution_nonnegative TECHNICAL _
                (scores_of_nonnegative TECHNICAL _ Hentries)).
  pose proof (contribution_nonnegative BUSINESS _
                (scores_of_nonnegative BUSINESS _ Hentries)).
  pose proof (contribution_nonnegative COMPLIANCE _
                (scores_of_nonnegative COMPLIANCE _ Hentries)).
  pose proof (contribution_nonnegative OPERATIONAL _
                (scores_of_nonnegative OPERATIONAL _ Hentries)).
  pose proof (contribution_nonnegative INTEGRATION _
                (scores_of_nonnegative INTEGRATION _ Hentries)).
  lra.
Qed.

End RiskModel.


(* ===================================================================== *)
(** * Plan creation *)
(* ===================================================================== *)

Section PlanCreation.

Import MigrationOrchestrator.

Implicit Types (r : Runtime) (plan : MigrationPlan.t) (c : Customer.t)
  (ch : IntegrationChannel.t).

(** Closes a goal [same_registries r r'] from the hypotheses of the steps
    between [r] and [r']. *)
Ltac registries :=
  repeat (eapply same_registries_trans; [eassumption |]);
  apply same_registries_refl.

Lemma returns_assess_channel_technical_risk ch r :
  returns (RiskAssessor._assess_channel_technical_risk ch) r
          (fun _ r' => same_registries r r').
Proof.
  unfold RiskAssessor._assess_channel_technical_risk.
  destruct (dict_get _ _ _) as [impact description].
  mstep returns_uuid4_hex. intros u r1 Hr1. apply returns_ret. exact Hr1.
Qed.

Lemma returns_assess_integration_complexity ch r :
  returns (RiskAssessor._assess_integration_complexity ch) r
          (fun _ r' => same_registries r r').
Proof.
  unfold RiskAssessor._assess_integration_complexity. destruct (negb _).
  - mstep returns_uuid4_hex. intros u r1 Hr1. apply returns_ret. exact Hr1.
  - apply returns_ret. apply same_registries_refl.
Qed.

Lemma returns_assess_transaction_volume_risk ch r :
  returns (RiskAssessor._assess_transaction_volume_risk ch) r
          (fun _ r' => same_registries r r').
Proof.
  unfold RiskAssessor._assess_transaction_volume_risk. destruct (10000 <? _).
  - mstep returns_uuid4_hex. intros u r1 Hr1. apply returns_ret. exact Hr1.
  - apply returns_ret. apply same_registries_refl.
Qed.

Lemma returns_assess_channel c ch r :
  returns (RiskAssessor.assess_channel c ch) r (fun _ r' => same_registries r r').
Proof.
  unfold RiskAssessor.assess_channel.
  mstep returns_uuid4_hex. intros u r0 Hr0.
  mstep returns_assess_channel_technical_risk. intros fs1 r1 Hr1.
  mstep returns_assess_integration_complexity. intros fs2 r2 Hr2.
  mstep returns_assess_transaction_volume_risk. intros fs3 r3 Hr3.
  mstep returns_utcnow. intros now r4 Hr4.
  apply returns_ret. registries.
Qed.

(** The channel migration planned for a channel. *)
Lemma returns_plan_channel c ch r :
  returns (plan_channel c ch) r
    (fun cm r' =>
       (ChannelMigration.channel_id cm = IntegrationChannel.channel_id ch /\
        ChannelMigration.status cm = PLANNING) /\
       same_registries r r').
Proof.
  unfold plan_channel.
  mstep returns_assess_channel. intros a r1 Hr1.
  apply returns_ret. split; [split; reflexivity | exact Hr1].
Qed.

(** The timeline of a plan: the planned start, and the planned completion
    as the start plus a duration fixed by the strategy. *)
Lemma returns_calculate_timeline plan c r :
  returns (_calculate_timeline plan c) r
    (fun plan' r' =>
       (exists start,
          MigrationPlan.planned_start plan' = Some start /\
          MigrationPlan.planned_completion plan'
          = Some (start + planned_duration (MigrationPlan.migration_strategy plan)
                                           (length (Customer.channels c)))) /\
       MigrationPlan.channel_migrations plan'
       = MigrationPlan.channel_migrations plan /\
       MigrationPlan.overall_status plan' = MigrationPlan.overall_status plan /\
       MigrationPlan.plan_id plan' = MigrationPlan.plan_id plan /\
       same_registries r r').
Proof.
  unfold _calculate_timeline, planned_duration.
  mstep returns_utcnow. intros now r1 Hr1.
  destruct (decide (_ = "phased")); [| destruct (decide (_ = "big-bang"))];
    apply returns_ret;
    (split_and!; [eexists; split; reflexivity | reflexivity | reflexivity
                  | reflexivity | exact Hr1]).
Qed.

(** [create_migration_plan] always returns; the plan is stored under its
    id, in status [planning], with one channel migration per channel. *)
Lemma returns_create_migration_plan c strategy r :
  returns (create_migration_plan c strategy) r
    (fun plan r' =>
       migration_plans r' !! MigrationPlan.plan_id plan = Some plan /\
       MigrationPlan.overall_status plan = PLANNING /\
       Forall2 (fun ch cm =>
                  ChannelMigration.channel_id cm = IntegrationChannel.channel_id ch /\
                  ChannelMigration.status cm = PLANNING)
               (Customer.channels c) (MigrationPlan.channel_migrations plan) /\
       exists start,
         MigrationPlan.planned_start plan = Some start /\
         MigrationPlan.planned_completion plan
         = Some (start + planned_duration strategy (length (Customer.channels c)))).
Proof.
  unfold create_migration_plan.
  mstep returns_uuid4_hex. intros u r0 Hr0.
  mstep returns_assess_customer. intros a r1 _.
  mstep (returns_mapM (plan_channel c)
           (fun ch cm =>
              ChannelMigration.channel_id cm = IntegrationChannel.channel_id ch /\
              ChannelMigration.status cm = PLANNING)).
  { apply returns_plan_channel. }
  intros cms r2 [Hcms Hr2].
  mstep returns_utcnow. intros created r3 Hr3.
  mstep returns_calculate_timeline.
  intros plan r4 (Htimeline & Hcms' & Hstatus & Hid & Hr4).
  cbn [MigrationPlan.migration_strategy MigrationPlan.channel_migrations
       MigrationPlan.overall_status MigrationPlan.plan_id]
    in Htimeline, Hcms', Hstatus, Hid.
  unfold put_plan, returns, bind, ret.
  eexists _, _. split; [reflexivity |].
  cbn [migration_plans]. split_and!.
  - rewrite Hid. apply lookup_insert_eq.
  - exact Hstatus.
  - rewrite Hcms'. exact Hcms.
  - exact Htimeline.
Qed.

End PlanCreation.

(* ===================================================================== *)
(** * Properties of the risk model *)
(* ===================================================================== *)

(** C8.  A risk factor whose impact and likelihood lie in [[0, 100]] has
    the risk score [impact_score * likelihood_score / 100], and the score
    lies in [[0, 100]]. *)
Theorem risk_score_bounds (f : RiskFactor.t) :
  RiskFactor.valid f ->
  (RiskFactor.risk_score f
   == RiskFactor.impact_score f * RiskFactor.likelihood_score f / 100 /\
   0 <= RiskFactor.risk_score f /\ RiskFactor.risk_score f <= 100)%Q.
Proof.
  intros Hvalid. split.
  - unfold RiskFactor.risk_score. field.
  - apply risk_score_range. exact Hvalid.
Qed.

(** The factor of a compliance requirement: impact 70, likelihood 40. *)
Lemma risk_score_bounds_witness :
  (RiskFactor.risk_score Scenario.compliance_factor
   == RiskFactor.impact_score Scenario.compliance_factor *
      RiskFactor.likelihood_score Scenario.compliance_factor / 100 /\
   0 <= RiskFactor.risk_score Scenario.compliance_factor /\
   RiskFactor.risk_score Scenario.compliance_factor <= 100)%Q.
Proof.
  apply (risk_score_bounds Scenario.compliance_factor).
  unfold RiskFactor.valid, Scenario.compliance_factor. cbn. lra.
Defined.

(** C7.  Two runs of [assess_customer] on the same customer, from any two
    states of the world and of the registries (whatever identifiers
    [uuid4] draws and whatever the clock reads), both return, with the
    same overall risk score and the same risk level. *)
Theorem assess_customer_deterministic (c : Customer.t) (r1 r2 : Runtime) :
  exists a1 r1' a2 r2',
    RiskAssessor.assess_customer c r1 = (Ok a1, r1') /\
    RiskAssessor.assess_customer c r2 = (Ok a2, r2') /\
    RiskAssessment.overall_risk_score a1 = RiskAssessment.overall_risk_score a2 /\
    RiskAssessment.risk_level a1 = RiskAssessment.risk_level a2.
Proof.
  destruct (returns_assess_customer_score c r1) as (a1 & r1' & Hrun1 & Hs1 & Hl1).
  destruct (returns_assess_customer_score c r2) as (a2 & r2' & Hrun2 & Hs2 & Hl2).
  exists a1, r1', a2, r2'. split_and!; [assumption | assumption | |].
  - congruence.
  - congruence.
Qed.

(** C6.  Adding one compliance requirement to a customer, at any position
    of the list and with all other fields unchanged, does not decrease the
    overall risk score returned by [assess_customer]. *)
Theorem compliance_requirement_monotone
  (c : Customer.t) (position : nat) (requirement : string) (r r' : Runtime) :
  let requirements := Customer.compliance_requirements c in
  let extended :=
    Customer.with_compliance_requirements
      (take position requirements ++ requirement :: drop position requirements)%list
      c in
  exists a r1 a' r1',
    RiskAssessor.assess_customer c r = (Ok a, r1) /\
    RiskAssessor.assess_customer extended r' = (Ok a', r1') /\
    (RiskAssessment.overall_risk_score a <= RiskAssessment.overall_risk_score a')%Q.
Proof.
  intros requirements extended.
  destruct (returns_assess_customer_score c r) as (a & r1 & Hrun & Hs & _).
  destruct (returns_assess_customer_score extended r') as (a' & r1' & Hrun' & Hs' & _).
  exists a, r1, a', r1'. split_and!; [assumption | assumption |].
  rewrite Hs, Hs'. apply cap_monotone.
  apply (weighted_with_monotone c requirements
           (take position requirements ++ requirement :: drop position requirements)).
  rewrite length_app, length_cons.
  rewrite <- (take_drop position requirements) at 1. rewrite length_app. lia.
Qed.

(** C5.  For a customer with exactly six channels, each of type
    [THICK_CLIENT] or [EDI], business criticality ["critical"] and
    compliance requirements [["HIPAA", "PCI-DSS"]], [assess_customer]
    returns an assessment whose overall risk score is greater than 35 and
    whose risk level is [MEDIUM], [HIGH] or [CRITICAL].  The score is
    38.625 when the customer has a contact, 42.225 when it has none, and
    the level is [MEDIUM]. *)
Theorem assess_critical_legacy_customer (c : Customer.t) (r : Runtime) :
  length (Customer.channels c) = 6%nat ->
  Forall (fun ch => IntegrationChannel.channel_type ch = THICK_CLIENT \/
                    IntegrationChannel.channel_type ch = EDI)
         (Customer.channels c) ->
  Customer.business_criticality c = "critical" ->
  Customer.compliance_requirements c = ["HIPAA"; "PCI-DSS"] ->
  exists a r',
    RiskAssessor.assess_customer c r = (Ok a, r') /\
    (35 < RiskAssessment.overall_risk_score a)%Q /\
    RiskAssessment.risk_level a ∈ [MEDIUM; HIGH; CRITICAL] /\
    (RiskAssessment.overall_risk_score a == 38.625 \/
     RiskAssessment.overall_risk_score a == 42.225)%Q /\
    RiskAssessment.risk_level a = MEDIUM.
Proof.
  intros Hlen Hlegacy Hcrit Hreqs.
  destruct (returns_assess_customer_score c r) as (a & r' & Hrun & Hs & Hl).
  exists a, r'. split; [exact Hrun |].
  rewrite Hl, Hs.
  assert (Hhas : existsb
                   (fun ch => bool_decide
                                (IntegrationChannel.channel_type ch ∈ RiskAssessor.legacy_types))
                   (Customer.channels c) = true).
  { destruct (Customer.channels c) as [| ch chs]; [discriminate |].
    cbn [existsb]. apply Forall_cons in Hlegacy as [Hch _].
    rewrite bool_decide_eq_true_2; [reflexivity |].
    unfold RiskAssessor.legacy_types. destruct Hch as [-> | ->].
    - apply elem_of_cons. right. apply elem_of_cons. left. reflexivity.
    - apply elem_of_cons. left. reflexivity. }
  unfold Score.customer_entries, Score.business_entries, Score.complexity_entries,
    Score.operational_entries.
  rewrite Hcrit, Hreqs, Hlen, Hhas.
  destruct (negb _ && negb _).
  - replace (RiskAssessor._determine_risk_level _) with MEDIUM
      by (vm_compute; reflexivity).
    split_and!.
    + vm_compute. reflexivity.
    + apply elem_of_cons. left. reflexivity.
    + right. vm_compute. reflexivity.
    + reflexivity.
  - replace (RiskAssessor._determine_risk_level _) with MEDIUM
      by (vm_compute; reflexivity).
    split_and!.
    + vm_compute. reflexivity.
    + apply elem_of_cons. left. reflexivity.
    + left. vm_compute. reflexivity.
    + reflexivity.
Qed.

(** The customer of [test_assess_high_criticality_customer]. *)
Lemma assess_critical_legacy_customer_witness :
  exists a r',
    RiskAssessor.assess_customer Scenario.critical_legacy Scenario.fresh
    = (Ok a, r') /\
    (35 < RiskAssessment.overall_risk_score a)%Q /\
    RiskAssessment.risk_level a ∈ [MEDIUM; HIGH; CRITICAL] /\
    (RiskAssessment.overall_risk_score a == 38.625 \/
     RiskAssessment.overall_risk_score a == 42.225)%Q /\
    RiskAssessment.risk_level a = MEDIUM.
Proof.
  apply (assess_critical_legacy_customer Scenario.critical_legacy Scenario.fresh).
  - reflexivity.
  - unfold Scenario.critical_legacy, Scenario.customer, Scenario.channel.
    cbn [Customer.channels].
    repeat (apply List.Forall_cons; [first [left; reflexivity | right; reflexivity] |]).
    apply List.Forall_nil.
  - reflexivity.
  - reflexivity.
Defined.

(* ===================================================================== *)
(** * Properties of the plan timeline and of the cutover *)
(* ===================================================================== *)

(** C4, as the code has it.  For every customer and every strategy among
    ["phased"], ["big-bang"] and ["parallel"], [create_migration_plan]
    returns a plan with both dates set; [planned_completion] is strictly
    later than [planned_start], except for a customer without channels
    under the phased strategy, where the two are equal. *)
Theorem create_migration_plan_timeline
  (c : Customer.t) (strategy : string) (r : Runtime) :
  strategy ∈ ["phased"; "big-bang"; "parallel"] ->
  exists plan r' start completion,
    MigrationOrchestrator.create_migration_plan c strategy r = (Ok plan, r') /\
    MigrationPlan.planned_start plan = Some start /\
    MigrationPlan.planned_completion plan = Some completion /\
    (strategy = "phased" /\ Customer.channels c = [] -> completion = start) /\
    (strategy ≠ "phased" \/ Customer.channels c ≠ [] -> start < completion).
Proof.
  intros Hstrategy.
  destruct (returns_create_migration_plan c strategy r)
    as (plan & r' & Hrun & _ & _ & _ & start & Hstart & Hcompletion).
  eexists plan, r', start, _.
  split_and!; [exact Hrun | exact Hstart | exact Hcompletion | |].
  - intros [-> ->]. unfold planned_duration.
    destruct (decide _) as [_ | Hne]; [| contradiction].
    unfold Py.timedelta_weeks. cbn [length]. lia.
  - intros Hlong. unfold planned_duration.
    destruct (decide (strategy = "phased")) as [-> | Hphased].
    + destruct Hlong as [Hne | Hne]; [contradiction |].
      destruct (Customer.channels c) as [| ch chs]; [contradiction |].
      unfold Py.timedelta_weeks, Py.week, Py.day, Py.second.
      cbn [length]. lia.
    + destruct (decide (strategy = "big-bang"));
        unfold Py.timedelta_days, Py.timedelta_weeks, Py.week, Py.day, Py.second;
        lia.
Qed.

(** The two-channel scenario under the phased strategy. *)
Lemma create_migration_plan_timeline_witness :
  exists plan r' start completion,
    MigrationOrchestrator.create_migration_plan
      Scenario.two_channels "phased" Scenario.fresh = (Ok plan, r') /\
    MigrationPlan.planned_start plan = Some start /\
    MigrationPlan.planned_completion plan = Some completion /\
    ("phased" = "phased" /\ Customer.channels Scenario.two_channels = []
     -> completion = start) /\
    ("phased" ≠ "phased" \/ Customer.channels Scenario.two_channels ≠ []
     -> start < completion).
Proof.
  apply (create_migration_plan_timeline Scenario.two_channels "phased" Scenario.fresh).
  apply elem_of_cons. left. reflexivity.
Defined.

(** C4, as the specification states it, fails for a customer without channels under
    the phased strategy: the clock reads 2023-11-14T22:13:20.000002 in
    [_calculate_timeline], the plan starts seven days later and completes
    zero weeks after its start. *)
Lemma create_migration_plan_no_channels_phased :
  MigrationPlan.planned_start
    <$> Scenario.returned
          (MigrationOrchestrator.create_migration_plan Scenario.no_channels "phased")
          Scenario.fresh
  = Some (Some 1700604800000002) /\
  MigrationPlan.planned_completion
    <$> Scenario.returned
          (MigrationOrchestrator.create_migration_plan Scenario.no_channels "phased")
          Scenario.fresh
  = Some (Some 1700604800000002) /\
  ¬ (1700604800000002 < 1700604800000002).
Proof. split_and!; [vm_compute; reflexivity | vm_compute; reflexivity | lia]. Qed.

(** C3, as the code has it.  For an active cutover, [rollback_cutover]
    returns the record of a completed rollback with the five steps of the
    reversal script, and stores the cutover with status ["rolled_back"] and
    that record.  No migration plan changes: the channel migration for
    which the cutover was initiated keeps its status. *)
Theorem rollback_cutover_marks_cutover
  (r : Runtime) (cutover_id reason : string) (cutover : Cutover.t) :
  active_cutovers r !! cutover_id = Some cutover ->
  exists rollback cutover' r',
    CutoverCoordinator.rollback_cutover cutover_id reason r = (Ok rollback, r') /\
    Rollback.steps rollback = CutoverCoordinator.rollback_steps /\
    length (Rollback.steps rollback) = 5%nat /\
    Rollback.status rollback = "completed" /\
    Rollback.reason rollback = reason /\
    active_cutovers r' !! cutover_id = Some cutover' /\
    Cutover.status cutover' = "rolled_back" /\
    Cutover.rollback cutover' = Some rollback /\
    Cutover.channel_id cutover' = Cutover.channel_id cutover /\
    migration_plans r' = migration_plans r.
Proof.
  intros Hactive.
  unfold CutoverCoordinator.rollback_cutover, bind, get_cutover.
  rewrite Hactive.
  eexists _, _, _. split; [reflexivity |].
  cbn. rewrite lookup_insert_eq. split_and!; reflexivity.
Qed.

(** The cutover of channel ["CH001"] of the two-channel scenario. *)
Lemma rollback_cutover_marks_cutover_witness :
  exists rollback cutover' r',
    CutoverCoordinator.rollback_cutover
      "CUTOVER-CH001" "Error rate above threshold" Scenario.cutover_started
    = (Ok rollback, r') /\
    Rollback.steps rollback = CutoverCoordinator.rollback_steps /\
    length (Rollback.steps rollback) = 5%nat /\
    Rollback.status rollback = "completed" /\
    Rollback.reason rollback = "Error rate above threshold" /\
    active_cutovers r' !! "CUTOVER-CH001" = Some cutover' /\
    Cutover.status cutover' = "rolled_back" /\
    Cutover.rollback cutover' = Some rollback /\
    Cutover.channel_id cutover' = Cutover.channel_id Scenario.started_cutover /\
    migration_plans r' = migration_plans Scenario.cutover_started.
Proof.
  apply (rollback_cutover_marks_cutover
           Scenario.cutover_started "CUTOVER-CH001" "Error rate above threshold"
           Scenario.started_cutover).
  vm_compute. reflexivity.
Defined.

(** C3, as the specification states it, fails: the channel migration of ["CH001"] is
    [completed] when its cutover is initiated, and it is still [completed],
    not [rolled_back], after the cutover is rolled back. *)
Lemma rollback_cutover_keeps_channel_migration :
  ChannelMigration.channel_id (Scenario.stored_channel Scenario.all_executed 0)
  = "CH001" /\
  Cutover.channel_id <$> active_cutovers Scenario.cutover_started !! "CUTOVER-CH001"
  = Some "CH001" /\
  Cutover.status <$> active_cutovers Scenario.cutover_rolled_back !! "CUTOVER-CH001"
  = Some "rolled_back" /\
  ChannelMigration.channel_id (Scenario.stored_channel Scenario.cutover_rolled_back 0)
  = "CH001" /\
  ChannelMigration.status (Scenario.stored_channel Scenario.cutover_rolled_back 0)
  = COMPLETED /\
  ChannelMigration.status (Scenario.stored_channel Scenario.cutover_rolled_back 0)
  ≠ ROLLED_BACK.
Proof. vm_compute. split_and!; try reflexivity. discriminate. Qed.


(* ===================================================================== *)
(** * The operations of the orchestrator, in full *)
(* ===================================================================== *)

Section OrchestratorOperations.

Import MigrationOrchestrator.

Implicit Types (r : Runtime) (plan : MigrationPlan.t) (cm : ChannelMigration.t)
  (cms : list ChannelMigration.t).

(** A loop whose body reads nothing of the world is a map. *)
Lemma for_selected_pure sel (f : ChannelMigration.t -> ChannelMigration.t) cms r :
  for_selected sel (fun cm => ret (f cm)) cms r
  = (Ok (map (fun cm => if sel cm then f cm else cm) cms), r).
Proof.
  unfold for_selected. induction cms as [| cm cms IH]; [reflexivity |].
  cbn [mapM map]. unfold bind at 1.
  destruct (sel cm); unfold ret at 1; unfold bind at 1; rewrite IH; reflexivity.
Qed.

(** What [rollback_migration] computes for a stored plan. *)
Lemma rollback_migration_stored r plan_id channel_id reason plan :
  migration_plans r !! plan_id = Some plan ->
  let cms' :=
    rolled_back_channels channel_id reason
                         (MigrationPlan.channel_migrations plan) in
  let plan' :=
    if forallb is_rolled_back (List.filter (targeted channel_id) cms')
    then MigrationPlan.set_overall_status ROLLED_BACK
           (MigrationPlan.set_channel_migrations cms' plan)
    else MigrationPlan.set_channel_migrations cms' plan in
  rollback_migration plan_id channel_id reason r
  = (Ok plan',
     mkRuntime (world r) (<[plan_id := plan']> (migration_plans r))
               (active_cutovers r)).
Proof.
  intros Hfound. unfold rollback_migration, bind at 1, get_plan.
  rewrite Hfound. unfold bind at 1. rewrite for_selected_pure.
  cbn [MigrationPlan.channel_migrations MigrationPlan.set_channel_migrations].
  fold (rolled_back_channels channel_id reason
          (MigrationPlan.channel_migrations plan)).
  unfold is_rolled_back.
  destruct (forallb _ _); reflexivity.
Qed.

Lemma returns_execute_channel_migration_exact cm r :
  returns (_execute_channel_migration cm) r
          (fun cm' r' => migrated_from cm cm' /\ same_registries r r').
Proof.
  unfold returns, _execute_channel_migration, bind, utcnow, ret.
  cbv beta iota zeta.
  eexists _, _. split; [reflexivity |]. split.
  - eexists _, _. reflexivity.
  - split; reflexivity.
Qed.

(** What [execute_migration] computes for a stored plan in status
    [ready]. *)
Lemma returns_execute_migration_exact r plan_id channel_id plan :
  migration_plans r !! plan_id = Some plan ->
  MigrationPlan.overall_status plan = READY ->
  returns (execute_migration plan_id channel_id) r
    (fun plan' r' =>
       (exists started cms',
          Forall2 (touched (targeted channel_id) migrated_from)
                  (MigrationPlan.channel_migrations plan) cms' /\
          let base :=
            MigrationPlan.set_channel_migrations cms'
              (MigrationPlan.set_actual_start started
                 (MigrationPlan.set_overall_status IN_PROGRESS plan)) in
          (forallb is_completed cms' = true /\
           exists finished,
             plan' = MigrationPlan.set_actual_completion finished
                       (MigrationPlan.set_overall_status COMPLETED base)) \/
          (forallb is_completed cms' = false /\ plan' = base)) /\
       migration_plans r' = <[plan_id := plan']> (migration_plans r) /\
       active_cutovers r' = active_cutovers r).
Proof.
  intros Hfound Hready. unfold execute_migration.
  apply returns_bind. exists (Some plan), r. split.
  { unfold get_plan. rewrite Hfound. reflexivity. }
  destruct (decide _) as [Hne | _]; [contradiction |].
  mstep returns_utcnow. intros started r1 Hr1.
  apply returns_bind.
  eapply returns_weaken;
    [apply (returns_for_selected _ _ migrated_from);
     apply returns_execute_channel_migration_exact |].
  intros cms' r2 [Hcms Hr2]. cbn beta.
  cbn [MigrationPlan.channel_migrations MigrationPlan.set_channel_migrations].
  pose proof (same_registries_trans _ _ _ Hr1 Hr2) as [Hplans Hcutovers].
  fold is_completed.
  change (fun cm => bool_decide (ChannelMigration.status cm = COMPLETED))
    with is_completed.
  destruct (forallb is_completed cms') eqn:Hall.
  - unfold returns, bind, utcnow, ret, put_plan. cbv beta iota zeta.
    eexists _, _. split; [reflexivity |]. cbn [migration_plans active_cutovers world].
    split_and!.
    + exists started, cms'. split; [exact Hcms |]. left. split; [exact Hall |].
      eexists. reflexivity.
    + rewrite Hplans. reflexivity.
    + exact Hcutovers.
  - unfold returns, bind, ret, put_plan. cbv beta iota zeta.
    eexists _, _. split; [reflexivity |]. cbn [migration_plans active_cutovers world].
    split_and!.
    + exists started, cms'. split; [exact Hcms |]. right. split; [exact Hall | reflexivity].
    + rewrite Hplans. reflexivity.
    + exact Hcutovers.
Qed.

Lemma get_migration_status_stored r plan_id plan :
  migration_plans r !! plan_id = Some plan ->
  exists report,
    get_migration_status plan_id r = (Ok report, r) /\
    StatusReport.channels report
    = map channel_status (MigrationPlan.channel_migrations plan) /\
    StatusReport.progress_percentage report = _calculate_progress plan /\
    StatusReport.overall_status report
    = MigrationStatus_value (MigrationPlan.overall_status plan).
Proof.
  intros Hfound. unfold get_migration_status, bind, get_plan. rewrite Hfound.
  eexists. split; [reflexivity |]. split_and!; reflexivity.
Qed.

End OrchestratorOperations.


(** Membership in a list that is written out. *)
Ltac in_list :=
  solve [repeat first [ apply elem_of_cons; left; reflexivity
                      | apply elem_of_cons; right ]].

Section OrchestratorInvariants.

Import MigrationOrchestrator.

Implicit Types (r : Runtime) (plan : MigrationPlan.t) (cm : ChannelMigration.t)
  (cms : list ChannelMigration.t).

(** ** Each operation keeps what is set at creation *)

Lemma same_channel_refl cm : same_channel cm cm.
Proof. unfold same_channel. split_and!; auto. Qed.

Lemma same_channel_trans cm1 cm2 cm3 :
  same_channel cm1 cm2 -> same_channel cm2 cm3 -> same_channel cm1 cm3.
Proof.
  unfold same_channel.
  intros (? & ? & ? & ? & ? & ? & ? & ?) (? & ? & ? & ? & ? & ? & ? & ?).
  split_and!; try congruence; [etrans; eassumption | auto | auto].
Qed.

Lemma same_plan_refl plan : same_plan plan plan.
Proof.
  unfold same_plan. split_and!; try reflexivity.
  apply Forall2_same_length_lookup. split; [reflexivity |].
  intros i cm cm' H1 H2. rewrite H1 in H2. injection H2 as <-.
  apply same_channel_refl.
Qed.

Lemma same_plan_trans plan1 plan2 plan3 :
  same_plan plan1 plan2 -> same_plan plan2 plan3 -> same_plan plan1 plan3.
Proof.
  unfold same_plan.
  intros (? & ? & ? & ? & ? & ? & ? & ? & H12) (? & ? & ? & ? & ? & ? & ? & ? & H23).
  split_and!; try congruence.
  eapply Forall2_trans; [| exact H12 | exact H23].
  intros cm1 cm2 cm3. apply same_channel_trans.
Qed.

Lemma same_channel_simulate cm : same_channel cm (simulate_channel cm).
Proof. unfold same_channel. cbn. split_and!; auto. Qed.

Lemma same_channel_migrated cutover noted cm :
  same_channel cm (migrated cutover noted cm).
Proof.
  unfold same_channel. cbn. split_and!; auto;
    first [apply prefix_app_r; reflexivity | intros _; eexists; reflexivity].
Qed.

Lemma same_channel_rollback reason cm :
  same_channel cm (rollback_channel reason cm).
Proof.
  unfold same_channel, rollback_channel.
  destruct (ChannelMigration.rollback_available cm) eqn:Havailable; cbn;
    split_and!; auto; apply prefix_app_r; reflexivity.
Qed.

Lemma same_channels_touched sel P cms cms' :
  (forall cm cm', P cm cm' -> same_channel cm cm') ->
  Forall2 (touched sel P) cms cms' -> Forall2 same_channel cms cms'.
Proof.
  intros HP Hrel. eapply Forall2_impl; [exact Hrel |].
  intros cm cm'. unfold touched.
  destruct (sel cm); [apply HP | intros ->; apply same_channel_refl].
Qed.

Lemma same_channels_rolled_back channel_id reason cms :
  Forall2 same_channel cms (rolled_back_channels channel_id reason cms).
Proof.
  unfold rolled_back_channels. induction cms as [| cm cms IH]; [constructor |].
  cbn [map]. constructor; [| exact IH].
  destruct (targeted channel_id cm);
    [apply same_channel_rollback | apply same_channel_refl].
Qed.

Lemma same_channels_simulated cms :
  Forall2 same_channel cms (map simulate_channel cms).
Proof.
  induction cms as [| cm cms IH]; [constructor |].
  cbn [map]. constructor; [apply same_channel_simulate | exact IH].
Qed.

(** ** Each operation keeps the plans settled *)

Lemma settled_simulated plan :
  settled plan ->
  settled (MigrationPlan.set_overall_status READY
             (MigrationPlan.set_channel_migrations
                (map simulate_channel (MigrationPlan.channel_migrations plan))
                (MigrationPlan.set_overall_status SIMULATION plan))).
Proof.
  intros [_ Hcms]. split; [in_list |]. cbn.
  apply List.Forall_map. eapply Forall_impl; [exact Hcms |].
  intros cm [_ Havailable]. cbn. split; [in_list | exact Havailable].
Qed.

Lemma settled_channels_touched sel cms cms' :
  Forall (fun cm =>
            ChannelMigration.status cm ∈ [PLANNING; READY; COMPLETED; ROLLED_BACK] /\
            ChannelMigration.rollback_available cm = true) cms ->
  Forall2 (touched sel migrated_from) cms cms' ->
  Forall (fun cm =>
            ChannelMigration.status cm ∈ [PLANNING; READY; COMPLETED; ROLLED_BACK] /\
            ChannelMigration.rollback_available cm = true) cms'.
Proof.
  intros Hcms Hrel. induction Hrel as [| cm cm' cms cms' Hcm _ IH]; [constructor |].
  apply Forall_cons in Hcms as [[Hstatus Havailable] Hcms].
  constructor; [| apply IH; exact Hcms].
  unfold touched in Hcm. destruct (sel cm).
  - destruct Hcm as (cutover & noted & ->). cbn. split; [in_list | exact Havailable].
  - subst cm'. split; assumption.
Qed.

Lemma settled_channels_rolled_back channel_id reason cms :
  Forall (fun cm =>
            ChannelMigration.status cm ∈ [PLANNING; READY; COMPLETED; ROLLED_BACK] /\
            ChannelMigration.rollback_available cm = true) cms ->
  Forall (fun cm =>
            ChannelMigration.status cm ∈ [PLANNING; READY; COMPLETED; ROLLED_BACK] /\
            ChannelMigration.rollback_available cm = true)
         (rolled_back_channels channel_id reason cms).
Proof.
  intros Hcms. unfold rolled_back_channels. apply List.Forall_map.
  eapply Forall_impl; [exact Hcms |].
  intros cm [Hstatus Havailable]. destruct (targeted channel_id cm).
  - unfold rollback_channel. rewrite Havailable. cbn.
    split; [in_list | exact Havailable].
  - split; assumption.
Qed.

(** ** The effect of a call on the registry of plans *)

(** A call on a stored plan leaves the registry as it is, or replaces one
    plan by a plan with the same creation-time fields, settled if the
    former was. *)
Lemma perform_effect call r :
  on_stored_plan call ->
  active_cutovers (perform call r) = active_cutovers r /\
  (migration_plans (perform call r) = migration_plans r \/
   exists plan_id plan plan',
     migration_plans r !! plan_id = Some plan /\
     migration_plans (perform call r) = <[plan_id := plan']> (migration_plans r) /\
     same_plan plan plan' /\
     (settled plan -> settled plan')).
Proof.
  intros Hcall. destruct call as [c s | id | id channel_id | id channel_id reason | id];
    [contradiction | | | |]; cbn [perform].
  - (* run_simulations *)
    destruct (migration_plans r !! id) as [plan |] eqn:Hfound.
    + rewrite (run_simulations_stored r id plan Hfound). cbn.
      split; [reflexivity |]. right. eexists id, plan, _.
      split_and!; [exact Hfound | reflexivity | | apply settled_simulated].
      unfold same_plan. cbn. split_and!; try reflexivity.
      apply same_channels_simulated.
    + unfold run_simulations, bind, get_plan. rewrite Hfound.
      split; [reflexivity | left; reflexivity].
  - (* execute_migration *)
    destruct (migration_plans r !! id) as [plan |] eqn:Hfound.
    + destruct (decide (MigrationPlan.overall_status plan = READY)) as [Hready | Hnot].
      * destruct (returns_execute_migration_exact r id channel_id plan Hfound Hready)
          as (plan' & r' & Hrun & (started & cms' & Hcms & Hplan) & Hplans & Hcutovers).
        rewrite Hrun. cbn [snd]. split; [exact Hcutovers |].
        right. exists id, plan, plan'.
        split_and!; [exact Hfound | exact Hplans | |].
        -- cbv zeta in Hplan.
           destruct Hplan as [[_ [finished ->]] | [_ ->]];
             unfold same_plan; cbn; split_and!; try reflexivity;
             apply (same_channels_touched (targeted channel_id) migrated_from); try exact Hcms;
             intros cm cm' (cutover & noted & ->); apply same_channel_migrated.
        -- intros [_ Hsettled]. cbv zeta in Hplan.
           destruct Hplan as [[_ [finished ->]] | [_ ->]];
             (split; [cbn; in_list |]); cbn;
             eapply settled_channels_touched; eassumption.
      * rewrite (execute_migration_not_ready r id channel_id plan Hfound Hnot).
        split; [reflexivity | left; reflexivity].
    + unfold execute_migration, bind, get_plan. rewrite Hfound.
      split; [reflexivity | left; reflexivity].
  - (* rollback_migration *)
    destruct (migration_plans r !! id) as [plan |] eqn:Hfound.
    + rewrite (rollback_migration_stored r id channel_id reason plan Hfound). cbn.
      split; [reflexivity |]. right. eexists id, plan, _.
      split_and!; [exact Hfound | reflexivity | |].
      * destruct (forallb _ _); unfold same_plan; cbn; split_and!;
          try reflexivity; apply same_channels_rolled_back.
      * intros [Hstatus Hsettled].
        destruct (forallb _ _); (split; [cbn; first [in_list | exact Hstatus] |]);
          cbn; apply settled_channels_rolled_back; exact Hsettled.
    + unfold rollback_migration, bind, get_plan. rewrite Hfound.
      split; [reflexivity | left; reflexivity].
  - (* get_migration_status *)
    destruct (migration_plans r !! id) as [plan |] eqn:Hfound.
    + destruct (get_migration_status_stored r id plan Hfound) as (report & -> & _).
      split; [reflexivity | left; reflexivity].
    + unfold get_migration_status, bind, get_plan. rewrite Hfound.
      split; [reflexivity | left; reflexivity].
Qed.

End OrchestratorInvariants.


Section OrchestratorCreation.

Import MigrationOrchestrator.

Implicit Types (r : Runtime) (plan : MigrationPlan.t) (cm : ChannelMigration.t)
  (cms : list ChannelMigration.t) (c : Customer.t).

Lemma returns_uuid4_hex_value r :
  returns uuid4_hex r
    (fun u r' => u = uuid_stream (world r) (uuid_drawn (world r)) /\
                 same_registries r r').
Proof.
  eexists _, _. split; [reflexivity |]. split; [reflexivity | split; reflexivity].
Qed.

Lemma returns_plan_channel_planned c ch r :
  returns (plan_channel c ch) r
    (fun cm r' => planned_for ch cm /\ same_registries r r').
Proof.
  unfold plan_channel.
  mstep returns_assess_channel. intros a r1 Hr1.
  apply returns_ret. split; [| exact Hr1].
  unfold planned_for. cbn. split_and!; reflexivity.
Qed.

Lemma returns_calculate_timeline_exact plan c r :
  returns (_calculate_timeline plan c) r
    (fun plan' r' =>
       (exists start completion,
          plan' = MigrationPlan.set_planned_completion completion
                    (MigrationPlan.set_planned_start start plan)) /\
       same_registries r r').
Proof.
  unfold _calculate_timeline.
  mstep returns_utcnow. intros now r1 Hr1.
  destruct (decide (_ = "phased")); [| destruct (decide (_ = "big-bang"))];
    apply returns_ret; (split; [eexists _, _; reflexivity | exact Hr1]).
Qed.

(** What [create_migration_plan] returns and stores. *)
Lemma returns_create_migration_plan_stored c strategy r :
  returns (create_migration_plan c strategy) r
    (fun plan r' =>
       MigrationPlan.plan_id plan
       = "PLAN-" +:+ Py.prefix 8 (uuid_stream (world r) (uuid_drawn (world r))) /\
       migration_plans r' = <[MigrationPlan.plan_id plan := plan]> (migration_plans r) /\
       active_cutovers r' = active_cutovers r /\
       MigrationPlan.customer_id plan = Customer.customer_id c /\
       MigrationPlan.customer_name plan = Customer.name c /\
       MigrationPlan.migration_strategy plan = strategy /\
       MigrationPlan.overall_status plan = PLANNING /\
       MigrationPlan.actual_start plan = None /\
       MigrationPlan.actual_completion plan = None /\
       Forall2 planned_for (Customer.channels c)
               (MigrationPlan.channel_migrations plan)).
Proof.
  unfold create_migration_plan.
  mstep returns_uuid4_hex_value. intros u r0 [-> Hr0].
  mstep returns_assess_customer. intros a r1 (_ & _ & _ & Hr1).
  mstep (returns_mapM (plan_channel c) planned_for).
  { apply returns_plan_channel_planned. }
  intros cms r2 [Hcms Hr2].
  mstep returns_utcnow. intros created r3 Hr3.
  mstep returns_calculate_timeline_exact.
  intros plan r4 [(start & completion & ->) Hr4].
  unfold put_plan, returns, bind, ret.
  eexists _, _. split; [reflexivity |].
  assert (Hsame : same_registries r r4).
  { repeat (eapply same_registries_trans; [eassumption |]).
    apply same_registries_refl. }
  destruct Hsame as [Hplans Hcutovers].
  cbn. rewrite Hplans. split_and!; try reflexivity; assumption.
Qed.

End OrchestratorCreation.


(* ===================================================================== *)
(** * Further properties of the orchestrator *)
(* ===================================================================== *)

(** X1.  With a plan id that is not stored, [run_simulations],
    [execute_migration], [rollback_migration] and [get_migration_status]
    raise the not-found error and leave the state as it is. *)
Theorem unknown_plan_is_reported
  (r : Runtime) (plan_id : string) (channel_id : option string) (reason : string) :
  migration_plans r !! plan_id = None ->
  MigrationOrchestrator.run_simulations plan_id r
  = (Raise (MigrationOrchestrator.not_found plan_id), r) /\
  MigrationOrchestrator.execute_migration plan_id channel_id r
  = (Raise (MigrationOrchestrator.not_found plan_id), r) /\
  MigrationOrchestrator.rollback_migration plan_id channel_id reason r
  = (Raise (MigrationOrchestrator.not_found plan_id), r) /\
  MigrationOrchestrator.get_migration_status plan_id r
  = (Raise (MigrationOrchestrator.not_found plan_id), r).
Proof.
  intros Hmissing.
  unfold MigrationOrchestrator.run_simulations,
    MigrationOrchestrator.execute_migration,
    MigrationOrchestrator.rollback_migration,
    MigrationOrchestrator.get_migration_status, bind, get_plan.
  rewrite Hmissing. split_and!; reflexivity.
Qed.

Lemma unknown_plan_is_reported_witness :
  MigrationOrchestrator.run_simulations "UNKNOWN" Scenario.planned
  = (Raise (MigrationOrchestrator.not_found "UNKNOWN"), Scenario.planned) /\
  MigrationOrchestrator.execute_migration "UNKNOWN" None Scenario.planned
  = (Raise (MigrationOrchestrator.not_found "UNKNOWN"), Scenario.planned) /\
  MigrationOrchestrator.rollback_migration "UNKNOWN" None "Manual rollback"
                                           Scenario.planned
  = (Raise (MigrationOrchestrator.not_found "UNKNOWN"), Scenario.planned) /\
  MigrationOrchestrator.get_migration_status "UNKNOWN" Scenario.planned
  = (Raise (MigrationOrchestrator.not_found "UNKNOWN"), Scenario.planned).
Proof.
  apply (unknown_plan_is_reported Scenario.planned "UNKNOWN" None "Manual rollback").
  vm_compute. reflexivity.
Defined.


(** [execute_migration] without a channel id, on a stored plan in status
    [ready]. *)
Lemma returns_execute_migration_all
  (r : Runtime) (plan_id : string) (plan : MigrationPlan.t) :
  migration_plans r !! plan_id = Some plan ->
  MigrationPlan.overall_status plan = READY ->
  exists plan' r',
    MigrationOrchestrator.execute_migration plan_id None r = (Ok plan', r') /\
    migration_plans r' = <[plan_id := plan']> (migration_plans r) /\
    active_cutovers r' = active_cutovers r /\
    MigrationPlan.overall_status plan' = COMPLETED /\
    is_Some (MigrationPlan.actual_start plan') /\
    is_Some (MigrationPlan.actual_completion plan') /\
    Forall2 migrated_from (MigrationPlan.channel_migrations plan)
            (MigrationPlan.channel_migrations plan').
Proof.
  intros Hfound Hready.
  destruct (returns_execute_migration_exact r plan_id None plan Hfound Hready)
    as (plan' & r' & Hrun & (started & cms' & Hcms & Hplan) & Hplans & Hcut).
  assert (Hall : Forall2 migrated_from (MigrationPlan.channel_migrations plan) cms').
  { eapply Forall2_impl; [exact Hcms |]. intros cm cm' H. exact H. }
  assert (Hdone : forallb is_completed cms' = true).
  { apply forallb_forall. intros cm' Hin.
    apply list_elem_of_In in Hin.
    destruct (proj1 (list_elem_of_lookup _ _) Hin) as [i Hi].
    destruct (Forall2_lookup_r _ _ _ _ _ Hall Hi) as (cm & _ & cutover & noted & ->).
    reflexivity. }
  cbv zeta in Hplan. destruct Hplan as [[_ [finished ->]] | [Hnot _]];
    [| congruence].
  eexists _, r'. split_and!; try exact Hrun.
  - exact Hplans.
  - exact Hcut.
  - reflexivity.
  - eexists. reflexivity.
  - eexists. reflexivity.
  - exact Hall.
Qed.

(** X3.  On a stored plan in status [ready], [execute_migration] without a
    channel id migrates every channel migration (status [completed],
    cutover timestamp, one note appended) and completes the plan, with
    both actual dates set; a plan without channel migrations is completed
    at once. *)
Theorem execute_migration_all_channels
  (r : Runtime) (plan_id : string) (plan : MigrationPlan.t) :
  migration_plans r !! plan_id = Some plan ->
  MigrationPlan.overall_status plan = READY ->
  exists plan' r',
    MigrationOrchestrator.execute_migration plan_id None r = (Ok plan', r') /\
    migration_plans r' !! plan_id = Some plan' /\
    MigrationPlan.overall_status plan' = COMPLETED /\
    is_Some (MigrationPlan.actual_start plan') /\
    is_Some (MigrationPlan.actual_completion plan') /\
    Forall2 migrated_from (MigrationPlan.channel_migrations plan)
            (MigrationPlan.channel_migrations plan').
Proof.
  intros Hfound Hready.
  destruct (returns_execute_migration_all r plan_id plan Hfound Hready)
    as (plan' & r' & Hrun & Hplans & _ & Hstatus & Hstart & Hend & Hall).
  exists plan', r'. split_and!; try assumption.
  rewrite Hplans. apply lookup_insert_eq.
Qed.

Lemma execute_migration_all_channels_witness :
  exists plan' r',
    MigrationOrchestrator.execute_migration Scenario.plan_id None Scenario.simulated
    = (Ok plan', r') /\
    migration_plans r' !! Scenario.plan_id = Some plan' /\
    MigrationPlan.overall_status plan' = COMPLETED /\
    is_Some (MigrationPlan.actual_start plan') /\
    is_Some (MigrationPlan.actual_completion plan') /\
    Forall2 migrated_from
            (MigrationPlan.channel_migrations (Scenario.stored Scenario.simulated))
            (MigrationPlan.channel_migrations plan').
Proof.
  apply (execute_migration_all_channels
           Scenario.simulated Scenario.plan_id (Scenario.stored Scenario.simulated)).
  - vm_compute. reflexivity.
  - vm_compute. reflexivity.
Defined.


Section OrchestratorSequences.

Import MigrationOrchestrator.

Implicit Types (r : Runtime) (plan : MigrationPlan.t) (cm : ChannelMigration.t)
  (cms : list ChannelMigration.t) (c : Customer.t) (calls : list Call).

Lemma perform_all_cons call calls r :
  perform_all (call :: calls) r = perform_all calls (perform call r).
Proof. reflexivity. Qed.

Lemma perform_keeps_plan call r plan_id plan :
  on_stored_plan call ->
  migration_plans r !! plan_id = Some plan ->
  exists plan',
    migration_plans (perform call r) !! plan_id = Some plan' /\
    same_plan plan plan'.
Proof.
  intros Hcall Hfound.
  destruct (perform_effect call r Hcall)
    as [_ [Hsame | (id & old & new & Hold & Hnew & Hrel & _)]].
  - exists plan. rewrite Hsame. split; [exact Hfound | apply same_plan_refl].
  - rewrite Hnew. destruct (decide (id = plan_id)) as [-> | Hne].
    + exists new. rewrite lookup_insert_eq. split; [reflexivity |].
      rewrite Hfound in Hold. injection Hold as <-. exact Hrel.
    + exists plan. rewrite lookup_insert_ne by exact Hne.
      split; [exact Hfound | apply same_plan_refl].
Qed.

Lemma settled_created c plan :
  MigrationPlan.overall_status plan = PLANNING ->
  Forall2 planned_for (Customer.channels c) (MigrationPlan.channel_migrations plan) ->
  settled plan.
Proof.
  intros Hstatus Hcms. split; [rewrite Hstatus; in_list |].
  induction Hcms as [| ch cm chs cms Hcm _ IH]; constructor; [| exact IH].
  destruct Hcm as (_ & _ & -> & _ & _ & _ & Havailable & _).
  split; [in_list | exact Havailable].
Qed.

Lemma perform_on_stored_keeps_settled call r :
  on_stored_plan call -> all_settled r -> all_settled (perform call r).
Proof.
  intros Hcall Hsettled id plan Hfound.
  destruct (perform_effect call r Hcall)
    as [_ [Hsame | (id' & old & new & Hold & Hnew & _ & Hkeeps)]].
  - rewrite Hsame in Hfound. exact (Hsettled id plan Hfound).
  - rewrite Hnew in Hfound. destruct (decide (id' = id)) as [-> | Hne].
    + rewrite lookup_insert_eq in Hfound. injection Hfound as <-.
      apply Hkeeps. exact (Hsettled id old Hold).
    + rewrite lookup_insert_ne in Hfound by exact Hne.
      exact (Hsettled id plan Hfound).
Qed.

Lemma perform_keeps_settled call r :
  all_settled r -> all_settled (perform call r).
Proof.
  intros Hsettled.
  destruct call as [c s | | | |];
    try (apply perform_on_stored_keeps_settled; [exact I | exact Hsettled]).
  intros id plan Hfound. cbn [perform] in Hfound.
  destruct (returns_create_migration_plan_stored c s r)
    as (new & r' & Hrun & _ & Hplans & _ & _ & _ & _ & Hstatus & _ & _ & Hcms).
  rewrite Hrun in Hfound. cbn [snd] in Hfound. rewrite Hplans in Hfound.
  destruct (decide (MigrationPlan.plan_id new = id)) as [Heq | Hne].
  - rewrite Heq, lookup_insert_eq in Hfound. injection Hfound as <-.
    exact (settled_created c new Hstatus Hcms).
  - rewrite lookup_insert_ne in Hfound by exact Hne.
    exact (Hsettled id plan Hfound).
Qed.

Lemma perform_all_keeps_settled calls r :
  all_settled r -> all_settled (perform_all calls r).
Proof.
  revert r. induction calls as [| call calls IH]; intros r Hsettled.
  - exact Hsettled.
  - rewrite perform_all_cons. apply IH. apply perform_keeps_settled. exact Hsettled.
Qed.

End OrchestratorSequences.

(** X4.  Along any sequence of calls of [run_simulations],
    [execute_migration], [rollback_migration] and [get_migration_status],
    on any plan ids, a stored plan stays stored under its id with the
    fields set at its creation (ids, customer, risk score, creation and
    planned dates, strategy) and the same channel migrations, one for one
    and in order: each keeps its channel id and type, risk score, playbook
    id and rollback flag, its notes only grow, a passed simulation stays
    passed and a cutover timestamp stays set. *)
Theorem stored_plan_keeps_identity
  (calls : list Call) (r : Runtime) (plan_id : string) (plan : MigrationPlan.t) :
  Forall on_stored_plan calls ->
  migration_plans r !! plan_id = Some plan ->
  exists plan',
    migration_plans (perform_all calls r) !! plan_id = Some plan' /\
    same_plan plan plan'.
Proof.
  intros Hcalls. revert r plan.
  induction Hcalls as [| call calls Hcall _ IH]; intros r plan Hfound.
  - exists plan. split; [exact Hfound | apply same_plan_refl].
  - rewrite perform_all_cons.
    destruct (perform_keeps_plan call r plan_id plan Hcall Hfound)
      as (plan1 & Hfound1 & Hsame1).
    destruct (IH _ _ Hfound1) as (plan' & Hfound' & Hsame').
    exists plan'. split; [exact Hfound' |].
    eapply same_plan_trans; eassumption.
Qed.

Lemma stored_plan_keeps_identity_witness :
  exists plan',
    migration_plans
      (perform_all [ RunSimulations Scenario.plan_id;
                     ExecuteMigration Scenario.plan_id (Some "CH001");
                     GetMigrationStatus Scenario.plan_id;
                     RollbackMigration Scenario.plan_id None "Manual rollback" ]
                   Scenario.planned)
      !! Scenario.plan_id = Some plan' /\
    same_plan (Scenario.stored Scenario.planned) plan'.
Proof.
  apply (stored_plan_keeps_identity
           [ RunSimulations Scenario.plan_id;
             ExecuteMigration Scenario.plan_id (Some "CH001");
             GetMigrationStatus Scenario.plan_id;
             RollbackMigration Scenario.plan_id None "Manual rollback" ]
           Scenario.planned Scenario.plan_id (Scenario.stored Scenario.planned)).
  - repeat constructor.
  - vm_compute. reflexivity.
Defined.

(** X5.  Whatever sequence of calls drives an orchestrator from an empty
    registry, every stored plan shows one of the statuses [planning],
    [ready], [in_progress], [completed], [rolled_back], each of its
    channel migrations one of [planning], [ready], [completed],
    [rolled_back], and every channel migration is open to rollback: the
    statuses [pending], [risk_assessment], [simulation] and [failed] are
    never seen between calls. *)
Theorem plans_stay_settled
  (w : World) (cutovers : gmap string Cutover.t) (calls : list Call)
  (plan_id : string) (plan : MigrationPlan.t) :
  migration_plans
    (perform_all calls
       {| world := w; migration_plans := ∅; active_cutovers := cutovers |})
    !! plan_id = Some plan ->
  MigrationPlan.overall_status plan
    ∈ [PLANNING; READY; IN_PROGRESS; COMPLETED; ROLLED_BACK] /\
  Forall (fun cm =>
            ChannelMigration.status cm ∈ [PLANNING; READY; COMPLETED; ROLLED_BACK] /\
            ChannelMigration.rollback_available cm = true)
         (MigrationPlan.channel_migrations plan).
Proof.
  apply (perform_all_keeps_settled calls).
  intros id old Hfound. cbn in Hfound. rewrite lookup_empty in Hfound. discriminate.
Qed.

Lemma plans_stay_settled_witness :
  MigrationPlan.overall_status (Scenario.stored Scenario.one_executed)
    ∈ [PLANNING; READY; IN_PROGRESS; COMPLETED; ROLLED_BACK] /\
  Forall (fun cm =>
            ChannelMigration.status cm ∈ [PLANNING; READY; COMPLETED; ROLLED_BACK] /\
            ChannelMigration.rollback_available cm = true)
         (MigrationPlan.channel_migrations (Scenario.stored Scenario.one_executed)).
Proof.
  apply (plans_stay_settled
           Scenario.world0 ∅
           [ CreateMigrationPlan Scenario.two_channels "phased";
             RunSimulations Scenario.plan_id;
             ExecuteMigration Scenario.plan_id (Some "CH001") ]
           Scenario.plan_id (Scenario.stored Scenario.one_executed)).
  vm_compute. reflexivity.
Defined.


Section OrchestratorRollback.

Import MigrationOrchestrator.

Implicit Types (r : Runtime) (plan : MigrationPlan.t) (cm : ChannelMigration.t)
  (cms : list ChannelMigration.t) (c : Customer.t) (calls : list Call).

Lemma targeted_rolled_back channel_id reason cm :
  targeted channel_id (if targeted channel_id cm then rollback_channel reason cm else cm)
  = targeted channel_id cm.
Proof.
  destruct (targeted channel_id cm) eqn:Hsel; [| exact Hsel].
  unfold rollback_channel.
  destruct (ChannelMigration.rollback_available cm); exact Hsel.
Qed.

(** The channel migrations that the final test of [rollback_migration]
    reads are the targeted ones, as the loop left them. *)
Lemma filter_rolled_back_channels channel_id reason cms :
  List.filter (targeted channel_id) (rolled_back_channels channel_id reason cms)
  = map (rollback_channel reason) (List.filter (targeted channel_id) cms).
Proof.
  unfold rolled_back_channels. induction cms as [| cm cms IH]; [reflexivity |].
  cbn [map List.filter]. rewrite targeted_rolled_back.
  destruct (targeted channel_id cm); cbn [map]; rewrite IH; reflexivity.
Qed.

Lemma rollback_channel_available reason cm :
  ChannelMigration.rollback_available cm = true ->
  rollback_channel reason cm
  = ChannelMigration.append_note ("Rolled back: " +:+ reason)
      (ChannelMigration.set_status ROLLED_BACK cm).
Proof. intros Havailable. unfold rollback_channel. rewrite Havailable. reflexivity. Qed.

Lemma all_rolled_back_available channel_id reason cms :
  Forall (fun cm => targeted channel_id cm = true ->
                    ChannelMigration.rollback_available cm = true) cms ->
  forallb is_rolled_back
          (List.filter (targeted channel_id)
                       (rolled_back_channels channel_id reason cms)) = true.
Proof.
  intros Havailable. rewrite filter_rolled_back_channels.
  induction Havailable as [| cm cms Hcm _ IH]; [reflexivity |].
  cbn [List.filter]. destruct (targeted channel_id cm) eqn:Hsel; [| exact IH].
  cbn [map forallb]. rewrite IH, andb_true_r.
  rewrite rollback_channel_available by (apply Hcm; reflexivity). reflexivity.
Qed.

End OrchestratorRollback.

(** X6.  On a stored plan whose targeted channel migrations are all open
    to rollback, [rollback_migration], whatever the status of the plan,
    sets every targeted channel migration to [rolled_back] and appends the
    note ["Rolled back: <reason>"], leaves the others as they are, and
    sets the plan to [rolled_back]. *)
Theorem rollback_migration_rolls_back
  (r : Runtime) (plan_id : string) (channel_id : option string) (reason : string)
  (plan : MigrationPlan.t) :
  migration_plans r !! plan_id = Some plan ->
  Forall (fun cm => MigrationOrchestrator.targeted channel_id cm = true ->
                    ChannelMigration.rollback_available cm = true)
         (MigrationPlan.channel_migrations plan) ->
  exists plan' r',
    MigrationOrchestrator.rollback_migration plan_id channel_id reason r
    = (Ok plan', r') /\
    migration_plans r' !! plan_id = Some plan' /\
    MigrationPlan.overall_status plan' = ROLLED_BACK /\
    MigrationPlan.channel_migrations plan'
    = map (fun cm =>
             if MigrationOrchestrator.targeted channel_id cm
             then ChannelMigration.append_note ("Rolled back: " +:+ reason)
                    (ChannelMigration.set_status ROLLED_BACK cm)
             else cm)
          (MigrationPlan.channel_migrations plan).
Proof.
  intros Hfound Havailable.
  pose proof (rollback_migration_stored r plan_id channel_id reason plan Hfound)
    as Hrun. cbv zeta in Hrun.
  rewrite (all_rolled_back_available channel_id reason _ Havailable) in Hrun.
  eexists _, _. split; [exact Hrun |]. cbn. split_and!.
  - apply lookup_insert_eq.
  - reflexivity.
  - unfold rolled_back_channels. apply map_ext_Forall.
    eapply Forall_impl; [exact Havailable |]. intros cm Hcm. cbn beta.
    destruct (MigrationOrchestrator.targeted channel_id cm) eqn:Hsel; [| reflexivity].
    apply rollback_channel_available. apply Hcm. first [exact Hsel | reflexivity].
Qed.

Lemma rollback_migration_rolls_back_witness :
  exists plan' r',
    MigrationOrchestrator.rollback_migration
      Scenario.plan_id (Some "CH001") "Manual rollback" Scenario.all_executed
    = (Ok plan', r') /\
    migration_plans r' !! Scenario.plan_id = Some plan' /\
    MigrationPlan.overall_status plan' = ROLLED_BACK /\
    MigrationPlan.channel_migrations plan'
    = map (fun cm =>
             if MigrationOrchestrator.targeted (Some "CH001") cm
             then ChannelMigration.append_note ("Rolled back: " +:+ "Manual rollback")
                    (ChannelMigration.set_status ROLLED_BACK cm)
             else cm)
          (MigrationPlan.channel_migrations (Scenario.stored Scenario.all_executed)).
Proof.
  apply (rollback_migration_rolls_back
           Scenario.all_executed Scenario.plan_id (Some "CH001") "Manual rollback"
           (Scenario.stored Scenario.all_executed)).
  - vm_compute. reflexivity.
  - vm_compute. repeat constructor.
Defined.

(** X7.  Rolling back one channel of a plan sets the whole plan to
    [rolled_back], although every channel migration of another channel is
    left as it is: the final test reads the targeted channel migrations
    only. *)
Theorem rollback_migration_one_channel
  (r : Runtime) (plan_id c reason : string) (plan : MigrationPlan.t)
  (target other : ChannelMigration.t) :
  migration_plans r !! plan_id = Some plan ->
  target ∈ MigrationPlan.channel_migrations plan ->
  ChannelMigration.channel_id target = c ->
  ChannelMigration.rollback_available target = true ->
  (forall cm, cm ∈ MigrationPlan.channel_migrations plan ->
              ChannelMigration.channel_id cm = c ->
              ChannelMigration.rollback_available cm = true) ->
  other ∈ MigrationPlan.channel_migrations plan ->
  ChannelMigration.channel_id other ≠ c ->
  ChannelMigration.status other ≠ ROLLED_BACK ->
  exists plan' r',
    MigrationOrchestrator.rollback_migration plan_id (Some c) reason r
    = (Ok plan', r') /\
    migration_plans r' !! plan_id = Some plan' /\
    MigrationPlan.overall_status plan' = ROLLED_BACK /\
    ChannelMigration.append_note ("Rolled back: " +:+ reason)
      (ChannelMigration.set_status ROLLED_BACK target)
      ∈ MigrationPlan.channel_migrations plan' /\
    other ∈ MigrationPlan.channel_migrations plan' /\
    ¬ Forall (fun cm => ChannelMigration.status cm = ROLLED_BACK)
             (MigrationPlan.channel_migrations plan').
Proof.
  intros Hfound Htarget Hc Havailable Hall Hother Hne Hstatus.
  pose proof (rollback_migration_stored r plan_id (Some c) reason plan Hfound)
    as Hrun. cbv zeta in Hrun.
  rewrite all_rolled_back_available in Hrun.
  2:{ apply Forall_forall. intros cm Hin Hsel. apply (Hall cm Hin).
      apply targeted_Some. exact Hsel. }
  eexists _, _. split; [exact Hrun |]. cbn.
  assert (Hkept : other ∈ rolled_back_channels (Some c) reason
                            (MigrationPlan.channel_migrations plan)).
  { unfold rolled_back_channels. apply list_elem_of_fmap. exists other.
    split; [| exact Hother].
    replace (MigrationOrchestrator.targeted (Some c) other) with false; [reflexivity |].
    symmetry. apply not_true_is_false. rewrite targeted_Some. exact Hne. }
  split_and!.
  - apply lookup_insert_eq.
  - reflexivity.
  - unfold rolled_back_channels. apply list_elem_of_fmap. exists target.
    split; [| exact Htarget].
    rewrite (proj2 (targeted_Some c target) Hc).
    symmetry. apply rollback_channel_available. exact Havailable.
  - exact Hkept.
  - intros Hrolled. rewrite Forall_forall in Hrolled.
    apply Hstatus. apply Hrolled. exact Hkept.
Qed.

Lemma rollback_migration_one_channel_witness :
  exists plan' r',
    MigrationOrchestrator.rollback_migration
      Scenario.plan_id (Some "CH001") "Manual rollback" Scenario.all_executed
    = (Ok plan', r') /\
    migration_plans r' !! Scenario.plan_id = Some plan' /\
    MigrationPlan.overall_status plan' = ROLLED_BACK /\
    ChannelMigration.append_note ("Rolled back: " +:+ "Manual rollback")
      (ChannelMigration.set_status ROLLED_BACK
         (Scenario.stored_channel Scenario.all_executed 0))
      ∈ MigrationPlan.channel_migrations plan' /\
    Scenario.stored_channel Scenario.all_executed 1
      ∈ MigrationPlan.channel_migrations plan' /\
    ¬ Forall (fun cm => ChannelMigration.status cm = ROLLED_BACK)
             (MigrationPlan.channel_migrations plan').
Proof.
  apply (rollback_migration_one_channel
           Scenario.all_executed Scenario.plan_id "CH001" "Manual rollback"
           (Scenario.stored Scenario.all_executed)
           (Scenario.stored_channel Scenario.all_executed 0)
           (Scenario.stored_channel Scenario.all_executed 1)).
  - vm_compute. reflexivity.
  - apply list_elem_of_lookup. exists 0%nat. vm_compute. reflexivity.
  - vm_compute. reflexivity.
  - vm_compute. reflexivity.
  - intros cm Hin _. vm_compute in Hin.
    apply list_elem_of_In in Hin. simpl in Hin.
    destruct Hin as [<- | [<- | []]]; reflexivity.
  - apply list_elem_of_lookup. exists 1%nat. vm_compute. reflexivity.
  - vm_compute. discriminate.
  - vm_compute. discriminate.
Defined.


Section OrchestratorRollbackAgain.

Import MigrationOrchestrator.

Implicit Types (r : Runtime) (plan : MigrationPlan.t) (cm : ChannelMigration.t)
  (cms : list ChannelMigration.t) (c : Customer.t) (calls : list Call).

Lemma not_all_rolled_back cms cm :
  cm ∈ cms -> ChannelMigration.status cm ≠ ROLLED_BACK ->
  forallb is_rolled_back cms = false.
Proof.
  intros Hin Hst. induction Hin as [cm cms | cm cm0 cms Hin IH]; cbn [forallb].
  - unfold is_rolled_back at 1. rewrite bool_decide_eq_false_2 by assumption.
    reflexivity.
  - rewrite IH by assumption. apply andb_false_r.
Qed.

Lemma rollback_channel_notes reason cm :
  ChannelMigration.notes (rollback_channel reason cm)
  = (ChannelMigration.notes cm ++ [rollback_note reason cm])%list.
Proof.
  unfold rollback_channel, rollback_note.
  destruct (ChannelMigration.rollback_available cm); reflexivity.
Qed.

Lemma rollback_channel_twice reason cm :
  ChannelMigration.status (rollback_channel reason (rollback_channel reason cm))
  = ChannelMigration.status (rollback_channel reason cm) /\
  ChannelMigration.notes (rollback_channel reason (rollback_channel reason cm))
  = (ChannelMigration.notes (rollback_channel reason cm)
     ++ [rollback_note reason cm])%list /\
  last (ChannelMigration.notes (rollback_channel reason cm))
  = Some (rollback_note reason cm).
Proof.
  unfold rollback_channel, rollback_note.
  destruct (ChannelMigration.rollback_available cm) eqn:Havailable; cbn;
    rewrite ?Havailable; cbn; rewrite last_snoc; split_and!; reflexivity.
Qed.

End OrchestratorRollbackAgain.

(** X8.  A targeted channel migration that is closed to rollback keeps its
    status and gets the note ["Rollback not available: <reason>"]; when it
    is not already [rolled_back], the status of the plan stays as it was. *)
Theorem rollback_migration_refused
  (r : Runtime) (plan_id : string) (channel_id : option string) (reason : string)
  (plan : MigrationPlan.t) (blocked : ChannelMigration.t) :
  migration_plans r !! plan_id = Some plan ->
  blocked ∈ MigrationPlan.channel_migrations plan ->
  MigrationOrchestrator.targeted channel_id blocked = true ->
  ChannelMigration.rollback_available blocked = false ->
  ChannelMigration.status blocked ≠ ROLLED_BACK ->
  exists plan' r',
    MigrationOrchestrator.rollback_migration plan_id channel_id reason r
    = (Ok plan', r') /\
    migration_plans r' !! plan_id = Some plan' /\
    MigrationPlan.overall_status plan' = MigrationPlan.overall_status plan /\
    ChannelMigration.append_note ("Rollback not available: " +:+ reason) blocked
      ∈ MigrationPlan.channel_migrations plan'.
Proof.
  intros Hfound Hin Hsel Hclosed Hstatus.
  pose proof (rollback_migration_stored r plan_id channel_id reason plan Hfound)
    as Hrun. cbv zeta in Hrun.
  assert (Hblocked :
            MigrationOrchestrator.rollback_channel reason blocked
            = ChannelMigration.append_note ("Rollback not available: " +:+ reason)
                                           blocked).
  { unfold MigrationOrchestrator.rollback_channel. rewrite Hclosed. reflexivity. }
  rewrite (not_all_rolled_back _ (MigrationOrchestrator.rollback_channel reason blocked))
    in Hrun.
  - eexists _, _. split; [exact Hrun |]. cbn. split_and!.
    + apply lookup_insert_eq.
    + reflexivity.
    + unfold rolled_back_channels. apply list_elem_of_fmap. exists blocked.
      split; [| exact Hin]. rewrite Hsel. symmetry. exact Hblocked.
  - rewrite filter_rolled_back_channels. apply list_elem_of_fmap.
    exists blocked. split; [reflexivity |].
    apply list_elem_of_In. apply filter_In. split; [| exact Hsel].
    apply list_elem_of_In. exact Hin.
  - rewrite Hblocked. exact Hstatus.
Qed.

Lemma rollback_migration_refused_witness :
  exists plan' r',
    MigrationOrchestrator.rollback_migration
      "PLAN-LOCKED" None "Manual rollback" Scenario.locked
    = (Ok plan', r') /\
    migration_plans r' !! "PLAN-LOCKED" = Some plan' /\
    MigrationPlan.overall_status plan'
    = MigrationPlan.overall_status Scenario.locked_plan /\
    ChannelMigration.append_note ("Rollback not available: " +:+ "Manual rollback")
                                 Scenario.locked_channel
      ∈ MigrationPlan.channel_migrations plan'.
Proof.
  apply (rollback_migration_refused
           Scenario.locked "PLAN-LOCKED" None "Manual rollback"
           Scenario.locked_plan Scenario.locked_channel).
  - vm_compute. reflexivity.
  - apply list_elem_of_lookup. exists 0%nat. reflexivity.
  - reflexivity.
  - reflexivity.
  - vm_compute. discriminate.
Defined.

Lemma all_rolled_back_twice (reason : string) (l : list ChannelMigration.t) :
  forallb is_rolled_back
    (map (MigrationOrchestrator.rollback_channel reason)
         (map (MigrationOrchestrator.rollback_channel reason) l))
  = forallb is_rolled_back
      (map (MigrationOrchestrator.rollback_channel reason) l).
Proof.
  induction l as [| cm l IH]; [reflexivity |].
  cbn [map forallb]. rewrite IH. f_equal. unfold is_rolled_back.
  destruct (rollback_channel_twice reason cm) as (-> & _ & _). reflexivity.
Qed.

(** X9.  [rollback_migration] is not guarded against repetition: a second
    call with the same arguments leaves every status as the first call
    left it, and appends to each targeted channel migration the note that
    the first call appended, once more. *)
Theorem rollback_migration_twice
  (r : Runtime) (plan_id : string) (channel_id : option string) (reason : string)
  (plan : MigrationPlan.t) :
  migration_plans r !! plan_id = Some plan ->
  exists plan1 r1 plan2 r2,
    MigrationOrchestrator.rollback_migration plan_id channel_id reason r
    = (Ok plan1, r1) /\
    MigrationOrchestrator.rollback_migration plan_id channel_id reason r1
    = (Ok plan2, r2) /\
    MigrationPlan.overall_status plan2 = MigrationPlan.overall_status plan1 /\
    Forall2
      (fun cm1 cm2 =>
         ChannelMigration.status cm2 = ChannelMigration.status cm1 /\
         if MigrationOrchestrator.targeted channel_id cm1 then
           exists note,
             last (ChannelMigration.notes cm1) = Some note /\
             ChannelMigration.notes cm2
             = (ChannelMigration.notes cm1 ++ [note])%list
         else cm2 = cm1)
      (MigrationPlan.channel_migrations plan1)
      (MigrationPlan.channel_migrations plan2).
Proof.
  intros Hfound.
  pose proof (rollback_migration_stored r plan_id channel_id reason plan Hfound)
    as Hrun1. cbv zeta in Hrun1.
  set (cms1 := rolled_back_channels channel_id reason
                 (MigrationPlan.channel_migrations plan)) in *.
  set (all1 := forallb is_rolled_back
                 (List.filter (MigrationOrchestrator.targeted channel_id) cms1)) in *.
  set (plan1 :=
         if all1
         then MigrationPlan.set_overall_status ROLLED_BACK
                (MigrationPlan.set_channel_migrations cms1 plan)
         else MigrationPlan.set_channel_migrations cms1 plan) in *.
  assert (Hcms1 : MigrationPlan.channel_migrations plan1 = cms1)
    by (unfold plan1; destruct all1; reflexivity).
  eexists plan1, _, _, _. split; [exact Hrun1 |]. split.
  { apply rollback_migration_stored. cbn. apply lookup_insert_eq. }
  rewrite Hcms1.
  assert (Hall2 : forallb is_rolled_back
                    (List.filter (MigrationOrchestrator.targeted channel_id)
                                 (rolled_back_channels channel_id reason cms1))
                  = all1).
  { unfold all1, cms1. rewrite !filter_rolled_back_channels.
    apply all_rolled_back_twice. }
  rewrite Hall2. split.
  - unfold plan1. destruct all1; reflexivity.
  - assert (Hcms2 : forall p,
              MigrationPlan.channel_migrations
                (if all1
                 then MigrationPlan.set_overall_status ROLLED_BACK
                        (MigrationPlan.set_channel_migrations
                           (rolled_back_channels channel_id reason cms1) p)
                 else MigrationPlan.set_channel_migrations
                        (rolled_back_channels channel_id reason cms1) p)
              = rolled_back_channels channel_id reason cms1)
      by (intros p; destruct all1; reflexivity).
    rewrite Hcms2. unfold cms1, rolled_back_channels.
    clear. induction (MigrationPlan.channel_migrations plan) as [| cm l IH];
      [constructor |].
    cbn [map]. constructor; [| exact IH].
    rewrite targeted_rolled_back.
    destruct (MigrationOrchestrator.targeted channel_id cm) eqn:Hsel.
    + destruct (rollback_channel_twice reason cm) as (Hst & Hnotes & Hlast).
      split; [exact Hst |]. exists (rollback_note reason cm).
      split; [exact Hlast | exact Hnotes].
    + split; reflexivity.
Qed.

Lemma rollback_migration_twice_witness :
  exists plan1 r1 plan2 r2,
    MigrationOrchestrator.rollback_migration
      Scenario.plan_id None "Manual rollback" Scenario.all_executed
    = (Ok plan1, r1) /\
    MigrationOrchestrator.rollback_migration
      Scenario.plan_id None "Manual rollback" r1
    = (Ok plan2, r2) /\
    MigrationPlan.overall_status plan2 = MigrationPlan.overall_status plan1 /\
    Forall2
      (fun cm1 cm2 =>
         ChannelMigration.status cm2 = ChannelMigration.status cm1 /\
         if MigrationOrchestrator.targeted None cm1 then
           exists note,
             last (ChannelMigration.notes cm1) = Some note /\
             ChannelMigration.notes cm2
             = (ChannelMigration.notes cm1 ++ [note])%list
         else cm2 = cm1)
      (MigrationPlan.channel_migrations plan1)
      (MigrationPlan.channel_migrations plan2).
Proof.
  apply (rollback_migration_twice
           Scenario.all_executed Scenario.plan_id None "Manual rollback"
           (Scenario.stored Scenario.all_executed)).
  vm_compute. reflexivity.
Defined.

(** X10.  On a stored plan in status [ready] with a channel migration that
    is not [completed], [execute_migration] with a channel id that names no
    channel migration returns normally: no channel migration changes, the
    plan moves to [in_progress] with its actual start set, and every
    further [execute_migration] on the plan raises the not-ready error. *)
Theorem execute_migration_unknown_channel
  (r : Runtime) (plan_id c : string) (plan : MigrationPlan.t)
  (pending : ChannelMigration.t) :
  migration_plans r !! plan_id = Some plan ->
  MigrationPlan.overall_status plan = READY ->
  (forall cm, cm ∈ MigrationPlan.channel_migrations plan ->
              ChannelMigration.channel_id cm ≠ c) ->
  pending ∈ MigrationPlan.channel_migrations plan ->
  ChannelMigration.status pending ≠ COMPLETED ->
  exists plan' r',
    MigrationOrchestrator.execute_migration plan_id (Some c) r = (Ok plan', r') /\
    migration_plans r' !! plan_id = Some plan' /\
    MigrationPlan.channel_migrations plan'
    = MigrationPlan.channel_migrations plan /\
    MigrationPlan.overall_status plan' = IN_PROGRESS /\
    is_Some (MigrationPlan.actual_start plan') /\
    (forall channel_id,
        MigrationOrchestrator.execute_migration plan_id channel_id r'
        = (Raise (MigrationOrchestrator.not_ready plan_id), r')).
Proof.
  intros Hfound Hready Hnone Hpending Hstatus.
  destruct (returns_execute_migration_exact r plan_id (Some c) plan Hfound Hready)
    as (plan' & r' & Hrun & (started & cms' & Hcms & Hplan) & Hplans & _).
  assert (Hsame : cms' = MigrationPlan.channel_migrations plan).
  { clear -Hcms Hnone. revert Hnone.
    induction Hcms as [| cm cm' l l' Hcm _ IH]; intros Hnone; [reflexivity |].
    unfold touched in Hcm.
    replace (MigrationOrchestrator.targeted (Some c) cm) with false in Hcm.
    - subst cm'. f_equal. apply IH. intros cm0 Hin. apply Hnone.
      apply elem_of_cons. right. exact Hin.
    - symmetry. apply not_true_is_false. rewrite targeted_Some.
      apply Hnone. apply elem_of_cons. left. reflexivity. }
  subst cms'. cbv zeta in Hplan.
  assert (Hnot : forallb is_completed (MigrationPlan.channel_migrations plan) = false).
  { apply (completed_all_false _ pending Hpending Hstatus). }
  destruct Hplan as [[Hall _] | [_ ->]]; [congruence |].
  assert (Hstored : migration_plans r' !! plan_id
                    = Some (MigrationPlan.set_channel_migrations
                              (MigrationPlan.channel_migrations plan)
                              (MigrationPlan.set_actual_start started
                                 (MigrationPlan.set_overall_status IN_PROGRESS plan))))
    by (rewrite Hplans; apply lookup_insert_eq).
  eexists _, r'. split_and!; try exact Hrun.
  - exact Hstored.
  - reflexivity.
  - reflexivity.
  - eexists. reflexivity.
  - intros channel_id.
    apply (execute_migration_not_ready r' plan_id channel_id _ Hstored).
    discriminate.
Qed.

Lemma execute_migration_unknown_channel_witness :
  exists plan' r',
    MigrationOrchestrator.execute_migration
      Scenario.plan_id (Some "CH999") Scenario.simulated = (Ok plan', r') /\
    migration_plans r' !! Scenario.plan_id = Some plan' /\
    MigrationPlan.channel_migrations plan'
    = MigrationPlan.channel_migrations (Scenario.stored Scenario.simulated) /\
    MigrationPlan.overall_status plan' = IN_PROGRESS /\
    is_Some (MigrationPlan.actual_start plan') /\
    (forall channel_id,
        MigrationOrchestrator.execute_migration Scenario.plan_id channel_id r'
        = (Raise (MigrationOrchestrator.not_ready Scenario.plan_id), r')).
Proof.
  apply (execute_migration_unknown_channel
           Scenario.simulated Scenario.plan_id "CH999"
           (Scenario.stored Scenario.simulated)
           (Scenario.stored_channel Scenario.simulated 0)).
  - vm_compute. reflexivity.
  - vm_compute. reflexivity.
  - intros cm Hin. vm_compute in Hin.
    apply list_elem_of_In in Hin. simpl in Hin.
    destruct Hin as [<- | [<- | []]]; discriminate.
  - apply list_elem_of_lookup. exists 0%nat. vm_compute. reflexivity.
  - vm_compute. discriminate.
Defined.


(* ===================================================================== *)
(** * Progress of a plan *)
(* ===================================================================== *)

Section Progress.

Import MigrationOrchestrator.
Local Open Scope Q_scope.

Implicit Types (r : Runtime) (plan : MigrationPlan.t) (cm : ChannelMigration.t)
  (cms : list ChannelMigration.t).

Lemma weight_of_range cm :
  0 <= weight_of cm /\ weight_of cm <= 100 /\
  (weight_of cm == 100 <-> ChannelMigration.status cm = COMPLETED).
Proof.
  unfold weight_of.
  destruct (ChannelMigration.status cm);
    (split; [vm_compute; discriminate |]);
    (split; [vm_compute; discriminate |]);
    (split; [intros H; first [reflexivity | vm_compute in H; discriminate H]
            | intros H; first [discriminate H | reflexivity]]).
Qed.

Lemma weights_sum cms (a : Q) :
  a <= fold_left Qplus (map weight_of cms) a /\
  fold_left Qplus (map weight_of cms) a
  <= a + 100 * inject_Z (Z.of_nat (length cms)) /\
  (fold_left Qplus (map weight_of cms) a
   == a + 100 * inject_Z (Z.of_nat (length cms))
   <-> Forall (fun cm => ChannelMigration.status cm = COMPLETED) cms).
Proof.
  revert a. induction cms as [| cm cms IH]; intros a.
  - cbn [map fold_left length]. change (inject_Z (Z.of_nat 0)) with 0.
    split; [lra |]. split; [lra |]. split; [constructor | intros _; lra].
  - cbn [map fold_left length].
    rewrite Nat2Z.inj_succ, <- Z.add_1_r, inject_Z_plus.
    change (inject_Z 1) with 1.
    destruct (IH (a + weight_of cm)) as (Hlow & Hhigh & Hall).
    destruct (weight_of_range cm) as (H0 & H100 & Hdone).
    split; [lra |]. split; [lra |]. split.
    + intros Heq. constructor.
      * apply Hdone. lra.
      * apply Hall. lra.
    + intros Hforall. inversion Hforall as [| ? ? Hcm Hrest]; subst.
      apply Hdone in Hcm. apply Hall in Hrest. lra.
Qed.

Lemma calculate_progress_channels plan cm cms :
  MigrationPlan.channel_migrations plan = cm :: cms ->
  _calculate_progress plan
  = fold_left Qplus (map weight_of (cm :: cms)) 0
    / inject_Z (Z.of_nat (length (cm :: cms))).
Proof. intros Hcms. unfold _calculate_progress. rewrite Hcms. reflexivity. Qed.

Lemma length_positive {A} (x : A) (l : list A) :
  0 < inject_Z (Z.of_nat (length (x :: l))).
Proof. change 0 with (inject_Z 0). rewrite <- Zlt_Qlt. cbn [length]. lia. Qed.


End Progress.

(** X11.  The progress of a plan is a percentage, and it is 100 exactly
    when the plan has a channel migration and all of them are
    [completed]. *)
Theorem calculate_progress_range (plan : MigrationPlan.t) :
  (0 <= MigrationOrchestrator._calculate_progress plan)%Q /\
  (MigrationOrchestrator._calculate_progress plan <= 100)%Q /\
  ((MigrationOrchestrator._calculate_progress plan == 100)%Q <->
   MigrationPlan.channel_migrations plan <> [] /\
   Forall (fun cm => ChannelMigration.status cm = COMPLETED)
          (MigrationPlan.channel_migrations plan)).
Proof.
  destruct (MigrationPlan.channel_migrations plan) as [| cm cms] eqn:Hcms.
  - unfold MigrationOrchestrator._calculate_progress. rewrite Hcms.
    split; [vm_compute; discriminate |]. split; [vm_compute; discriminate |].
    split; [intros H; vm_compute in H; discriminate | intros [H _]; contradiction].
  - rewrite (calculate_progress_channels plan cm cms Hcms).
    destruct (weights_sum (cm :: cms) 0%Q) as (Hlow & Hhigh & Hall).
    pose proof (length_positive cm cms) as Hpos.
    split; [| split].
    + apply Qle_shift_div_l; [exact Hpos | lra].
    + apply Qle_shift_div_r; [exact Hpos | lra].
    + rewrite <- Hall. split.
      * intros Heq. split; [discriminate |].
        rewrite <- (Qmult_div_r (fold_left Qplus (map weight_of (cm :: cms)) 0%Q)
                                (inject_Z (Z.of_nat (length (cm :: cms)))))
          by lra.
        rewrite Heq. ring.
      * intros [_ Heq]. rewrite Heq. field. lra.
Qed.

Section Lifecycle.

Import MigrationOrchestrator.

Implicit Types (r : Runtime) (plan : MigrationPlan.t) (cm : ChannelMigration.t)
  (cms : list ChannelMigration.t).





(** [run_simulations] on a stored plan, and what it stores. *)
Lemma run_simulations_ready r plan_id plan :
  migration_plans r !! plan_id = Some plan ->
  exists results r' ready,
    run_simulations plan_id r = (Ok results, r') /\
    migration_plans r' = <[plan_id := ready]> (migration_plans r) /\
    active_cutovers r' = active_cutovers r /\
    MigrationPlan.overall_status ready = READY /\
    MigrationPlan.channel_migrations ready
    = map simulate_channel (MigrationPlan.channel_migrations plan).
Proof.
  intros Hfound. pose proof (run_simulations_stored r plan_id plan Hfound) as Hrun.
  cbv zeta in Hrun. eexists _, _, _. split; [exact Hrun |].
  split_and!; reflexivity.
Qed.

End Lifecycle.

(** X12.  [run_simulations] is not guarded by the status of the plan:
    whatever the statuses of a stored plan and of its channel migrations
    (completed, rolled back, in progress), the call makes the plan and
    every channel migration [ready], and [execute_migration] without a
    channel id then migrates every channel migration and completes the
    plan. *)
Theorem run_simulations_rearms_plan
  (r : Runtime) (plan_id : string) (plan : MigrationPlan.t) :
  migration_plans r !! plan_id = Some plan ->
  exists results r1 ready plan2 r2,
    MigrationOrchestrator.run_simulations plan_id r = (Ok results, r1) /\
    migration_plans r1 !! plan_id = Some ready /\
    MigrationPlan.overall_status ready = READY /\
    MigrationPlan.channel_migrations ready
    = map simulate_channel (MigrationPlan.channel_migrations plan) /\
    MigrationOrchestrator.execute_migration plan_id None r1 = (Ok plan2, r2) /\
    migration_plans r2 !! plan_id = Some plan2 /\
    MigrationPlan.overall_status plan2 = COMPLETED /\
    Forall2 migrated_from (MigrationPlan.channel_migrations ready)
            (MigrationPlan.channel_migrations plan2).
Proof.
  intros Hfound.
  destruct (run_simulations_ready r plan_id plan Hfound)
    as (results & r1 & ready & Hrun1 & Hplans1 & _ & Hready & Hcms).
  assert (Hstored : migration_plans r1 !! plan_id = Some ready)
    by (rewrite Hplans1; apply lookup_insert_eq).
  destruct (returns_execute_migration_all r1 plan_id ready Hstored Hready)
    as (plan2 & r2 & Hrun2 & Hplans2 & _ & Hdone & _ & _ & Hall).
  exists results, r1, ready, plan2, r2. split_and!; try assumption.
  rewrite Hplans2. apply lookup_insert_eq.
Qed.

Lemma run_simulations_rearms_plan_witness :
  exists results r1 ready plan2 r2,
    MigrationOrchestrator.run_simulations Scenario.plan_id Scenario.all_executed
    = (Ok results, r1) /\
    migration_plans r1 !! Scenario.plan_id = Some ready /\
    MigrationPlan.overall_status ready = READY /\
    MigrationPlan.channel_migrations ready
    = map simulate_channel
          (MigrationPlan.channel_migrations (Scenario.stored Scenario.all_executed)) /\
    MigrationOrchestrator.execute_migration Scenario.plan_id None r1
    = (Ok plan2, r2) /\
    migration_plans r2 !! Scenario.plan_id = Some plan2 /\
    MigrationPlan.overall_status plan2 = COMPLETED /\
    Forall2 migrated_from (MigrationPlan.channel_migrations ready)
            (MigrationPlan.channel_migrations plan2).
Proof.
  apply (run_simulations_rearms_plan
           Scenario.all_executed Scenario.plan_id
           (Scenario.stored Scenario.all_executed)).
  vm_compute. reflexivity.
Defined.




(* ===================================================================== *)
(** * The cutover coordinator *)
(* ===================================================================== *)

Section Coordinator.

Import CutoverCoordinator.

Implicit Types (r : Runtime) (c : Cutover.t) (cm : ChannelMigration.t)
  (step : CutoverStep.t) (calls : list CutoverCall).

(** ** The operations, in full *)

Lemma initiate_cutover_stored cm strategy r :
  let cutover_id := "CUTOVER-" +:+ ChannelMigration.channel_id cm in
  let c :=
    {| Cutover.cutover_id := cutover_id;
       Cutover.channel_id := ChannelMigration.channel_id cm;
       Cutover.strategy := strategy;
       Cutover.started_at := clock_stream (world r) (clock_read (world r));
       Cutover.status := "initiated";
       Cutover.steps := _generate_cutover_steps strategy;
       Cutover.current_step := 0%nat;
       Cutover.metrics := no_traffic;
       Cutover.completed_at := None;
       Cutover.rollback := None |} in
  exists r',
    initiate_cutover cm strategy r = (Ok c, r') /\
    active_cutovers r' = <[cutover_id := c]> (active_cutovers r) /\
    migration_plans r' = migration_plans r.
Proof.
  cbv zeta. unfold initiate_cutover, bind, utcnow, put_cutover, ret.
  cbv beta iota zeta. eexists. split; [reflexivity |]. split; reflexivity.
Qed.

Lemma execute_cutover_step_stored r cutover_id c :
  active_cutovers r !! cutover_id = Some c ->
  exists c' r',
    execute_cutover_step cutover_id r = (Ok c', r') /\
    active_cutovers r' = <[cutover_id := c']> (active_cutovers r) /\
    migration_plans r' = migration_plans r /\
    advanced c c'.
Proof.
  intros Hfound. unfold execute_cutover_step, bind at 1, get_cutover.
  rewrite Hfound. unfold advanced.
  destruct (Cutover.steps c !! Cutover.current_step c) as [step |] eqn:Hstep.
  - unfold bind, utcnow, put_cutover, ret. cbv beta iota zeta.
    cbn [Cutover.current_step set_current_step set_steps Cutover.steps].
    replace (Cutover.current_step c + 1)%nat with (S (Cutover.current_step c))
      by lia.
    destruct (length (Cutover.steps c) <=? S (Cutover.current_step c))%nat;
      cbv beta iota zeta;
      (eexists _, _; split; [reflexivity |]);
      cbn; split_and!; try reflexivity;
      try (eexists _, _; reflexivity); try (eexists; reflexivity).
  - unfold bind, utcnow, put_cutover, ret. cbv beta iota zeta.
    eexists _, _. split; [reflexivity |].
    cbn. split_and!; try reflexivity. eexists. reflexivity.
Qed.

Lemma rollback_cutover_stored r cutover_id reason c :
  active_cutovers r !! cutover_id = Some c ->
  exists rollback r',
    rollback_cutover cutover_id reason r = (Ok rollback, r') /\
    active_cutovers r'
    = <[cutover_id := set_rollback rollback (set_status "rolled_back" c)]>
        (active_cutovers r) /\
    migration_plans r' = migration_plans r.
Proof.
  intros Hfound. unfold rollback_cutover, bind, get_cutover. rewrite Hfound.
  eexists _, _. split; [reflexivity |]. split; reflexivity.
Qed.

Lemma monitor_cutover_stored r cutover_id c :
  active_cutovers r !! cutover_id = Some c ->
  exists report,
    monitor_cutover cutover_id r = (Ok report, r) /\
    Health.cutover_id report = cutover_id /\
    Health.status report = Cutover.status c /\
    Health.metrics report = Cutover.metrics c /\
    Health.step_progress report
    = Py.str_of_nat (Cutover.current_step c) +:+ "/" +:+
      Py.str_of_nat (length (Cutover.steps c)) /\
    (Cutover.metrics c = no_traffic ->
     Health.health_status report = "healthy" /\ Health.warnings report = []).
Proof.
  intros Hfound. unfold monitor_cutover, bind, get_cutover. rewrite Hfound.
  destruct (negb (Qle_bool (Metrics.error_rate (Cutover.metrics c)) 5.0)) eqn:He,
           (negb (Qle_bool (Metrics.latency_ms (Cutover.metrics c)) 1000.0)) eqn:Hl;
    (eexists; split; [reflexivity |]); cbn; split_and!; try reflexivity;
    intros Hquiet; rewrite Hquiet in He, Hl; vm_compute in He, Hl;
    first [discriminate | split; reflexivity].
Qed.

Lemma cutover_not_found r cutover_id reason :
  active_cutovers r !! cutover_id = None ->
  execute_cutover_step cutover_id r = (Raise (not_found cutover_id), r) /\
  monitor_cutover cutover_id r = (Raise (not_found cutover_id), r) /\
  rollback_cutover cutover_id reason r = (Raise (not_found cutover_id), r).
Proof.
  intros Hmissing.
  unfold execute_cutover_step, monitor_cutover, rollback_cutover, bind, get_cutover.
  rewrite Hmissing. split_and!; reflexivity.
Qed.

(** ** Coherence of the stored cutovers *)

Lemma generated_steps_pending strategy :
  Forall step_pending (_generate_cutover_steps strategy) /\
  (3 <= length (_generate_cutover_steps strategy) <= 6)%nat /\
  map CutoverStep.step (_generate_cutover_steps strategy)
  = map Z.of_nat (seq 1 (length (_generate_cutover_steps strategy))).
Proof.
  destruct strategy;
    (split; [| split; [vm_compute; lia | vm_compute; reflexivity]]);
    vm_compute; repeat constructor.
Qed.

Lemma coherent_initiated cm strategy started :
  let key := "CUTOVER-" +:+ ChannelMigration.channel_id cm in
  coherent key
    {| Cutover.cutover_id := key;
       Cutover.channel_id := ChannelMigration.channel_id cm;
       Cutover.strategy := strategy;
       Cutover.started_at := started;
       Cutover.status := "initiated";
       Cutover.steps := _generate_cutover_steps strategy;
       Cutover.current_step := 0%nat;
       Cutover.metrics := no_traffic;
       Cutover.completed_at := None;
       Cutover.rollback := None |}.
Proof.
  cbv zeta. unfold coherent, in_order, status_agrees. cbn.
  split_and!; try reflexivity; try discriminate.
  - apply elem_of_cons. left. reflexivity.
  - lia.
  - constructor.
  - apply generated_steps_pending.
Qed.

Lemma run_step_done started finished step :
  step_done (run_step started finished step).
Proof. split_and!; [reflexivity | eexists; reflexivity | eexists; reflexivity]. Qed.

Lemma in_order_advanced c c' :
  in_order c -> advanced c c' -> in_order c'.
Proof.
  intros (Hle & Hsteps & Hdone & Hpending)
         (_ & _ & Hstrategy & _ & _ & _ & Hadv).
  unfold in_order. rewrite Hstrategy.
  destruct (Cutover.steps c !! Cutover.current_step c) as [step |] eqn:Hstep.
  - destruct Hadv as ((started & finished & ->) & -> & _).
    pose proof (lookup_lt_Some _ _ _ Hstep) as Hlt.
    rewrite length_insert. split_and!.
    + lia.
    + rewrite <- Hsteps. rewrite list_fmap_insert. apply list_insert_id.
      rewrite list_lookup_fmap, Hstep. reflexivity.
    + rewrite (take_S_r _ _ (run_step started finished step))
        by (apply list_lookup_insert_eq; exact Hlt).
      rewrite take_insert_ge by lia.
      apply Forall_app. split; [exact Hdone |].
      constructor; [apply run_step_done | constructor].
    + rewrite drop_insert_lt by lia.
      rewrite (drop_S _ _ _ Hstep) in Hpending.
      apply Forall_cons in Hpending as [_ Hrest]. exact Hrest.
  - destruct Hadv as (-> & -> & _). split_and!; assumption.
Qed.

Lemma coherent_advanced key c c' :
  coherent key c -> advanced c c' -> coherent key c'.
Proof.
  intros (Hid & Hkey & Hstatus & Hrolled & Hmetrics & Horder & Hagrees) Hadv.
  pose proof (in_order_advanced c c' Horder Hadv) as Horder'.
  destruct Horder as (Hle & _).
  destruct Hadv as (Hid' & Hchannel & _ & _ & Hmetrics' & _ & Hadv).
  unfold coherent. rewrite Hid', Hchannel, Hmetrics'.
  split; [exact Hid |]. split; [exact Hkey |].
  destruct (Cutover.steps c !! Cutover.current_step c) as [step |] eqn:Hstep.
  - destruct Hadv as ((started & finished & Hsteps') & Hcursor & Hcase).
    pose proof (lookup_lt_Some _ _ _ Hstep) as Hlt.
    assert (Hlen : length (Cutover.steps c') = length (Cutover.steps c))
      by (rewrite Hsteps'; apply length_insert).
    unfold status_agrees. rewrite Hcursor, Hlen.
    destruct (length (Cutover.steps c) <=? S (Cutover.current_step c))%nat eqn:Hlast.
    + apply Nat.leb_le in Hlast. destruct Hcase as [Hst Hat]. rewrite Hst.
      split_and!; try discriminate; try assumption.
      * apply elem_of_cons. right. apply elem_of_cons. right.
        apply elem_of_cons. left. reflexivity.
      * intros _. split; [lia | exact Hat].
    + apply Nat.leb_gt in Hlast. destruct Hcase as [Hst Hat]. rewrite Hst.
      split_and!; try discriminate; try assumption.
      * apply elem_of_cons. right. apply elem_of_cons. left. reflexivity.
      * intros _. lia.
  - destruct Hadv as (Hsteps' & Hcursor & Hst & Hat).
    apply lookup_ge_None in Hstep.
    unfold status_agrees. rewrite Hcursor, Hsteps', Hst.
    split_and!; try discriminate; try assumption.
    + apply elem_of_cons. right. apply elem_of_cons. right.
      apply elem_of_cons. left. reflexivity.
    + intros _. split; [lia | exact Hat].
Qed.

Lemma coherent_rolled_back key c rollback :
  coherent key c -> coherent key (set_rollback rollback (set_status "rolled_back" c)).
Proof.
  intros (Hid & Hkey & Hstatus & Hrolled & Hmetrics & Horder & Hagrees).
  unfold coherent, status_agrees. cbn.
  split_and!; try assumption; try discriminate.
  - apply elem_of_cons. right. apply elem_of_cons. right.
    apply elem_of_cons. right. apply elem_of_cons. left. reflexivity.
  - intros _. eexists. reflexivity.
Qed.

Lemma all_coherent_insert r key c (cutovers : gmap string Cutover.t) :
  (forall k c0, cutovers !! k = Some c0 -> coherent k c0) ->
  coherent key c ->
  forall k c0, <[key := c]> cutovers !! k = Some c0 -> coherent k c0.
Proof.
  intros Hall Hc k c0 Hfound. destruct (decide (key = k)) as [<- | Hne].
  - rewrite lookup_insert_eq in Hfound. injection Hfound as <-. exact Hc.
  - rewrite lookup_insert_ne in Hfound by exact Hne. apply Hall. exact Hfound.
Qed.

(** A call of the coordinator keeps the plans, and keeps the stored
    cutovers coherent. *)
Lemma coordinate_effect call r :
  migration_plans (coordinate call r) = migration_plans r /\
  (all_coherent r -> all_coherent (coordinate call r)).
Proof.
  destruct call as [cm strategy | id | id | id reason]; cbn [coordinate].
  - destruct (initiate_cutover_stored cm strategy r) as (r' & Hrun & Hcut & Hplans).
    cbv zeta in Hrun. rewrite Hrun. cbn [snd]. split; [exact Hplans |].
    intros Hall. unfold all_coherent. rewrite Hcut.
    apply (all_coherent_insert r); [exact Hall |]. apply coherent_initiated.
  - destruct (active_cutovers r !! id) as [c |] eqn:Hfound.
    + destruct (execute_cutover_step_stored r id c Hfound)
        as (c' & r' & Hrun & Hcut & Hplans & Hadv).
      rewrite Hrun. cbn [snd]. split; [exact Hplans |].
      intros Hall. unfold all_coherent. rewrite Hcut.
      apply (all_coherent_insert r); [exact Hall |].
      apply (coherent_advanced id c c' (Hall id c Hfound) Hadv).
    + destruct (cutover_not_found r id "" Hfound) as (-> & _ & _).
      split; [reflexivity | intros Hall; exact Hall].
  - destruct (active_cutovers r !! id) as [c |] eqn:Hfound.
    + destruct (monitor_cutover_stored r id c Hfound) as (report & -> & _).
      split; [reflexivity | intros Hall; exact Hall].
    + destruct (cutover_not_found r id "" Hfound) as (_ & -> & _).
      split; [reflexivity | intros Hall; exact Hall].
  - destruct (active_cutovers r !! id) as [c |] eqn:Hfound.
    + destruct (rollback_cutover_stored r id reason c Hfound)
        as (rollback & r' & Hrun & Hcut & Hplans).
      rewrite Hrun. cbn [snd]. split; [exact Hplans |].
      intros Hall. unfold all_coherent. rewrite Hcut.
      apply (all_coherent_insert r); [exact Hall |].
      apply coherent_rolled_back. exact (Hall id c Hfound).
    + destruct (cutover_not_found r id reason Hfound) as (_ & _ & ->).
      split; [reflexivity | intros Hall; exact Hall].
Qed.

Lemma coordinate_all_cons call calls r :
  coordinate_all (call :: calls) r = coordinate_all calls (coordinate call r).
Proof. reflexivity. Qed.

Lemma coordinate_all_effect calls r :
  migration_plans (coordinate_all calls r) = migration_plans r /\
  (all_coherent r -> all_coherent (coordinate_all calls r)).
Proof.
  revert r. induction calls as [| call calls IH]; intros r.
  - split; [reflexivity | intros H; exact H].
  - rewrite coordinate_all_cons.
    destruct (IH (coordinate call r)) as [Hplans Hall].
    destruct (coordinate_effect call r) as [Hplans0 Hall0].
    split; [congruence | intros H; apply Hall, Hall0, H].
Qed.

End Coordinator.


(** X14.  [initiate_cutover] always returns.  The cutover is stored under
    ["CUTOVER-<channel id>"], in place of any cutover stored for the same
    channel id, whatever its state; it is ["initiated"] at step 0, without
    completion time or rollback record, with zero metrics and between
    three and six pending steps numbered from 1.  No migration plan
    changes. *)
Theorem initiate_cutover_registers
  (channel_migration : ChannelMigration.t) (strategy : CutoverStrategy)
  (r : Runtime) :
  exists c r',
    CutoverCoordinator.initiate_cutover channel_migration strategy r = (Ok c, r') /\
    Cutover.cutover_id c
    = "CUTOVER-" +:+ ChannelMigration.channel_id channel_migration /\
    Cutover.channel_id c = ChannelMigration.channel_id channel_migration /\
    Cutover.strategy c = strategy /\
    active_cutovers r' = <[Cutover.cutover_id c := c]> (active_cutovers r) /\
    migration_plans r' = migration_plans r /\
    Cutover.status c = "initiated" /\
    Cutover.current_step c = 0%nat /\
    Cutover.completed_at c = None /\
    Cutover.rollback c = None /\
    Cutover.metrics c = no_traffic /\
    Forall step_pending (Cutover.steps c) /\
    (3 <= length (Cutover.steps c) <= 6)%nat /\
    map CutoverStep.step (Cutover.steps c)
    = map Z.of_nat (seq 1 (length (Cutover.steps c))).
Proof.
  destruct (initiate_cutover_stored channel_migration strategy r)
    as (r' & Hrun & Hcut & Hplans).
  cbv zeta in Hrun, Hcut.
  destruct (generated_steps_pending strategy) as (Hpending & [Hmin Hmax] & Hnumbers).
  eexists _, r'. split; [exact Hrun |].
  cbn [Cutover.cutover_id Cutover.channel_id Cutover.strategy Cutover.status
       Cutover.current_step Cutover.completed_at Cutover.rollback
       Cutover.metrics Cutover.steps].
  split_and!; try reflexivity; assumption.
Qed.

(** X15.  With a cutover id that is not stored, [execute_cutover_step],
    [monitor_cutover] and [rollback_cutover] raise the not-found error and
    leave the state as it is. *)
Theorem unknown_cutover_is_reported
  (r : Runtime) (cutover_id reason : string) :
  active_cutovers r !! cutover_id = None ->
  CutoverCoordinator.execute_cutover_step cutover_id r
  = (Raise (CutoverCoordinator.not_found cutover_id), r) /\
  CutoverCoordinator.monitor_cutover cutover_id r
  = (Raise (CutoverCoordinator.not_found cutover_id), r) /\
  CutoverCoordinator.rollback_cutover cutover_id reason r
  = (Raise (CutoverCoordinator.not_found cutover_id), r).
Proof. apply cutover_not_found. Qed.

Lemma unknown_cutover_is_reported_witness :
  CutoverCoordinator.execute_cutover_step "CUTOVER-CH002" Scenario.cutover_started
  = (Raise (CutoverCoordinator.not_found "CUTOVER-CH002"), Scenario.cutover_started) /\
  CutoverCoordinator.monitor_cutover "CUTOVER-CH002" Scenario.cutover_started
  = (Raise (CutoverCoordinator.not_found "CUTOVER-CH002"), Scenario.cutover_started) /\
  CutoverCoordinator.rollback_cutover "CUTOVER-CH002" "Manual rollback"
                                      Scenario.cutover_started
  = (Raise (CutoverCoordinator.not_found "CUTOVER-CH002"), Scenario.cutover_started).
Proof.
  apply (unknown_cutover_is_reported
           Scenario.cutover_started "CUTOVER-CH002" "Manual rollback").
  vm_compute. reflexivity.
Defined.

Section CoordinatorRuns.

Implicit Types (r : Runtime) (c : Cutover.t).

Lemma step_times_S k cutover_id r :
  step_times (S k) cutover_id r
  = coordinate (ExecuteCutoverStep cutover_id) (step_times k cutover_id r).
Proof.
  unfold step_times, coordinate_all. cbn [repeat].
  rewrite List.repeat_cons, fold_left_app. reflexivity.
Qed.

Lemma stepped_initiated cm strategy r :
  exists c r',
    CutoverCoordinator.initiate_cutover cm strategy r = (Ok c, r') /\
    active_cutovers r' !! Cutover.cutover_id c = Some c /\
    stepped 0 strategy c.
Proof.
  destruct (initiate_cutover_stored cm strategy r) as (r' & Hrun & Hcut & _).
  cbv zeta in Hrun, Hcut. eexists _, r'. split; [exact Hrun |].
  split; [rewrite Hcut; apply lookup_insert_eq |].
  pose proof (coherent_initiated cm strategy
                (clock_stream (world r) (clock_read (world r)))) as Hco.
  cbv zeta in Hco. destruct Hco as (_ & _ & _ & _ & _ & Horder & _).
  destruct (generated_steps_pending strategy) as (_ & [Hmin _] & _).
  unfold stepped. cbv zeta.
  split; [reflexivity |]. split; [reflexivity |]. split; [exact Horder |].
  split; [reflexivity |]. split; [reflexivity |].
  cbn [Cutover.completed_at]. split.
  - intros [x Hx]. discriminate Hx.
  - intros Hle. lia.
Qed.

Lemma stepped_advanced k strategy c c' :
  stepped k strategy c -> advanced c c' -> stepped (S k) strategy c'.
Proof.
  unfold stepped. cbv zeta.
  intros (Hstrategy & Hlen & Horder & Hcursor & Hstatus & Hat) Hadv.
  pose proof (in_order_advanced c c' Horder Hadv) as Horder'.
  destruct (generated_steps_pending strategy) as (_ & [Hmin _] & _).
  set (n := length (CutoverCoordinator._generate_cutover_steps strategy)) in *.
  destruct Hadv as (_ & _ & Hstrategy' & _ & _ & _ & Hadv).
  rewrite Hstrategy', Hstrategy. split; [reflexivity |].
  unfold status_after. cbn [Nat.eqb].
  destruct (Cutover.steps c !! Cutover.current_step c) as [step |] eqn:Hstep.
  - destruct Hadv as ((started & finished & Hsteps') & Hcursor' & Hcase).
    pose proof (lookup_lt_Some _ _ _ Hstep) as Hlt.
    rewrite Hsteps', length_insert, Hcursor'.
    assert (Hk : (k < n)%nat) by lia.
    assert (Hmin_k : Cutover.current_step c = k) by lia.
    split; [exact Hlen |]. split; [exact Horder' |].
    split; [lia |].
    rewrite Hlen, Hmin_k in Hcase.
    destruct (n <=? S k)%nat eqn:Hlast.
    + apply Nat.leb_le in Hlast. destruct Hcase as [Hst Hsome].
      replace (S k <? n)%nat with false by (symmetry; apply Nat.ltb_ge; lia).
      split; [exact Hst |]. split; [intros _; lia | intros _; exact Hsome].
    + apply Nat.leb_gt in Hlast. destruct Hcase as [Hst Hsame].
      replace (S k <? n)%nat with true by (symmetry; apply Nat.ltb_lt; lia).
      split; [exact Hst |]. rewrite Hsame, Hat. lia.
  - destruct Hadv as (Hsteps' & Hcursor' & Hst & Hsome).
    apply lookup_ge_None in Hstep.
    rewrite Hsteps', Hcursor'.
    assert (Hk : (n <= k)%nat) by lia.
    split; [exact Hlen |]. split; [exact Horder' |].
    split; [lia |].
    replace (S k <? n)%nat with false by (symmetry; apply Nat.ltb_ge; lia).
    split; [exact Hst |]. split; [intros _; lia | intros _; exact Hsome].
Qed.

Lemma stepped_step_times k strategy cutover_id r c :
  active_cutovers r !! cutover_id = Some c ->
  stepped 0 strategy c ->
  exists ck,
    active_cutovers (step_times k cutover_id r) !! cutover_id = Some ck /\
    stepped k strategy ck.
Proof.
  intros Hfound Hstart. induction k as [| k (ck & Hk & Hstepped)].
  - exists c. split; [exact Hfound | exact Hstart].
  - rewrite step_times_S. cbn [coordinate].
    destruct (execute_cutover_step_stored _ cutover_id ck Hk)
      as (c' & r' & Hrun & Hcut & _ & Hadv).
    rewrite Hrun. cbn [snd]. exists c'.
    split; [rewrite Hcut; apply lookup_insert_eq |].
    exact (stepped_advanced k strategy ck c' Hstepped Hadv).
Qed.

End CoordinatorRuns.

(** X16.  A cutover that was just initiated runs to completion in as many
    calls of [execute_cutover_step] as it has steps.  After [k] calls the
    cursor is at [min k n] for [n] steps; the steps before the cursor are
    completed, with both times, and the others are pending; the status is
    ["initiated"] before the first call, ["in_progress"] up to the last
    step and ["completed"] from then on, and the completion time is set
    exactly from then on.  Calls past the last step change no step. *)
Theorem cutover_runs_to_completion
  (channel_migration : ChannelMigration.t) (strategy : CutoverStrategy)
  (r : Runtime) (k : nat) :
  exists c r' ck,
    CutoverCoordinator.initiate_cutover channel_migration strategy r = (Ok c, r') /\
    active_cutovers (step_times k (Cutover.cutover_id c) r')
      !! Cutover.cutover_id c = Some ck /\
    length (Cutover.steps ck) = length (Cutover.steps c) /\
    Cutover.current_step ck = Nat.min k (length (Cutover.steps c)) /\
    Forall step_done (take (Cutover.current_step ck) (Cutover.steps ck)) /\
    Forall step_pending (drop (Cutover.current_step ck) (Cutover.steps ck)) /\
    Cutover.status ck = status_after k (length (Cutover.steps c)) /\
    (is_Some (Cutover.completed_at ck) <-> (length (Cutover.steps c) <= k)%nat).
Proof.
  destruct (stepped_initiated channel_migration strategy r)
    as (c & r' & Hrun & Hfound & Hstart).
  destruct (stepped_step_times k strategy (Cutover.cutover_id c) r' c Hfound Hstart)
    as (ck & Hk & Hstepped).
  exists c, r', ck. split; [exact Hrun |]. split; [exact Hk |].
  destruct Hstart as (_ & Hlen0 & _).
  destruct Hstepped as (_ & Hlen & (_ & _ & Hdone & Hpending) & Hcursor & Hstatus & Hat).
  rewrite Hlen0. split_and!; assumption.
Qed.

(** X17.  A rolled-back cutover is not closed: [execute_cutover_step]
    after [rollback_cutover] runs the next step, or stamps the completion,
    and overwrites the status ["rolled_back"] with ["in_progress"] or
    ["completed"], while the rollback record stays in the cutover. *)
Theorem execute_cutover_step_after_rollback
  (r : Runtime) (cutover_id reason : string) (c : Cutover.t) :
  active_cutovers r !! cutover_id = Some c ->
  exists rollback r1 c' r2,
    CutoverCoordinator.rollback_cutover cutover_id reason r = (Ok rollback, r1) /\
    Cutover.status <$> active_cutovers r1 !! cutover_id = Some "rolled_back" /\
    CutoverCoordinator.execute_cutover_step cutover_id r1 = (Ok c', r2) /\
    active_cutovers r2 !! cutover_id = Some c' /\
    Cutover.status c' ∈ ["in_progress"; "completed"] /\
    Cutover.rollback c' = Some rollback /\
    Cutover.current_step c'
    = Nat.min (S (Cutover.current_step c))
              (Nat.max (Cutover.current_step c) (length (Cutover.steps c))).
Proof.
  intros Hfound.
  destruct (rollback_cutover_stored r cutover_id reason c Hfound)
    as (rollback & r1 & Hrun1 & Hcut1 & _).
  assert (Hstored : active_cutovers r1 !! cutover_id
                    = Some (CutoverCoordinator.set_rollback rollback
                              (CutoverCoordinator.set_status "rolled_back" c)))
    by (rewrite Hcut1; apply lookup_insert_eq).
  destruct (execute_cutover_step_stored r1 cutover_id _ Hstored)
    as (c' & r2 & Hrun2 & Hcut2 & _ & Hadv).
  exists rollback, r1, c', r2. split; [exact Hrun1 |].
  split; [rewrite Hstored; reflexivity |].
  split; [exact Hrun2 |].
  split; [rewrite Hcut2; apply lookup_insert_eq |].
  destruct Hadv as (_ & _ & _ & _ & _ & Hrb & Hadv).
  cbn [CutoverCoordinator.set_rollback CutoverCoordinator.set_status
       Cutover.steps Cutover.current_step Cutover.rollback] in Hrb, Hadv.
  destruct (Cutover.steps c !! Cutover.current_step c) as [step |] eqn:Hstep.
  - destruct Hadv as (_ & Hcursor & Hcase).
    pose proof (lookup_lt_Some _ _ _ Hstep) as Hlt.
    split_and!; [| exact Hrb | lia].
    destruct (length (Cutover.steps c) <=? S (Cutover.current_step c))%nat;
      destruct Hcase as [-> _].
    + apply elem_of_cons. right. apply elem_of_cons. left. reflexivity.
    + apply elem_of_cons. left. reflexivity.
  - destruct Hadv as (_ & Hcursor & -> & _).
    apply lookup_ge_None in Hstep.
    split_and!; [| exact Hrb | lia].
    apply elem_of_cons. right. apply elem_of_cons. left. reflexivity.
Qed.

Lemma execute_cutover_step_after_rollback_witness :
  exists rollback r1 c' r2,
    CutoverCoordinator.rollback_cutover
      "CUTOVER-CH001" "Error rate above threshold" Scenario.cutover_started
    = (Ok rollback, r1) /\
    Cutover.status <$> active_cutovers r1 !! "CUTOVER-CH001" = Some "rolled_back" /\
    CutoverCoordinator.execute_cutover_step "CUTOVER-CH001" r1 = (Ok c', r2) /\
    active_cutovers r2 !! "CUTOVER-CH001" = Some c' /\
    Cutover.status c' ∈ ["in_progress"; "completed"] /\
    Cutover.rollback c' = Some rollback /\
    Cutover.current_step c'
    = Nat.min (S (Cutover.current_step Scenario.started_cutover))
              (Nat.max (Cutover.current_step Scenario.started_cutover)
                       (length (Cutover.steps Scenario.started_cutover))).
Proof.
  apply (execute_cutover_step_after_rollback
           Scenario.cutover_started "CUTOVER-CH001" "Error rate above threshold"
           Scenario.started_cutover).
  vm_compute. reflexivity.
Defined.

(** X18.  In every state that the coordinator reaches from an empty
    registry, by any sequence of its calls, a cutover is stored under its
    own id, which is ["CUTOVER-<channel id>"]; its steps are those of its
    strategy, completed before the cursor and pending from it on; a status
    ["initiated"] means that no step was run, ["in_progress"] that some
    but not all were, ["completed"] that all were and the completion time
    is set, and ["rolled_back"] that the rollback record is there. *)
Theorem cutovers_stay_coherent
  (w : World) (plans : gmap string MigrationPlan.t) (calls : list CutoverCall)
  (key : string) (c : Cutover.t) :
  active_cutovers
    (coordinate_all calls
       {| world := w; migration_plans := plans; active_cutovers := ∅ |})
    !! key = Some c ->
  Cutover.cutover_id c = key /\
  key = "CUTOVER-" +:+ Cutover.channel_id c /\
  Cutover.status c ∈ ["initiated"; "in_progress"; "completed"; "rolled_back"] /\
  (Cutover.status c = "rolled_back" -> is_Some (Cutover.rollback c)) /\
  in_order c /\
  status_agrees c.
Proof.
  intros Hfound.
  destruct (coordinate_all_effect calls
              {| world := w; migration_plans := plans; active_cutovers := ∅ |})
    as [_ Hall].
  destruct (Hall (fun k c0 H => match lookup_empty_Some _ _ H with end) key c Hfound)
    as (Hid & Hkey & Hstatus & Hrolled & _ & Horder & Hagrees).
  split_and!; assumption.
Qed.

Lemma cutovers_stay_coherent_witness :
  Cutover.cutover_id (CutoverScenario.stored CutoverScenario.final)
  = CutoverScenario.key /\
  CutoverScenario.key
  = "CUTOVER-" +:+ Cutover.channel_id (CutoverScenario.stored CutoverScenario.final) /\
  Cutover.status (CutoverScenario.stored CutoverScenario.final)
    ∈ ["initiated"; "in_progress"; "completed"; "rolled_back"] /\
  (Cutover.status (CutoverScenario.stored CutoverScenario.final) = "rolled_back" ->
   is_Some (Cutover.rollback (CutoverScenario.stored CutoverScenario.final))) /\
  in_order (CutoverScenario.stored CutoverScenario.final) /\
  status_agrees (CutoverScenario.stored CutoverScenario.final).
Proof.
  apply (cutovers_stay_coherent
           Scenario.world0 ∅ CutoverScenario.calls CutoverScenario.key
           (CutoverScenario.stored CutoverScenario.final)).
  vm_compute. reflexivity.
Defined.

(** X19.  The coordinator never writes the metrics of a cutover: in every
    state that it reaches from an empty registry, [monitor_cutover] of a
    stored cutover returns a report that is ["healthy"] without warnings,
    with zero metrics, the status of the cutover and the step progress
    ["<cursor>/<number of steps>"], and changes nothing. *)
Theorem monitor_cutover_always_healthy
  (w : World) (plans : gmap string MigrationPlan.t) (calls : list CutoverCall)
  (key : string) (c : Cutover.t) :
  active_cutovers
    (coordinate_all calls
       {| world := w; migration_plans := plans; active_cutovers := ∅ |})
    !! key = Some c ->
  exists report,
    CutoverCoordinator.monitor_cutover key
      (coordinate_all calls
         {| world := w; migration_plans := plans; active_cutovers := ∅ |})
    = (Ok report,
       coordinate_all calls
         {| world := w; migration_plans := plans; active_cutovers := ∅ |}) /\
    CutoverCoordinator.Health.health_status report = "healthy" /\
    CutoverCoordinator.Health.warnings report = [] /\
    CutoverCoordinator.Health.metrics report = no_traffic /\
    CutoverCoordinator.Health.status report = Cutover.status c /\
    CutoverCoordinator.Health.step_progress report
    = Py.str_of_nat (Cutover.current_step c) +:+ "/" +:+
      Py.str_of_nat (length (Cutover.steps c)).
Proof.
  intros Hfound.
  destruct (coordinate_all_effect calls
              {| world := w; migration_plans := plans; active_cutovers := ∅ |})
    as [_ Hall].
  destruct (Hall (fun k c0 H => match lookup_empty_Some _ _ H with end) key c Hfound)
    as (_ & _ & _ & _ & Hmetrics & _).
  destruct (monitor_cutover_stored _ key c Hfound)
    as (report & Hrun & _ & Hstatus & Hm & Hprogress & Hquiet).
  destruct (Hquiet Hmetrics) as [Hhealthy Hwarnings].
  exists report. split_and!; try assumption. rewrite Hm. exact Hmetrics.
Qed.

Lemma monitor_cutover_always_healthy_witness :
  exists report,
    CutoverCoordinator.monitor_cutover CutoverScenario.key
      (coordinate_all CutoverScenario.calls
         {| world := Scenario.world0; migration_plans := ∅; active_cutovers := ∅ |})
    = (Ok report,
       coordinate_all CutoverScenario.calls
         {| world := Scenario.world0; migration_plans := ∅; active_cutovers := ∅ |}) /\
    CutoverCoordinator.Health.health_status report = "healthy" /\
    CutoverCoordinator.Health.warnings report = [] /\
    CutoverCoordinator.Health.metrics report = no_traffic /\
    CutoverCoordinator.Health.status report
    = Cutover.status (CutoverScenario.stored CutoverScenario.final) /\
    CutoverCoordinator.Health.step_progress report
    = Py.str_of_nat (Cutover.current_step (CutoverScenario.stored CutoverScenario.final))
      +:+ "/" +:+
      Py.str_of_nat (length (Cutover.steps (CutoverScenario.stored CutoverScenario.final))).
Proof.
  apply (monitor_cutover_always_healthy
           Scenario.world0 ∅ CutoverScenario.calls CutoverScenario.key
           (CutoverScenario.stored CutoverScenario.final)).
  vm_compute. reflexivity.
Defined.



(* ===================================================================== *)
(** * The scores in closed form *)
(* ===================================================================== *)

Section ClosedForm.

Import RiskAssessor Score.
Local Open Scope Q_scope.

Implicit Types (c : Customer.t) (ch : IntegrationChannel.t) (r : Runtime)
  (es : list (RiskCategory * Q)).

Lemma contribution_one (cat : RiskCategory) (x : Q) :
  contribution (cat, [x]) == x * dict_get risk_weights cat 0.1.
Proof.
  unfold contribution, sum, len. cbn [fst snd fold_left length].
  change (inject_Z (Z.of_nat 1)) with 1. field.
Qed.

Lemma cap_below (w : Q) : w < 100 -> cap w = w.
Proof.
  intros Hw. unfold cap. destruct (Qle_bool 100.0 w) eqn:Hcap; [| reflexivity].
  apply Qle_bool_iff in Hcap. lra.
Qed.

Lemma determine_risk_level_equal (x y : Q) :
  x == y -> _determine_risk_level x = _determine_risk_level y.
Proof.
  intros Hxy. unfold _determine_risk_level.
  assert (Hle : forall t, Qle_bool t x = Qle_bool t y)
    by (intros t; rewrite Hxy; reflexivity).
  rewrite !Hle. reflexivity.
Qed.

Lemma criticality_score_values c :
  criticality_score c == 3 \/ criticality_score c == 15 \/
  criticality_score c == 48 \/ criticality_score c == 76.
Proof.
  unfold criticality_score, criticality_map. cbn [dict_get].
  repeat (destruct (decide _) as [_ | _]);
    [left | right; left | right; right; left | right; right; right | right; left];
    vm_compute; reflexivity.
Qed.

Lemma weighted_customer c :
  fold_left add_category (tally (customer_entries c)) 0.0 == customer_score c.
Proof.
  rewrite fold_add_category.
  unfold tally, total. cbn [RiskCategory_members map fold_right].
  unfold customer_entries. rewrite !scores_of_app.
  rewrite !scores_of_compliance_entries.
  rewrite !(scores_of_other_compliance_entries TECHNICAL) by discriminate.
  rewrite !(scores_of_other_compliance_entries BUSINESS) by discriminate.
  rewrite !(scores_of_other_compliance_entries OPERATIONAL) by discriminate.
  rewrite !(scores_of_other_compliance_entries INTEGRATION) by discriminate.
  rewrite scores_of_compliance_business, scores_of_compliance_complexity,
          scores_of_compliance_operational.
  rewrite !app_nil_l, !app_nil_r.
  rewrite contribution_compliance.
  unfold customer_score, criticality_score, business_entries,
    complexity_entries, operational_entries.
  destruct (dict_get criticality_map _ _) as [impact likelihood].
  destruct (5 <? length (Customer.channels c))%nat,
           (existsb _ (Customer.channels c)),
           (negb _ && negb _),
           (Customer.compliance_requirements c) as [| req reqs];
    unfold scores_of; cbn [List.filter map fst snd app];
    rewrite ?(bool_decide_eq_true_2 _ eq_refl);
    repeat (rewrite bool_decide_eq_false_2 by discriminate);
    cbn [List.filter map fst snd app];
    rewrite ?contribution_one;
    unfold contribution; cbn [fst snd];
    change (dict_get risk_weights BUSINESS 0.1) with 0.30;
    try change (dict_get risk_weights TECHNICAL 0.1) with 0.25;
    try change (dict_get risk_weights INTEGRATION 0.1) with 0.05;
    try change (dict_get risk_weights OPERATIONAL 0.1) with 0.15;
    field.
Qed.

Lemma customer_score_range c :
  0.9 <= customer_score c /\ customer_score c <= 42.225.
Proof.
  unfold customer_score.
  destruct (criticality_score_values c) as [H | [H | [H | H]]]; rewrite H;
    destruct (Customer.compliance_requirements c),
             (5 <? length (Customer.channels c))%nat,
             (existsb _ (Customer.channels c)),
             (negb _ && negb _);
    split; lra.
Qed.

(** [assess_customer], with the readiness score. *)
Lemma returns_assess_customer_readiness c r :
  returns (assess_customer c) r
    (fun a r' =>
       RiskAssessment.overall_risk_score a
       = cap (fold_left add_category (tally (customer_entries c)) 0.0) /\
       RiskAssessment.risk_level a
       = _determine_risk_level (RiskAssessment.overall_risk_score a) /\
       RiskAssessment.migration_readiness_score a
       = 100.0 - RiskAssessment.overall_risk_score a /\
       same_registries r r').
Proof.
  assert (Hfull : returns (assess_customer c) r
    (fun a r' =>
       map entry (RiskAssessment.risk_factors a) = customer_entries c /\
       RiskAssessment.overall_risk_score a
       = _calculate_overall_risk (RiskAssessment.risk_factors a) /\
       RiskAssessment.risk_level a
       = _determine_risk_level (RiskAssessment.overall_risk_score a) /\
       RiskAssessment.migration_readiness_score a
       = 100.0 - RiskAssessment.overall_risk_score a /\
       same_registries r r')).
  { unfold assess_customer.
    mstep returns_uuid4_hex. intros u r0 Hr0.
    mstep returns_assess_business_criticality. intros fs1 r1 [H1 Hr1].
    mstep returns_assess_compliance. intros fs2 r2 [H2 Hr2].
    mstep returns_assess_channel_complexity. intros fs3 r3 [H3 Hr3].
    mstep returns_assess_operational_factors. intros fs4 r4 [H4 Hr4].
    mstep returns_utcnow. intros now r5 Hr5.
    apply returns_ret. cbn [RiskAssessment.risk_factors
      RiskAssessment.overall_risk_score RiskAssessment.risk_level
      RiskAssessment.migration_readiness_score].
    split_and!; try reflexivity.
    - rewrite !List.map_app, H1, H2, H3, H4. reflexivity.
    - repeat (eapply same_registries_trans; [eassumption |]).
      apply same_registries_refl. }
  eapply returns_weaken; [exact Hfull |].
  intros a r' (Hentries & Hscore & Hlevel & Hready & Hr').
  split_and!; try assumption.
  rewrite Hscore, calculate_overall_risk_tally, Hentries; [reflexivity |].
  intros Hnil. apply (customer_entries_nonempty c).
  rewrite <- Hentries, Hnil. reflexivity.
Qed.

(** The score, the level and the readiness of [assess_customer], from the
    closed form. *)
Lemma returns_assess_customer_closed c r :
  returns (assess_customer c) r
    (fun a r' =>
       RiskAssessment.overall_risk_score a == customer_score c /\
       RiskAssessment.risk_level a = _determine_risk_level (customer_score c) /\
       RiskAssessment.migration_readiness_score a == 100 - customer_score c /\
       same_registries r r').
Proof.
  eapply returns_weaken; [apply returns_assess_customer_readiness |].
  intros a r' (Hscore & Hlevel & Hready & Hr').
  pose proof (weighted_customer c) as Hclosed.
  pose proof (customer_score_range c) as [_ Hmax].
  assert (Heq : RiskAssessment.overall_risk_score a == customer_score c).
  { rewrite Hscore, cap_below; [exact Hclosed |]. rewrite Hclosed. lra. }
  split_and!.
  - exact Heq.
  - rewrite Hlevel. apply determine_risk_level_equal. exact Heq.
  - rewrite Hready, Heq. lra.
  - exact Hr'.
Qed.


Lemma determine_risk_level_below_30 (x : Q) :
  x < 30 -> _determine_risk_level x = LOW.
Proof.
  intros Hx. unfold _determine_risk_level.
  destruct (Qle_bool 70.0 x) eqn:H70; [apply Qle_bool_iff in H70; lra |].
  destruct (Qle_bool 50.0 x) eqn:H50; [apply Qle_bool_iff in H50; lra |].
  destruct (Qle_bool 30.0 x) eqn:H30; [apply Qle_bool_iff in H30; lra |].
  reflexivity.
Qed.

(** ** The channel assessment *)

Lemma returns_assess_channel_entries c ch r :
  returns (assess_channel c ch) r
    (fun a r' =>
       map entry (RiskAssessment.risk_factors a) = channel_entries ch /\
       RiskAssessment.overall_risk_score a
       = _calculate_overall_risk (RiskAssessment.risk_factors a) /\
       RiskAssessment.risk_level a
       = _determine_risk_level (RiskAssessment.overall_risk_score a) /\
       RiskAssessment.migration_readiness_score a
       = 100.0 - RiskAssessment.overall_risk_score a /\
       RiskAssessment.channel_id a = Some (IntegrationChannel.channel_id ch) /\
       same_registries r r').
Proof.
  unfold assess_channel.
  mstep returns_uuid4_hex. intros u r0 Hr0.
  apply returns_bind.
  assert (H1 : returns (_assess_channel_technical_risk ch) r0
    (fun fs r' =>
       map entry fs
       = [ (TECHNICAL,
            (fst (dict_get complexity_map (IntegrationChannel.channel_type ch)
                           (40.0, "Standard channel migration")) * 50.0) / 100.0) ] /\
       same_registries r0 r')).
  { unfold _assess_channel_technical_risk.
    destruct (dict_get _ _ _) as [impact description].
    mstep returns_uuid4_hex. intros u1 r1 Hr1.
    apply returns_ret. split; [reflexivity | exact Hr1]. }
  eapply returns_weaken; [exact H1 |]. cbn beta.
  intros fs1 r1 [Hfs1 Hr1]. apply returns_bind.
  assert (H2 : returns (_assess_integration_complexity ch) r1
    (fun fs r' =>
       map entry fs
       = (if negb (Py.truthy (IntegrationChannel.target_endpoint ch))
          then [ (INTEGRATION, (75.0 * 100.0) / 100.0) ] else []) /\
       same_registries r1 r')).
  { unfold _assess_integration_complexity.
    destruct (negb _).
    - mstep returns_uuid4_hex. intros u2 r2 Hr2.
      apply returns_ret. split; [reflexivity | exact Hr2].
    - apply returns_ret. split; [reflexivity | apply same_registries_refl]. }
  eapply returns_weaken; [exact H2 |]. cbn beta.
  intros fs2 r2 [Hfs2 Hr2]. apply returns_bind.
  assert (H3 : returns (_assess_transaction_volume_risk ch) r2
    (fun fs r' =>
       map entry fs
       = (if (10000 <? IntegrationChannel.transaction_volume ch)%Z
          then [ (OPERATIONAL, (70.0 * 45.0) / 100.0) ] else []) /\
       same_registries r2 r')).
  { unfold _assess_transaction_volume_risk.
    destruct (10000 <? _)%Z.
    - mstep returns_uuid4_hex. intros u3 r3 Hr3.
      apply returns_ret. split; [reflexivity | exact Hr3].
    - apply returns_ret. split; [reflexivity | apply same_registries_refl]. }
  eapply returns_weaken; [exact H3 |]. cbn beta.
  intros fs3 r3 [Hfs3 Hr3].
  mstep returns_utcnow. intros now r4 Hr4.
  apply returns_ret. cbn [RiskAssessment.risk_factors
    RiskAssessment.overall_risk_score RiskAssessment.risk_level
    RiskAssessment.migration_readiness_score RiskAssessment.channel_id].
  split_and!; try reflexivity.
  - rewrite !List.map_app, Hfs1, Hfs2, Hfs3. reflexivity.
  - repeat (eapply same_registries_trans; [eassumption |]).
    apply same_registries_refl.
Qed.

Lemma complexity_values ch :
  let impact :=
    fst (dict_get complexity_map (IntegrationChannel.channel_type ch)
                  (40.0, "Standard channel migration")) in
  30 <= impact /\ impact <= 70.
Proof.
  cbv zeta. destruct (IntegrationChannel.channel_type ch); vm_compute;
    split; discriminate.
Qed.

Lemma weighted_channel ch :
  fold_left add_category (tally (channel_entries ch)) 0.0 == channel_score ch.
Proof.
  rewrite fold_add_category.
  unfold tally, total. cbn [RiskCategory_members map fold_right].
  unfold channel_entries, channel_score.
  generalize (fst (dict_get complexity_map (IntegrationChannel.channel_type ch)
                            (40.0, "Standard channel migration"))).
  intros impact.
  destruct (negb _), (10000 <? _)%Z;
    unfold scores_of; cbn [List.filter map fst snd app];
    rewrite ?(bool_decide_eq_true_2 _ eq_refl);
    repeat (rewrite bool_decide_eq_false_2 by discriminate);
    cbn [List.filter map fst snd app];
    rewrite ?contribution_one;
    unfold contribution; cbn [fst snd];
    change (dict_get risk_weights TECHNICAL 0.1) with 0.25;
    try change (dict_get risk_weights INTEGRATION 0.1) with 0.05;
    try change (dict_get risk_weights OPERATIONAL 0.1) with 0.15;
    field.
Qed.

Lemma channel_score_range ch :
  3.75 <= channel_score ch /\ channel_score ch <= 17.225.
Proof.
  unfold channel_score. pose proof (complexity_values ch) as [Hmin Hmax].
  cbv zeta in Hmin, Hmax.
  revert Hmin Hmax.
  generalize (fst (dict_get complexity_map (IntegrationChannel.channel_type ch)
                            (40.0, "Standard channel migration"))).
  intros impact Hmin Hmax.
  destruct (negb _), (10000 <? _)%Z; split; lra.
Qed.

Lemma returns_assess_channel_closed c ch r :
  returns (assess_channel c ch) r
    (fun a r' =>
       RiskAssessment.overall_risk_score a == channel_score ch /\
       RiskAssessment.risk_level a = LOW /\
       RiskAssessment.migration_readiness_score a == 100 - channel_score ch /\
       RiskAssessment.channel_id a = Some (IntegrationChannel.channel_id ch) /\
       same_registries r r').
Proof.
  eapply returns_weaken; [apply returns_assess_channel_entries |].
  intros a r' (Hentries & Hscore & Hlevel & Hready & Hid & Hr').
  pose proof (weighted_channel ch) as Hclosed.
  pose proof (channel_score_range ch) as [_ Hmax].
  assert (Heq : RiskAssessment.overall_risk_score a == channel_score ch).
  { rewrite Hscore, calculate_overall_risk_tally, Hentries.
    - rewrite cap_below; [exact Hclosed |]. rewrite Hclosed. lra.
    - intros Hnil. rewrite Hnil in Hentries. discriminate Hentries. }
  split_and!; try assumption.
  - rewrite Hlevel, (determine_risk_level_equal _ _ Heq).
    apply determine_risk_level_below_30. lra.
  - rewrite Hready, Heq. lra.
Qed.

End ClosedForm.

(** X20.  The overall risk score of a customer in closed form.
    [assess_customer] always returns; the score is 0.30 times the score of
    the business criticality (3, 15, 48 or 76 for low, medium, high and
    critical; an unknown criticality counts as medium), plus 7 when there
    is a compliance requirement, however many, plus 1.95 with more than
    five channels, plus 6.875 with an EDI or thick-client channel, plus
    3.6 without contact email and phone; the readiness score is 100 minus
    the score and the level is that of the score.  The registries are
    unchanged. *)
Theorem assess_customer_score_formula (c : Customer.t) (r : Runtime) :
  exists a r',
    RiskAssessor.assess_customer c r = (Ok a, r') /\
    (RiskAssessment.overall_risk_score a == customer_score c)%Q /\
    RiskAssessment.risk_level a
    = RiskAssessor._determine_risk_level (customer_score c) /\
    (RiskAssessment.migration_readiness_score a == 100 - customer_score c)%Q /\
    (criticality_score c == 3 \/ criticality_score c == 15 \/
     criticality_score c == 48 \/ criticality_score c == 76)%Q /\
    same_registries r r'.
Proof.
  destruct (returns_assess_customer_closed c r)
    as (a & r' & Hrun & Hscore & Hlevel & Hready & Hr').
  exists a, r'. split_and!; try assumption.
  apply criticality_score_values.
Qed.


(** X22.  Every channel is assessed as [LOW], whatever the customer.
    [assess_channel] always returns; the score is 0.125 times the impact
    of the channel type, plus 3.75 without target endpoint, plus 4.725
    with more than 10000 transactions a day; it lies between 3.75 and
    17.225, below the threshold 30 of [MEDIUM].  The registries are
    unchanged. *)
Theorem assess_channel_always_low
  (c : Customer.t) (channel : IntegrationChannel.t) (r : Runtime) :
  exists a r',
    RiskAssessor.assess_channel c channel r = (Ok a, r') /\
    (RiskAssessment.overall_risk_score a == channel_score channel)%Q /\
    (3.75 <= RiskAssessment.overall_risk_score a)%Q /\
    (RiskAssessment.overall_risk_score a <= 17.225)%Q /\
    RiskAssessment.risk_level a = LOW /\
    RiskAssessment.channel_id a = Some (IntegrationChannel.channel_id channel) /\
    same_registries r r'.
Proof.
  destruct (returns_assess_channel_closed c channel r)
    as (a & r' & Hrun & Hscore & Hlevel & _ & Hid & Hr').
  destruct (channel_score_range channel) as [Hmin Hmax].
  exists a, r'. split; [exact Hrun |].
  rewrite Hscore. split_and!; try assumption. reflexivity.
Qed.

(** X23.  [_determine_risk_level] is monotone: a higher score never gets a
    lower level. *)
Theorem determine_risk_level_monotone (x y : Q) :
  (x <= y)%Q ->
  (severity_rank (RiskAssessor._determine_risk_level x)
   <= severity_rank (RiskAssessor._determine_risk_level y))%nat.
Proof.
  intros Hxy. unfold RiskAssessor._determine_risk_level.
  destruct (Qle_bool 70.0 x) eqn:Hx70, (Qle_bool 70.0 y) eqn:Hy70,
           (Qle_bool 50.0 x) eqn:Hx50, (Qle_bool 50.0 y) eqn:Hy50,
           (Qle_bool 30.0 x) eqn:Hx30, (Qle_bool 30.0 y) eqn:Hy30;
    cbn [severity_rank]; try lia;
    repeat match goal with
           | H : Qle_bool _ _ = true |- _ => apply Qle_bool_iff in H
           | H : Qle_bool _ _ = false |- _ =>
               apply not_true_iff_false in H; rewrite Qle_bool_iff in H
           end;
    exfalso; lra.
Qed.

Lemma determine_risk_level_monotone_witness :
  (severity_rank (RiskAssessor._determine_risk_level 29.9)
   <= severity_rank (RiskAssessor._determine_risk_level 30))%nat.
Proof.
  apply (determine_risk_level_monotone 29.9 30). vm_compute. discriminate.
Defined.

(** X24.  For risk factors within their field constraints (impact and
    likelihood in [[0, 100]]), [_calculate_overall_risk] is within the
    constraint of [overall_risk_score], and so is the readiness score
    [100 - overall_risk_score]. *)
Theorem calculate_overall_risk_in_range (fs : list RiskFactor.t) :
  Forall RiskFactor.valid fs ->
  (0 <= RiskAssessor._calculate_overall_risk fs)%Q /\
  (RiskAssessor._calculate_overall_risk fs <= 100)%Q /\
  (0 <= 100 - RiskAssessor._calculate_overall_risk fs)%Q /\
  (100 - RiskAssessor._calculate_overall_risk fs <= 100)%Q.
Proof.
  intros Hvalid. destruct (calculate_overall_risk_range fs Hvalid) as [Hmin Hmax].
  split_and!; try assumption; lra.
Qed.

Lemma calculate_overall_risk_in_range_witness :
  (0 <= RiskAssessor._calculate_overall_risk [Scenario.compliance_factor])%Q /\
  (RiskAssessor._calculate_overall_risk [Scenario.compliance_factor] <= 100)%Q /\
  (0 <= 100 - RiskAssessor._calculate_overall_risk [Scenario.compliance_factor])%Q /\
  (100 - RiskAssessor._calculate_overall_risk [Scenario.compliance_factor] <= 100)%Q.
Proof.
  apply (calculate_overall_risk_in_range [Scenario.compliance_factor]).
  constructor; [| constructor].
  unfold RiskFactor.valid, Scenario.compliance_factor. cbn. lra.
Defined.

(** X25.  The orchestrator and the coordinator share nothing: no sequence
    of calls of the orchestrator changes a cutover, and no sequence of
    calls of the coordinator changes a migration plan; in particular no
    call of the coordinator changes the status of a channel migration. *)
Theorem registries_are_independent
  (calls : list Call) (cutover_calls : list CutoverCall) (r : Runtime) :
  active_cutovers (perform_all calls r) = active_cutovers r /\
  migration_plans (coordinate_all cutover_calls r) = migration_plans r.
Proof.
  split.
  - revert r. induction calls as [| call calls IH]; intros r; [reflexivity |].
    rewrite perform_all_cons, IH.
    destruct call as [c s | | | |];
      try (apply perform_effect; exact I).
    cbn [perform].
    destruct (returns_create_migration_plan_stored c s r)
      as (plan & r' & Hrun & _ & _ & Hcut & _).
    rewrite Hrun. exact Hcut.
  - apply coordinate_all_effect.
Qed.


(* ===================================================================== *)
(** * The recommended actions *)
(* ===================================================================== *)

Section Recommendations.

Import RiskAssessor Score.
Local Open Scope Q_scope.

Implicit Types (c : Customer.t) (r : Runtime) (fs : list RiskFactor.t).

Lemma score_to_severity_equal (x y : Q) :
  x == y -> _score_to_severity x = _score_to_severity y.
Proof. apply determine_risk_level_equal. Qed.

Lemma returns_assess_customer_severities c r :
  returns (assess_customer c) r
    (fun a r' =>
       map RiskFactor.severity (RiskAssessment.risk_factors a)
       = customer_severities c /\
       RiskAssessment.recommended_actions a
       = _generate_recommendations (RiskAssessment.risk_factors a) c).
Proof.
  unfold assess_customer.
  mstep returns_uuid4_hex. intros u r0 _.
  apply returns_bind.
  assert (H1 : returns (_assess_business_criticality c) r0
    (fun fs _ => map RiskFactor.severity fs
                 = [ _score_to_severity (criticality_score c) ])).
  { unfold _assess_business_criticality, criticality_score.
    destruct (dict_get _ _ _) as [impact likelihood].
    mstep returns_uuid4_hex. intros u1 r1 _.
    apply returns_ret. cbn [map RiskFactor.severity]. f_equal.
    apply score_to_severity_equal. field. }
  eapply returns_weaken; [exact H1 |]. cbn beta. intros fs1 r1 Hfs1.
  apply returns_bind.
  assert (H2 : returns (_assess_compliance c) r1
    (fun fs _ => map RiskFactor.severity fs
                 = map (fun _ => HIGH) (Customer.compliance_requirements c))).
  { unfold _assess_compliance.
    assert (Hloop : forall reqs,
               returns (mapM compliance_factor reqs) r1
                 (fun fs _ => map RiskFactor.severity fs
                              = map (fun _ => HIGH) reqs)).
    { intros reqs.
      eapply returns_weaken;
        [apply (returns_mapM compliance_factor
                  (fun _ f => RiskFactor.severity f = HIGH)) |].
      - intros req r2. unfold compliance_factor.
        mstep returns_uuid4_hex. intros u2 r3 Hr3.
        apply returns_ret. split; [reflexivity | exact Hr3].
      - intros fs r' [Hall _].
        induction Hall as [| req f reqs' fs' Hf _ IH]; [reflexivity |].
        cbn [map]. rewrite Hf. f_equal. exact IH. }
    destruct (Customer.compliance_requirements c) as [| req reqs].
    - apply returns_ret. reflexivity.
    - apply Hloop. }
  eapply returns_weaken; [exact H2 |]. cbn beta. intros fs2 r2 Hfs2.
  apply returns_bind.
  assert (H3 : returns (_assess_channel_complexity c) r2
    (fun fs _ =>
       map RiskFactor.severity fs
       = ((if (5 <? length (Customer.channels c))%nat then [HIGH] else []) ++
          (if existsb
                (fun ch => bool_decide
                             (IntegrationChannel.channel_type ch ∈ legacy_types))
                (Customer.channels c)
           then [MEDIUM] else []))%list)).
  { unfold _assess_channel_complexity.
    apply returns_bind.
    destruct (5 <? length (Customer.channels c))%nat.
    - mstep returns_uuid4_hex. intros u3 r3 _. apply returns_ret.
      apply returns_bind. destruct (existsb _ _).
      + mstep returns_uuid4_hex. intros u4 r4 _. apply returns_ret.
        apply returns_ret. reflexivity.
      + apply returns_ret. apply returns_ret. reflexivity.
    - apply returns_ret.
      apply returns_bind. destruct (existsb _ _).
      + mstep returns_uuid4_hex. intros u4 r4 _. apply returns_ret.
        apply returns_ret. reflexivity.
      + apply returns_ret. apply returns_ret. reflexivity. }
  eapply returns_weaken; [exact H3 |]. cbn beta. intros fs3 r3 Hfs3.
  apply returns_bind.
  assert (H4 : returns (_assess_operational_factors c) r3
    (fun fs _ =>
       map RiskFactor.severity fs
       = (if negb (Py.truthy (Customer.contact_email c)) &&
             negb (Py.truthy (Customer.contact_phone c))
          then [MEDIUM] else []))).
  { unfold _assess_operational_factors.
    destruct (negb _ && negb _).
    - mstep returns_uuid4_hex. intros u5 r5 _. apply returns_ret. reflexivity.
    - apply returns_ret. reflexivity. }
  eapply returns_weaken; [exact H4 |]. cbn beta. intros fs4 r4 Hfs4.
  mstep returns_utcnow. intros now r5 _.
  apply returns_ret.
  cbn [RiskAssessment.risk_factors RiskAssessment.recommended_actions].
  split; [| reflexivity].
  rewrite !List.map_app, Hfs1, Hfs2, Hfs3, Hfs4.
  unfold customer_severities. rewrite <- !app_assoc. reflexivity.
Qed.

Lemma criticality_severity c :
  _score_to_severity (criticality_score c)
  = if bool_decide (Py.lower (Customer.business_criticality c) = "critical")
    then CRITICAL
    else if bool_decide (Py.lower (Customer.business_criticality c) = "high")
         then MEDIUM else LOW.
Proof.
  unfold criticality_score, criticality_map. cbn [dict_get].
  repeat (destruct (decide _) as [? | ?]);
    repeat case_bool_decide;
    first [exfalso; congruence | vm_compute; reflexivity].
Qed.

Lemma no_high_risk_factors fs :
  filter (fun f => RiskFactor.severity f ∈ [HIGH; CRITICAL]) fs = []
  <-> Forall (fun s => s = LOW \/ s = MEDIUM) (map RiskFactor.severity fs).
Proof.
  induction fs as [| f fs IH]; [split; [constructor | reflexivity] |].
  cbn [map]. rewrite filter_cons.
  destruct (decide (RiskFactor.severity f ∈ [HIGH; CRITICAL])) as [Hin | Hout].
  - split; [discriminate |]. intros Hall. apply Forall_cons in Hall as [[H | H] _];
      rewrite H in Hin; apply list_elem_of_In in Hin; cbn in Hin;
      destruct Hin as [? | [? | []]]; discriminate.
  - rewrite IH. split.
    + intros Hall. constructor; [| exact Hall].
      destruct (RiskFactor.severity f); auto; exfalso; apply Hout.
      * apply elem_of_cons. left. reflexivity.
      * apply elem_of_cons. right. apply elem_of_cons. left. reflexivity.
    + intros Hall. apply Forall_cons in Hall as [_ Hall]. exact Hall.
Qed.

Lemma high_risk_severities c :
  Forall (fun s => s = LOW \/ s = MEDIUM) (customer_severities c)
  <-> high_risk c = false.
Proof.
  unfold customer_severities, high_risk. rewrite criticality_severity.
  destruct (bool_decide (Py.lower (Customer.business_criticality c) = "critical")).
  - split; [| discriminate]. intros Hall.
    apply Forall_cons in Hall as [[H | H] _]; discriminate.
  - destruct (Customer.compliance_requirements c) as [| req reqs].
    + destruct (5 <? length (Customer.channels c))%nat.
      * split; [| discriminate]. intros Hall. cbn in Hall.
        apply Forall_cons in Hall as [_ Hall].
        apply Forall_cons in Hall as [[H | H] _]; discriminate.
      * split; [reflexivity |]. intros _.
        destruct (bool_decide (_ = "high")), (existsb _ _), (negb _ && negb _);
          cbn;
          repeat (apply List.Forall_cons;
                  [first [left; reflexivity | right; reflexivity] |]);
          apply List.Forall_nil.
    + split; [| discriminate]. intros Hall. cbn in Hall.
      apply Forall_cons in Hall as [_ Hall].
      apply Forall_cons in Hall as [[H | H] _]; discriminate.
Qed.

End Recommendations.

(** X26.  The recommended actions of [assess_customer].  The two actions
    for high-risk factors are recommended exactly for a customer whose
    business criticality is ["critical"] (in any letter case), or who has
    a compliance requirement, or more than five channels: the criticality
    ["high"] alone gives a factor of severity [MEDIUM] and does not count.
    The compliance action follows for a customer with a compliance
    requirement, the prioritisation action for more than three channels,
    and the rollback and monitoring actions always close the list. *)
Theorem assess_customer_recommendations (c : Customer.t) (r : Runtime) :
  exists a r',
    RiskAssessor.assess_customer c r = (Ok a, r') /\
    RiskAssessment.recommended_actions a
    = ((if high_risk c
        then [ "Implement phased migration approach due to high-risk factors";
               "Conduct thorough simulation testing before cutover" ]
        else []) ++
       (match Customer.compliance_requirements c with
        | [] => []
        | _ => [ "Validate compliance requirements in test environment" ]
        end) ++
       (if (3 <? length (Customer.channels c))%nat
        then [ "Prioritize channels by business impact and migrate sequentially" ]
        else []) ++
       [ "Establish rollback procedures for each migration phase";
         "Set up real-time monitoring during cutover period" ])%list.
Proof.
  destruct (returns_assess_customer_severities c r)
    as (a & r' & Hrun & Hseverities & Hactions).
  exists a, r'. split; [exact Hrun |].
  rewrite Hactions. unfold RiskAssessor._generate_recommendations.
  pose proof (no_high_risk_factors (RiskAssessment.risk_factors a)) as Hnone.
  rewrite Hseverities, high_risk_severities in Hnone.
  destruct (filter _ (RiskAssessment.risk_factors a)) as [| f fs].
  - rewrite (proj1 Hnone eq_refl). reflexivity.
  - destruct (high_risk c); [reflexivity |].
    destruct Hnone as [_ Hnone]. discriminate (Hnone eq_refl).
Qed.



(* ===================================================================== *)
(** * The simulation engine *)
(* ===================================================================== *)

(** The fields of a simulation after its updates. *)
Ltac reduce_simulation :=
  cbn [MigrationSimulation.simulation_id MigrationSimulation.customer_id
       MigrationSimulation.channel_id MigrationSimulation.scenarios
       MigrationSimulation.results MigrationSimulation.overall_status
       MigrationSimulation.success_rate MigrationSimulation.started_at
       MigrationSimulation.completed_at
       MigrationSimulation.set_overall_status
       MigrationSimulation.set_started_at MigrationSimulation.set_results
       MigrationSimulation.set_completed_at
       MigrationSimulation.set_success_rate].

Section SimulationRuns.

Import SimulationEngine.

Variable json_dumps : list (string * Json) -> string.

Implicit Types (r : Runtime) (scenario : TestScenario.t)
  (scenarios : list TestScenario.t) (result : SimulationResult.t)
  (s : MigrationSimulation.t).

(** The two platforms answer with the test data of the scenario: the
    comparison finds nothing. *)
Lemma compare_outputs_same_data scenario (legacy modern : Response.t) :
  Response.status legacy = Response.status modern ->
  Response.data legacy = Response.data modern ->
  _compare_outputs json_dumps legacy modern scenario = [].
Proof.
  intros Hstatus Hdata. unfold _compare_outputs.
  rewrite Hstatus, Hdata.
  rewrite !(bool_decide_eq_true_2 _ eq_refl). reflexivity.
Qed.

Lemma returns_execute_scenario scenario r :
  returns (_execute_scenario json_dumps scenario) r
    (fun result r' => clean_result scenario result /\ same_registries r r').
Proof.
  unfold returns, _execute_scenario, _simulate_legacy_response,
    _simulate_modern_response, bind, uuid4_hex, utcnow, ret.
  cbv beta iota zeta.
  eexists _, _. split; [reflexivity |]. unfold clean_result.
  cbn [SimulationResult.scenario_id SimulationResult.success
       SimulationResult.status SimulationResult.differences
       SimulationResult.errors SimulationResult.warnings
       SimulationResult.legacy_output SimulationResult.modern_output].
  rewrite compare_outputs_same_data by reflexivity.
  split; [split_and!; reflexivity | split; reflexivity].
Qed.

Lemma all_successful scenarios (results : list SimulationResult.t) :
  Forall2 clean_result scenarios results ->
  length (List.filter SimulationResult.success results) = length scenarios.
Proof.
  intros Hall. induction Hall as [| scenario result l l' Hclean _ IH];
    [reflexivity |].
  destruct Hclean as (_ & Hsuccess & _).
  cbn [List.filter length]. rewrite Hsuccess. cbn [length]. rewrite IH.
  reflexivity.
Qed.

(** What [execute_simulation] computes: every scenario gives a clean
    result; the rate is computed from the counts when there is a scenario
    and is left as it was when there is none. *)
Lemma returns_execute_simulation s r :
  returns (execute_simulation json_dumps s) r
    (fun s' r' =>
       simulation_run s s' /\
       Forall2 clean_result (MigrationSimulation.scenarios s)
               (MigrationSimulation.results s') /\
       (MigrationSimulation.success_rate s'
        == match MigrationSimulation.scenarios s with
           | [] => MigrationSimulation.success_rate s
           | _ => 100
           end)%Q /\
       MigrationSimulation.overall_status s'
       = (if Qle_bool 95.0%Q (MigrationSimulation.success_rate s')
          then SimulationStatus.PASSED else SimulationStatus.FAILED) /\
       same_registries r r').
Proof.
  unfold execute_simulation.
  mstep returns_utcnow. intros started r1 Hr1.
  cbn [MigrationSimulation.scenarios MigrationSimulation.set_started_at
       MigrationSimulation.set_overall_status].
  mstep (returns_mapM (_execute_scenario json_dumps) clean_result).
  { apply returns_execute_scenario. }
  intros results r2 [Hresults Hr2].
  mstep returns_utcnow. intros completed r3 Hr3.
  apply returns_ret.
  rewrite (all_successful _ _ Hresults).
  assert (Hregs : same_registries r r3).
  { eapply same_registries_trans; [exact Hr1 |].
    eapply same_registries_trans; [exact Hr2 | exact Hr3]. }
  cbv beta. unfold simulation_run.
  reduce_simulation.
  destruct (MigrationSimulation.scenarios s) as [| scenario scenarios] eqn:Hscenarios.
  - reduce_simulation.
    destruct (Qle_bool 95.0 (MigrationSimulation.success_rate s)) eqn:Hrate;
      reduce_simulation; rewrite ?Hrate, ?Hscenarios;
      (split_and!; try reflexivity; try assumption; try (eexists; reflexivity)).
  - reduce_simulation.
    set (n := inject_Z (Z.of_nat (length (scenario :: scenarios)))).
    assert (Hn : (0 < n)%Q) by apply length_positive.
    assert (Hfull : (n / n * 100.0 == 100)%Q) by (field; lra).
    assert (Hpass : Qle_bool 95.0 (n / n * 100.0)%Q = true)
      by (apply Qle_bool_iff; rewrite Hfull; lra).
    rewrite Hpass. reduce_simulation. rewrite ?Hpass, ?Hscenarios.
    split_and!; try reflexivity; try assumption; try (eexists; reflexivity).
Qed.

(** Every channel type has one or two templates; the scenarios are
    numbered from 01 in the order of the templates. *)
Lemma generated_scenarios (channel : IntegrationChannel.t) :
  let scenarios := _generate_scenarios channel in
  (1 <= length scenarios <= 2)%nat /\
  map TestScenario.scenario_id scenarios
  = map (fun i => "SCEN-" +:+ IntegrationChannel.channel_id channel +:+ "-" +:+
                  Py.zfill 2 (Z.of_nat i + 1))
        (seq 0 (length scenarios)) /\
  Forall (fun scenario =>
            TestScenario.channel_type scenario
            = ChannelType_value (IntegrationChannel.channel_type channel))
         scenarios.
Proof.
  cbv zeta. unfold _generate_scenarios.
  destruct (IntegrationChannel.channel_type channel) eqn:Htype;
    unfold scenario_templates; cbn [dict_get];
    repeat (destruct (decide _) as [? | ?]; try discriminate; try congruence);
    cbn [imap length seq map fmap list_fmap];
    (split; [lia |]); (split; [reflexivity |]);
    unfold scenario_of; rewrite Htype;
    repeat (apply List.Forall_cons; [reflexivity |]); apply List.Forall_nil.
Qed.

Lemma returns_create_simulation customer_id (channel : IntegrationChannel.t) r :
  returns (create_simulation customer_id channel) r
    (fun s r' =>
       s = {| MigrationSimulation.simulation_id :=
                "SIM-" +:+ Py.prefix 8 (uuid_stream (world r) (uuid_drawn (world r)));
              MigrationSimulation.customer_id := customer_id;
              MigrationSimulation.channel_id :=
                IntegrationChannel.channel_id channel;
              MigrationSimulation.scenarios := _generate_scenarios channel;
              MigrationSimulation.results := [];
              MigrationSimulation.overall_status := SimulationStatus.PENDING;
              MigrationSimulation.success_rate := 0.0%Q;
              MigrationSimulation.started_at := None;
              MigrationSimulation.completed_at := None |} /\
       same_registries r r').
Proof.
  unfold returns, create_simulation, bind, uuid4_hex, ret. cbv beta iota zeta.
  eexists _, _. split; [reflexivity |]. split; [reflexivity |].
  split; reflexivity.
Qed.

End SimulationRuns.

(** X27.  The engine cannot report a failure: for every scenario,
    [_execute_scenario] returns a result for that scenario that succeeded
    with status [passed] and without differences, errors or warnings,
    because the two simulated platforms both answer ["success"] with the
    test data of the scenario, whatever [json.dumps] makes of them.  No
    registry changes. *)
Theorem execute_scenario_never_fails
  (json_dumps : list (string * Json) -> string)
  (scenario : TestScenario.t) (r : Runtime) :
  exists result r',
    SimulationEngine._execute_scenario json_dumps scenario r = (Ok result, r') /\
    clean_result scenario result /\
    same_registries r r'.
Proof. apply returns_execute_scenario. Qed.



(** X29.  [execute_simulation] on a simulation without scenarios runs
    nothing and leaves the success rate as it was; the status is decided
    by that rate, so that a simulation with the initial rate 0 fails and
    one that carries a rate of 95 or more passes without any result. *)
Theorem execute_simulation_without_scenarios
  (json_dumps : list (string * Json) -> string)
  (s : MigrationSimulation.t) (r : Runtime) :
  MigrationSimulation.scenarios s = [] ->
  exists s' r',
    SimulationEngine.execute_simulation json_dumps s r = (Ok s', r') /\
    simulation_run s s' /\
    MigrationSimulation.results s' = [] /\
    (MigrationSimulation.success_rate s' == MigrationSimulation.success_rate s)%Q /\
    MigrationSimulation.overall_status s'
    = (if Qle_bool 95.0%Q (MigrationSimulation.success_rate s)
       then SimulationStatus.PASSED else SimulationStatus.FAILED) /\
    MigrationSimulation.passed s'
    = Qle_bool 95.0%Q (MigrationSimulation.success_rate s).
Proof.
  intros Hscenarios.
  destruct (returns_execute_simulation json_dumps s r)
    as (s' & r' & Hrun & Hsame & Hresults & Hrate & Hstatus & _).
  rewrite Hscenarios in Hresults, Hrate.
  assert (Hle : Qle_bool 95.0%Q (MigrationSimulation.success_rate s')
                = Qle_bool 95.0%Q (MigrationSimulation.success_rate s))
    by (rewrite Hrate; reflexivity).
  rewrite Hle in Hstatus.
  exists s', r'. split_and!; try assumption.
  - inversion Hresults. reflexivity.
  - unfold MigrationSimulation.passed. rewrite Hstatus, Hle.
    destruct (Qle_bool 95.0%Q (MigrationSimulation.success_rate s)); reflexivity.
Qed.

Lemma execute_simulation_without_scenarios_witness :
  exists s' r',
    SimulationEngine.execute_simulation
      (fun _ => "") SimulationScenario.empty Scenario.fresh = (Ok s', r') /\
    simulation_run SimulationScenario.empty s' /\
    MigrationSimulation.results s' = [] /\
    (MigrationSimulation.success_rate s'
     == MigrationSimulation.success_rate SimulationScenario.empty)%Q /\
    MigrationSimulation.overall_status s'
    = (if Qle_bool 95.0%Q (MigrationSimulation.success_rate SimulationScenario.empty)
       then SimulationStatus.PASSED else SimulationStatus.FAILED) /\
    MigrationSimulation.passed s'
    = Qle_bool 95.0%Q (MigrationSimulation.success_rate SimulationScenario.empty).
Proof.
  apply (execute_simulation_without_scenarios
           (fun _ => "") SimulationScenario.empty Scenario.fresh).
  reflexivity.
Defined.

(** X30.  A simulation made by [create_simulation] always passes.
    [create_simulation] returns, for every customer id and channel, a
    pending simulation named after the next identifier of the world, for
    that customer and channel, without results and with one or two
    scenarios of the channel's type, numbered ["SCEN-<channel id>-01"],
    ["-02"] in the order of the templates; [execute_simulation] on it
    returns it with as many results as scenarios, the success rate 100
    and the property [passed] true.  No registry changes. *)
Theorem created_simulation_passes
  (json_dumps : list (string * Json) -> string)
  (customer_id : string) (channel : IntegrationChannel.t) (r : Runtime) :
  exists s r1 s' r2,
    SimulationEngine.create_simulation customer_id channel r = (Ok s, r1) /\
    MigrationSimulation.simulation_id s
    = "SIM-" +:+ Py.prefix 8 (uuid_stream (world r) (uuid_drawn (world r))) /\
    MigrationSimulation.customer_id s = customer_id /\
    MigrationSimulation.channel_id s = IntegrationChannel.channel_id channel /\
    MigrationSimulation.overall_status s = SimulationStatus.PENDING /\
    MigrationSimulation.results s = [] /\
    (1 <= length (MigrationSimulation.scenarios s) <= 2)%nat /\
    map TestScenario.scenario_id (MigrationSimulation.scenarios s)
    = map (fun i => "SCEN-" +:+ IntegrationChannel.channel_id channel +:+ "-" +:+
                    Py.zfill 2 (Z.of_nat i + 1))
          (seq 0 (length (MigrationSimulation.scenarios s))) /\
    Forall (fun scenario =>
              TestScenario.channel_type scenario
              = ChannelType_value (IntegrationChannel.channel_type channel))
           (MigrationSimulation.scenarios s) /\
    SimulationEngine.execute_simulation json_dumps s r1 = (Ok s', r2) /\
    length (MigrationSimulation.results s')
    = length (MigrationSimulation.scenarios s) /\
    (MigrationSimulation.success_rate s' == 100)%Q /\
    MigrationSimulation.passed s' = true /\
    same_registries r r2.
Proof.
  destruct (returns_create_simulation customer_id channel r)
    as (s & r1 & Hrun1 & -> & Hr1).
  destruct (generated_scenarios channel) as ([Hmin Hmax] & Hids & Htypes).
  cbv zeta in Hmin, Hmax, Hids, Htypes.
  match type of Hrun1 with _ = (Ok ?s0, _) => set (s := s0) in * end.
  destruct (returns_execute_simulation json_dumps s r1)
    as (s' & r2 & Hrun2 & _ & Hresults & Hrate & Hstatus & Hr2).
  assert (Hne : MigrationSimulation.scenarios s <> []).
  { subst s. cbn [MigrationSimulation.scenarios]. intros Hnil.
    rewrite Hnil in Hmin. cbn in Hmin. lia. }
  destruct (MigrationSimulation.scenarios s) as [| scenario scenarios] eqn:Hscenarios;
    [contradiction |].
  assert (Hpass : Qle_bool 95.0%Q (MigrationSimulation.success_rate s') = true)
    by (apply Qle_bool_iff; rewrite Hrate; vm_compute; discriminate).
  rewrite Hpass in Hstatus.
  exists s, r1, s', r2.
  assert (Hgen : SimulationEngine._generate_scenarios channel = scenario :: scenarios)
    by exact Hscenarios.
  rewrite Hgen in Hmin, Hmax, Hids, Htypes.
  rewrite !Hscenarios.
  split; [exact Hrun1 |].
  split; [reflexivity |]. split; [reflexivity |]. split; [reflexivity |].
  split; [reflexivity |]. split; [reflexivity |].
  split; [split; assumption |]. split; [exact Hids |]. split; [exact Htypes |].
  split; [exact Hrun2 |].
  split; [symmetry; exact (Forall2_length _ _ _ Hresults) |].
  split; [exact Hrate |].
  split; [unfold MigrationSimulation.passed; rewrite Hstatus, Hpass; reflexivity |].
  eapply same_registries_trans; eassumption.
Qed.
